(** * Verification of the cricket-scraper extraction core

    Shallow embedding of the pure parsing functions of
    [core/commentary_parser.py] and [core/metadata_extractor.py]:
    the column normalizer, the photo-marker cleanup, the
    commentary-to-table mapper, bowler/batsman attribution, roster
    deduplication, the team-name resolver and the metadata extractor;
    and of what their callers in [main.py], [scraping/match_scraper.py],
    [scraping/player_extractor.py] and [scraping/schedule_scraper.py]
    compute around them: match identifiers, innings bookkeeping, column
    names, roster statistics, the link list of the schedule page and
    the retry loops, whose passes are given by the world they run in.

    Python [str] values are modelled as [string] whose characters are
    code points below 256; Python lists as [list]; a [dict] whose
    iteration order matters as an association list in insertion order,
    and a [dict] used only through lookups as a [gmap]. *)

From Stdlib Require Import String Ascii List Arith Lia Bool.
From Stdlib Require Import Sorting.Permutation Sorting.Sorted DecimalString.
From stdpp Require Import base gmap strings.
Import ListNotations.

Local Open Scope string_scope.
Local Open Scope list_scope.

(** ** Python built-ins on [str] *)

Module Py.

(** [str.isspace] on one character (code points below 256). *)
Definition is_space (c : ascii) : bool :=
  let n := nat_of_ascii c in
  (((9 <=? n) && (n <=? 13)) || ((28 <=? n) && (n <=? 32))
   || (n =? 133) || (n =? 160))%nat.

(** [c.isdigit()] restricted to the decimal digits matched by [\d]. *)
Definition is_digit (c : ascii) : bool :=
  let n := nat_of_ascii c in ((48 <=? n) && (n <=? 57))%nat.

(** [str.lower] on one character. *)
Definition lower_char (c : ascii) : ascii :=
  let n := nat_of_ascii c in
  if (((65 <=? n) && (n <=? 90))
      || ((192 <=? n) && (n <=? 222) && negb (n =? 215)))%nat
  then ascii_of_nat (n + 32) else c.

(** [s.lower()] *)
Fixpoint lower (s : string) : string :=
  match s with
  | EmptyString => EmptyString
  | String c s' => String (lower_char c) (lower s')
  end.

(** [s.lstrip()] *)
Fixpoint lstrip (s : string) : string :=
  match s with
  | EmptyString => EmptyString
  | String c s' => if is_space c then lstrip s' else s
  end.

(** [s.rstrip()] *)
Fixpoint rstrip (s : string) : string :=
  match s with
  | EmptyString => EmptyString
  | String c s' =>
      match rstrip s' with
      | EmptyString => if is_space c then EmptyString else String c EmptyString
      | t => String c t
      end
  end.

(** [s.strip()] *)
Definition strip (s : string) : string := rstrip (lstrip s).

(** Truthiness of a [str]: non-empty. *)
Definition truthy (s : string) : bool :=
  match s with EmptyString => false | _ => true end.

(** [s[:n]] and [s[n:]] for [0 <= n]. *)
Fixpoint take (n : nat) (s : string) : string :=
  match n, s with
  | S n', String c s' => String c (take n' s')
  | _, _ => EmptyString
  end.

Fixpoint drop (n : nat) (s : string) : string :=
  match n, s with
  | S n', String _ s' => drop n' s'
  | _, _ => s
  end.

(** [s.find(sub)]: index of the first occurrence, [None] for -1. *)
Fixpoint find (sub s : string) : option nat :=
  if String.prefix sub s then Some 0
  else match s with
       | EmptyString => None
       | String _ s' => option_map S (find sub s')
       end.

(** [sub in s] *)
Definition contains (sub s : string) : bool :=
  match find sub s with Some _ => true | None => false end.

(** [s.split(sep)] for a non-empty [sep]: cut at each occurrence found
    left to right.  Every cut consumes at least one character, so
    [S (length s)] rounds suffice. *)
Fixpoint split_fuel (fuel : nat) (sep s : string) : list string :=
  match fuel with
  | O => [s]
  | S fuel' =>
      match find sep s with
      | None => [s]
      | Some i =>
          take i s :: split_fuel fuel' sep (drop (i + String.length sep) s)
      end
  end.

Definition split (sep s : string) : list string :=
  split_fuel (S (String.length s)) sep s.

(** [s.replace(old, new)] for a non-empty [old]. *)
Fixpoint replace_fuel (fuel : nat) (old new s : string) : string :=
  match fuel with
  | O => s
  | S fuel' =>
      match find old s with
      | None => s
      | Some i =>
          take i s ++ new
            ++ replace_fuel fuel' old new (drop (i + String.length old) s)
      end
  end.

Definition replace (old new s : string) : string :=
  replace_fuel (S (String.length s)) old new s.

(** [s.replace(old, new, 1)]: the first occurrence only.  An empty
    [old] is found at index 0. *)
Definition replace1 (old new s : string) : string :=
  match find old s with
  | None => s
  | Some i => take i s ++ new ++ drop (i + String.length old) s
  end.

(** [sep.join(parts)] *)
Fixpoint join (sep : string) (parts : list string) : string :=
  match parts with
  | [] => EmptyString
  | [p] => p
  | p :: ps => p ++ sep ++ join sep ps
  end.

(** [str(n)] for a non-negative [int]. *)
Definition str_of_nat (n : nat) : string :=
  NilEmpty.string_of_uint (Nat.to_uint n).

End Py.

(** ** The parsed document ([bs4]) *)

Module Bs4.

(** A parsed element: a tag with its name, its multi-valued [class]
    attribute ([None] when the attribute is absent) and its contents,
    or a text node.  The functions modelled here read no other
    attribute. *)
Inductive node : Type :=
| Tag (name : string) (class_ : option (list string)) (contents : list node)
| NavigableString (text : string).

(** Document order: a node, then its contents, recursively. *)
Fixpoint preorder (n : node) : list node :=
  n :: match n with
       | Tag _ _ cs => flat_map preorder cs
       | NavigableString _ => []
       end.

(** [tag.descendants] *)
Definition descendants (n : node) : list node :=
  match n with
  | Tag _ _ cs => flat_map preorder cs
  | NavigableString _ => []
  end.

(** The text nodes below a node, in document order. *)
Fixpoint strings (n : node) : list string :=
  match n with
  | Tag _ _ cs => flat_map strings cs
  | NavigableString s => [s]
  end.

(** [tag.get_text(separator, strip=True)]: every text node is
    stripped, the empty ones are skipped, the rest is joined. *)
Definition get_text_strip (separator : string) (n : node) : string :=
  Py.join separator (List.filter Py.truthy (map Py.strip (strings n))).

(** How a [class_] argument is matched against the attribute: a plain
    string matches one of the classes or the whole attribute value; a
    function is tried on each class, then on the whole value, and on
    [None] when the attribute is absent. *)
Inductive class_filter : Type :=
| AnyClass
| ClassIs (want : string)
| ClassSat (f : option string -> bool).

Definition matches_class (flt : class_filter) (cls : option (list string)) : bool :=
  match flt, cls with
  | AnyClass, _ => true
  | ClassIs want, None => false
  | ClassIs want, Some l =>
      existsb (String.eqb want) l || String.eqb (Py.join " " l) want
  | ClassSat f, None => f None
  | ClassSat f, Some l =>
      existsb (fun c => f (Some c)) l || f (Some (Py.join " " l))
  end.

Definition matches (name : string) (flt : class_filter) (n : node) : bool :=
  match n with
  | Tag name' cls _ => String.eqb name' name && matches_class flt cls
  | NavigableString _ => false
  end.

(** [tag.find_all(name, class_=flt)] and [tag.find(name, class_=flt)] *)
Definition find_all (name : string) (flt : class_filter) (n : node) : list node :=
  List.filter (matches name flt) (descendants n).

Definition find (name : string) (flt : class_filter) (n : node) : option node :=
  head (find_all name flt n).

(** A tag inside a document is addressed by the child indices leading
    to it from the root (the [BeautifulSoup] object). *)
Definition path := list nat.

Fixpoint subtree (root : node) (p : path) : option node :=
  match p with
  | [] => Some root
  | i :: p' =>
      match root with
      | Tag _ _ cs =>
          match nth_error cs i with
          | Some c => subtree c p'
          | None => None
          end
      | NavigableString _ => None
      end
  end.

(** [tag.find_parent()]: the enclosing tag, [None] at the root. *)
Definition find_parent (p : path) : option path :=
  match p with
  | [] => None
  | _ => Some (removelast p)
  end.

(** The nodes parsed before the node at [p], in document order. *)
Fixpoint before (root : node) (p : path) : list node :=
  match p with
  | [] => []
  | i :: p' =>
      match root with
      | Tag _ _ cs =>
          root :: flat_map preorder (firstn i cs)
            ++ match nth_error cs i with
               | Some c => before c p'
               | None => []
               end
      | NavigableString _ => []
      end
  end.

(** [tag.find_previous(name, class_=flt)]: the nearest match walking
    backwards through [previous_elements]. *)
Definition find_previous (name : string) (flt : class_filter)
    (root : node) (p : path) : option node :=
  head (List.filter (matches name flt) (rev (before root p))).

End Bs4.

(** ** Tags with their attributes *)

Module Html.

(** A parsed element as the roster extraction reads it: a tag with its
    attributes other than [class], its classes and its contents, or a
    text node. *)
Inductive element : Type :=
| Elem (name : string) (attrs : list (string * string))
    (class_ : option (list string)) (contents : list element)
| Str (text : string).

(** The same document without the attributes. *)
Fixpoint erase (e : element) : Bs4.node :=
  match e with
  | Elem name _ class_ contents => Bs4.Tag name class_ (map erase contents)
  | Str text => Bs4.NavigableString text
  end.

(** [tag.get(attr)] for an attribute other than [class]. *)
Definition get (e : element) (attr : string) : option string :=
  match e with
  | Elem _ attrs _ _ =>
      option_map snd (List.find (fun kv => String.eqb (fst kv) attr) attrs)
  | Str _ => None
  end.

(** [tag.get("class", [])] *)
Definition get_class (e : element) : list string :=
  match e with
  | Elem _ _ (Some l) _ => l
  | _ => []
  end.

(** Document order below and including [e], each element with the
    child indices that lead to it; [here] leads to [e]. *)
Fixpoint preorder_at (here : Bs4.path) (e : element)
    : list (Bs4.path * element) :=
  (here, e)
    :: match e with
       | Elem _ _ _ contents =>
           (fix go (i : nat) (l : list element) {struct l}
              : list (Bs4.path * element) :=
              match l with
              | [] => []
              | c :: l' => preorder_at (here ++ [i]) c ++ go (S i) l'
              end) 0 contents
       | Str _ => []
       end.

(** [tag.descendants], with their places. *)
Definition descendants_at (here : Bs4.path) (e : element)
    : list (Bs4.path * element) :=
  tl (preorder_at here e).

(** A tag passes [find_all(name, class_=flt, attr=...)] when its name
    and classes do and [attr_ok] accepts its attributes. *)
Definition matches (name : string) (flt : Bs4.class_filter)
    (attr_ok : element -> bool) (e : element) : bool :=
  match e with
  | Elem name' _ class_ _ =>
      String.eqb name' name && Bs4.matches_class flt class_ && attr_ok e
  | Str _ => false
  end.

Definition find_all_at (here : Bs4.path) (name : string)
    (flt : Bs4.class_filter) (attr_ok : element -> bool) (e : element)
    : list (Bs4.path * element) :=
  List.filter (fun pe => matches name flt attr_ok (snd pe)) (descendants_at here e).

Definition find_all (name : string) (flt : Bs4.class_filter)
    (attr_ok : element -> bool) (e : element) : list element :=
  map snd (find_all_at [] name flt attr_ok e).

Definition find (name : string) (flt : Bs4.class_filter)
    (attr_ok : element -> bool) (e : element) : option element :=
  head (find_all name flt attr_ok e).

(** No condition on the attributes. *)
Definition any_attrs (e : element) : bool := true.

(** [tag.get_text(strip=True)] *)
Definition get_text_strip (e : element) : string :=
  Bs4.get_text_strip "" (erase e).

Fixpoint subelement (root : element) (p : Bs4.path) : option element :=
  match p with
  | [] => Some root
  | i :: p' =>
      match root with
      | Elem _ _ _ contents =>
          match nth_error contents i with
          | Some c => subelement c p'
          | None => None
          end
      | Str _ => None
      end
  end.

(** [tag.find_parent(name)] for the tag at [p]: the nearest enclosing
    tag of that name; [fuel] bounds the climb by the depth of [p]. *)
Fixpoint find_parent_from (fuel : nat) (name : string) (root : element)
    (p : Bs4.path) : option element :=
  match fuel with
  | O => None
  | S fuel' =>
      match p with
      | [] => None
      | _ =>
          let parent := removelast p in
          match subelement root parent with
          | Some (Elem name' attrs class_ contents) =>
              if String.eqb name' name
              then Some (Elem name' attrs class_ contents)
              else find_parent_from fuel' name root parent
          | _ => None
          end
      end
  end.

Definition find_parent (name : string) (root : element) (p : Bs4.path)
    : option element :=
  find_parent_from (length p) name root p.

End Html.

(** ** [core/commentary_parser.py] *)

Module CommentaryParser.

(** A row is the list of text fields of one commentary block. *)
Definition row := list string.

(** *** [_clean_photo_markers] *)

(** [current and 'see all photo' in current.lower()] *)
Definition is_photo_marker (current : string) : bool :=
  Py.truthy current && Py.contains "see all photo" (Py.lower current).

(** [not next_element or not next_element.strip()] *)
Definition is_blank (next_element : string) : bool :=
  negb (Py.truthy next_element) || negb (Py.truthy (Py.strip next_element)).

(** The [while i < len(all_text)] loop; the argument is the part of
    [all_text] from index [i] on, the result is what the loop appends
    to [cleaned] from there.  [i += 2] continues after the next
    element, [i += 1] with it. *)
Fixpoint _clean_photo_markers (all_text : list string) : list string :=
  match all_text with
  | [] => []
  | current :: rest =>
      if is_photo_marker current then
        match rest with
        | [] => []
        | next_element :: rest' =>
            if is_blank next_element
            then _clean_photo_markers rest'
            else _clean_photo_markers rest
        end
      else current :: _clean_photo_markers rest
  end.

(** *** [_normalize_columns] *)

(** [column_counts] is a [dict] from row length to number of rows; it
    is iterated by [max], in insertion order: a new key goes to the
    end, an existing key is updated in place. *)
Definition counts := list (nat * nat).

(** [column_counts.get(count, 0)] *)
Fixpoint dict_get (d : counts) (k : nat) : nat :=
  match d with
  | [] => 0
  | (k', v) :: d' => if Nat.eqb k' k then v else dict_get d' k
  end.

(** [column_counts[count] = v] *)
Fixpoint dict_set (d : counts) (k v : nat) : counts :=
  match d with
  | [] => [(k, v)]
  | (k', v') :: d' =>
      if Nat.eqb k' k then (k', v) :: d' else (k', v') :: dict_set d' k v
  end.

Definition keys (d : counts) : list nat := map fst d.

(** One round of [for row in data: count = len(row);
    column_counts[count] = column_counts.get(count, 0) + 1]. *)
Definition count_row (d : counts) (r : row) : counts :=
  let count := length r in
  dict_set d count (dict_get d count + 1).

Definition column_counts (data : list row) : counts :=
  fold_left count_row data [].

(** [max(iterable, key=f)] visits the items in order and keeps the
    first one whose key is maximal: the current best is replaced only
    by a strictly larger key. *)
Fixpoint max_from (f : nat -> nat) (best : nat) (ks : list nat) : nat :=
  match ks with
  | [] => best
  | k :: ks' => max_from f (if Nat.ltb (f best) (f k) then k else best) ks'
  end.

(** [max] raises [ValueError] on an empty iterable: [None]. *)
Definition py_max (f : nat -> nat) (ks : list nat) : option nat :=
  match ks with
  | [] => None
  | k :: ks' => Some (max_from f k ks')
  end.

(** [target_columns = max(column_counts, key=column_counts.get)] *)
Definition target_columns (data : list row) : option nat :=
  let d := column_counts data in
  py_max (dict_get d) (keys d).

(** The body of the second loop, for one row. *)
Definition normalize_row (target_columns : nat) (r : row) : row :=
  let current_length := length r in
  if Nat.eqb current_length target_columns then r
  else if Nat.ltb current_length target_columns then
    let padding_needed := target_columns - current_length in
    if Nat.ltb 0 (length r)
    then removelast r ++ repeat "" padding_needed ++ [List.last r ""]
    else repeat "" target_columns
  else firstn target_columns r.

(** [_normalize_columns(data)].  [max] cannot raise once [data] is
    non-empty; were it to, the caller's handler would return [[]]. *)
Definition _normalize_columns (data : list row) : list row :=
  match data with
  | [] => []
  | _ =>
      match target_columns data with
      | Some target => map (normalize_row target) data
      | None => []
      end
  end.

(** *** [extract_bowler_batsman] *)

(** A cell of a [DataFrame] column of texts: a [str], or [None]/[NaN]. *)
Definition cell := option string.

(** The result [pd.Series([bowler, batsman])] as a pair. *)
Definition extract_bowler_batsman (event : cell) : cell * cell :=
  match event with
  | None => (None, None)
  | Some event =>
      if negb (Py.truthy event) then (None, None)
      else
        let parts := Py.split " to " event in
        match parts with
        | p0 :: p1 :: _ =>
            let bowler := Py.strip p0 in
            if Py.contains "," p1 then
              match Py.split "," p1 with
              | b :: _ => (Some bowler, Some (Py.strip b))
              | [] => (None, None)
              end
            else (Some bowler, Some (Py.strip p1))
        | _ => (None, None)
        end
  end.

(** *** [to_dataframe] *)

Record DataFrame := mkDataFrame {
  columns : list string;
  values : list (list cell)
}.

(** [pd.DataFrame()] *)
Definition empty_frame : DataFrame := mkDataFrame [] [].

(** [pd.DataFrame(parsed_data).shape[1]]: the longest row gives the
    number of columns. *)
Definition num_columns (parsed_data : list row) : nat :=
  fold_right (fun r n => Nat.max (length r) n) 0 parsed_data.

(** Field [i] of a row of the frame; rows shorter than the frame are
    filled with [None]. *)
Definition field (r : row) (i : nat) : cell := nth_error r i.

(** [pd.isna(c) or c == ""] *)
Definition is_missing (c : cell) : bool :=
  match c with
  | None => true
  | Some s => negb (Py.truthy s)
  end.

Definition final_columns : list string :=
  ["match_ball_number"; "Event"; "Ball"; "Commentary"; "Bowler"; "Batsman"].

(** One row of the six-column layout, after dropping [Runs_Wicket] and
    [Extra] and adding [Bowler] and [Batsman]. *)
Definition map_row6 (r : row) : list cell :=
  let '(bowler, batsman) := extract_bowler_batsman (field r 1) in
  [field r 0; field r 1; field r 2; field r 5; bowler; batsman].

(** One row of the seven-column layout: an empty [Commentary] is filled
    from [Extra]; [Runs_Wicket], [Photo] and [Extra] are dropped. *)
Definition map_row7 (r : row) : list cell :=
  let commentary :=
    if is_missing (field r 6) then field r 5 else field r 6 in
  let '(bowler, batsman) := extract_bowler_batsman (field r 1) in
  [field r 0; field r 1; field r 2; commentary; bowler; batsman].

Definition to_dataframe (parsed_data : list row) : DataFrame :=
  match parsed_data with
  | [] => empty_frame
  | _ =>
      let num_columns := num_columns parsed_data in
      if Nat.eqb num_columns 6 then
        mkDataFrame final_columns (map map_row6 parsed_data)
      else if Nat.eqb num_columns 7 then
        mkDataFrame final_columns (map map_row7 parsed_data)
      else empty_frame
  end.

(** *** [parse_commentary] *)

(** [lambda x: x and "ds-text-article-body-1" in x and "ds-flex" in x
    and "ds-items-start" in x] *)
Definition block_class : Bs4.class_filter :=
  Bs4.ClassSat (fun x =>
    match x with
    | None => false
    | Some x =>
        Py.truthy x && Py.contains "ds-text-article-body-1" x
        && Py.contains "ds-flex" x && Py.contains "ds-items-start" x
    end).

(** [lambda x: x and "ds-text-overline-1" in x and "ds-font-medium" in x] *)
Definition header_class : Bs4.class_filter :=
  Bs4.ClassSat (fun x =>
    match x with
    | None => false
    | Some x =>
        Py.truthy x && Py.contains "ds-text-overline-1" x
        && Py.contains "ds-font-medium" x
    end).

Definition unwanted_terms : list string :=
  ["photos"; "see all"; "image"; "gallery"].

(** STEP 1 *)
Definition header_text (block : Bs4.node) : string :=
  match Bs4.find "div" header_class block with
  | Some header_div => Bs4.get_text_strip "" header_div
  | None => ""
  end.

(** STEP 2 *)
Definition span_texts (block : Bs4.node) : list string :=
  map (Bs4.get_text_strip "")
    (List.filter
       (fun span =>
          negb (existsb
                  (fun term =>
                     Py.contains term (Py.lower (Bs4.get_text_strip "" span)))
                  unwanted_terms))
       (Bs4.find_all "span" Bs4.AnyClass block)).

(** STEP 3 *)
Definition commentary_parts (block : Bs4.node) : list string :=
  let p_texts :=
    map (fun p => Py.replace "," "-" (Bs4.get_text_strip "" p))
      (Bs4.find_all "p" Bs4.AnyClass block) in
  let strong_texts :=
    map (fun strong => Py.replace "," "-" (Bs4.get_text_strip "" strong))
      (Bs4.find_all "strong" Bs4.AnyClass block) in
  p_texts ++ strong_texts.

Definition p_and_strong (block : Bs4.node) : string :=
  match commentary_parts block with
  | [] => ""
  | parts => Py.join "#**#" parts
  end.

(** Whether STEP 4 is entered: [not p_and_strong_combined.strip()]. *)
Definition takes_fallback (block : Bs4.node) : bool :=
  negb (Py.truthy (Py.strip (p_and_strong block))).

(** STEP 4: the block text with the header and each span text removed
    once, stripped. *)
Definition remaining_text (block : Bs4.node) : string :=
  let all_block_text := Bs4.get_text_strip " " block in
  let remaining_text :=
    if Py.truthy (header_text block)
    then Py.replace1 (header_text block) "" all_block_text
    else all_block_text in
  let remaining_text :=
    fold_left (fun remaining span_text => Py.replace1 span_text "" remaining)
      (span_texts block) remaining_text in
  Py.strip remaining_text.

(** The value of [p_and_strong_combined] when the row is built. *)
Definition commentary_text (block : Bs4.node) : string :=
  if takes_fallback block then
    if Py.truthy (remaining_text block) then remaining_text block
    else p_and_strong block
  else p_and_strong block.

(** The row of one block after STEP 5. *)
Definition block_row (idx : nat) (block : Bs4.node) : row :=
  let all_text :=
    if Py.truthy (header_text block)
    then [Py.str_of_nat idx] ++ [header_text block] ++ span_texts block
           ++ [commentary_text block]
    else [Py.str_of_nat idx] ++ span_texts block ++ [commentary_text block] in
  _clean_photo_markers all_text.

(** [all_text and len([x for x in all_text if x]) >= 2] *)
Definition meaningful (all_text : row) : bool :=
  match all_text with
  | [] => false
  | _ => Nat.leb 2 (length (List.filter Py.truthy all_text))
  end.

(** The [for idx, block in enumerate(blocks)] loop from index [idx]. *)
Fixpoint collect_rows (idx : nat) (blocks : list Bs4.node) : list row :=
  match blocks with
  | [] => []
  | block :: blocks' =>
      let all_text := block_row idx block in
      if meaningful all_text
      then all_text :: collect_rows (S idx) blocks'
      else collect_rows (S idx) blocks'
  end.

Section Parse.

(** The parser [BeautifulSoup(html_content, "html.parser")], which
    yields a document or raises ([None]). *)
Variable BeautifulSoup : string -> option Bs4.node.

Definition parse_commentary (html_content : string) : list row :=
  match BeautifulSoup html_content with
  | None => []
  | Some soup =>
      match Bs4.find_all "div" block_class soup with
      | [] => []
      | blocks => _normalize_columns (collect_rows 0 blocks)
      end
  end.

End Parse.

End CommentaryParser.

(** ** [core/metadata_extractor.py] *)

Module MetadataExtractor.

(** *** [_clean_team_name] *)

(** Matching a literal of a pattern compiled with [re.IGNORECASE] at
    the start of [s]: the rest of [s] after the literal. *)
Fixpoint match_literal_ci (lit s : string) : option string :=
  match lit, s with
  | EmptyString, _ => Some s
  | String a lit', String c s' =>
      if Ascii.eqb (Py.lower_char a) (Py.lower_char c)
      then match_literal_ci lit' s' else None
  | String _ _, EmptyString => None
  end.

(** Whether [\s*Innings\s*$] matches [s] from its first character. *)
Definition innings_to_end (s : string) : bool :=
  match match_literal_ci "Innings" (Py.lstrip s) with
  | Some r => negb (Py.truthy (Py.lstrip r))
  | None => false
  end.

(** [re.sub(r'\s*Innings\s*$', '', s, flags=re.IGNORECASE)]: the
    leftmost match runs to the end of [s] and is removed. *)
Fixpoint sub_trailing_innings (s : string) : string :=
  if innings_to_end s then EmptyString
  else match s with
       | EmptyString => EmptyString
       | String c s' => String c (sub_trailing_innings s')
       end.

Fixpoint drop_digits (s : string) : string :=
  match s with
  | EmptyString => EmptyString
  | String c s' => if Py.is_digit c then drop_digits s' else s
  end.

(** The optional group [(st|nd|rd|th)?] at the start of [s]. *)
Definition skip_ordinal_suffix (s : string) : string :=
  match match_literal_ci "st" s with
  | Some r => r
  | None =>
      match match_literal_ci "nd" s with
      | Some r => r
      | None =>
          match match_literal_ci "rd" s with
          | Some r => r
          | None =>
              match match_literal_ci "th" s with
              | Some r => r
              | None => s
              end
          end
      end
  end.

(** [re.sub(r'^\d+(st|nd|rd|th)?\s+Innings\s*', '', s,
    flags=re.IGNORECASE)]: the pattern can match at the start only. *)
Definition sub_leading_ordinal (s : string) : string :=
  let r1 := drop_digits s in
  if Nat.eqb (String.length r1) (String.length s) then s
  else
    let r2 := skip_ordinal_suffix r1 in
    let r3 := Py.lstrip r2 in
    if Nat.eqb (String.length r3) (String.length r2) then s
    else
      match match_literal_ci "Innings" r3 with
      | Some r4 => Py.lstrip r4
      | None => s
      end.

(** [re.sub(r'\s+', ' ', s)]; [in_run] tells that the previous
    character was white space. *)
Fixpoint sub_whitespace (in_run : bool) (s : string) : string :=
  match s with
  | EmptyString => EmptyString
  | String c s' =>
      if Py.is_space c then
        if in_run then sub_whitespace true s'
        else String " "%char (sub_whitespace true s')
      else String c (sub_whitespace false s')
  end.

Definition _clean_team_name (team_name : string) : option string :=
  if negb (Py.truthy team_name) then None
  else
    let team_name := sub_trailing_innings team_name in
    let team_name := sub_leading_ordinal team_name in
    let team_name := sub_whitespace false team_name in
    let cleaned := Py.strip team_name in
    if Py.truthy cleaned && Nat.ltb 2 (String.length cleaned)
    then Some cleaned else None.

(** *** [_extract_team_name_from_table] *)

Definition team_div_class : Bs4.class_filter :=
  Bs4.ClassIs "ds-bg-color-primary-bg ds-p-3".

Definition team_span_class : Bs4.class_filter :=
  Bs4.ClassIs "ds-text-title-1 ds-font-semibold ds-capitalize ds-text-color-text".

(** The cleaned text of a name span, when the span was found. *)
Definition name_of_span (team_span : option Bs4.node) : option string :=
  match team_span with
  | Some team_span => _clean_team_name (Bs4.get_text_strip "" team_span)
  | None => None
  end.

(** A header container, when found, and the name span inside it. *)
Definition name_of_div (team_div : option Bs4.node) : option string :=
  match team_div with
  | Some team_div => name_of_span (Bs4.find "span" team_span_class team_div)
  | None => None
  end.

(** Strategy 1: [for level in range(10)], climbing from [current]. *)
Fixpoint strategy_parents (levels : nat) (root : Bs4.node)
    (current : Bs4.path) : option string :=
  match levels with
  | O => None
  | S levels' =>
      match Bs4.find_parent current with
      | None => None
      | Some parent_path =>
          match Bs4.subtree root parent_path with
          | None => None
          | Some parent =>
              match name_of_div (Bs4.find "div" team_div_class parent) with
              | Some team_name => Some team_name
              | None => strategy_parents levels' root parent_path
              end
          end
      end
  end.

(** Strategy 2: the nearest name span before the table. *)
Definition strategy_previous_span (root : Bs4.node) (table : Bs4.path)
    : option string :=
  name_of_span (Bs4.find_previous "span" team_span_class root table).

(** Strategy 3: the nearest header container before the table. *)
Definition strategy_previous_div (root : Bs4.node) (table : Bs4.path)
    : option string :=
  name_of_div (Bs4.find_previous "div" team_div_class root table).

(** The table is the tag at [table] in the document [root]. *)
Definition _extract_team_name_from_table (root : Bs4.node)
    (table : Bs4.path) (innings_number : nat) : string :=
  match strategy_parents 10 root table with
  | Some team_name => team_name
  | None =>
      match strategy_previous_span root table with
      | Some team_name => team_name
      | None =>
          match strategy_previous_div root table with
          | Some team_name => team_name
          | None => "Team " ++ Py.str_of_nat innings_number
          end
      end
  end.

(** *** [extract_player_names]: merging the roster *)

Inductive player_type : Type := impact | regular.

(** One entry of [all_players]; [retired] and [not_out] are set for
    batting entries only, [bowled] for bowlers only. *)
Record player := mkPlayer {
  matchid : Z;
  innings : string;
  team : string;
  player_name : string;
  batted : bool;
  batting_position : option nat;
  ptype : player_type;
  retired : option bool;
  not_out : option bool;
  bowled : option bool
}.

(** [type_priority = {'impact': 1, 'regular': 2}] *)
Definition type_priority (t : player_type) : nat :=
  match t with impact => 1 | regular => 2 end.

Definition priority (p : player) : nat := type_priority (ptype p).

(** What [df.sort_values('priority')] may return: the same rows, ordered
    by increasing priority.  The default sort of pandas is not stable,
    so the order among rows of equal priority is left open. *)
Definition is_sort_values (df sorted : list player) : Prop :=
  Permutation df sorted
  /\ StronglySorted (fun a b => (priority a <= priority b)%nat) sorted.

(** One sort with that outcome: the impact rows, then the regular
    ones, each group in its original order. *)
Definition impact_first (df : list player) : list player :=
  List.filter (fun p => Nat.eqb (priority p) 1) df
    ++ List.filter (fun p => negb (Nat.eqb (priority p) 1)) df.

(** The [subset=['matchid', 'player_name']] of a row. *)
Definition dedup_key (p : player) : Z * string := (matchid p, player_name p).

Definition same_key (p q : player) : bool :=
  Z.eqb (matchid p) (matchid q) && String.eqb (player_name p) (player_name q).

(** [df.drop_duplicates(subset=[...], keep='first')]; [seen] holds the
    rows already kept. *)
Fixpoint drop_duplicates_from (seen df : list player) : list player :=
  match df with
  | [] => []
  | p :: df' =>
      if existsb (same_key p) seen then drop_duplicates_from seen df'
      else p :: drop_duplicates_from (p :: seen) df'
  end.

Definition drop_duplicates (df : list player) : list player :=
  drop_duplicates_from [] df.

Section Merge.

(** The sort of the frame library, [df.sort_values('priority')]. *)
Variable sort_values : list player -> list player.

(** [extract_player_names] from [df = pd.DataFrame(all_players)] on: the
    rows of [df_unique].  An empty [all_players] gives a frame without
    columns, [df['player_type']] raises and the handler returns an
    empty frame. *)
Definition merge_players (all_players : list player) : list player :=
  match all_players with
  | [] => []
  | _ =>
      let df := sort_values all_players in
      let df_unique := drop_duplicates df in
      df_unique
  end.

End Merge.

(** *** [extract_metadata] *)

Section Metadata.

(** The type of match identifiers, and the parser
    [BeautifulSoup(html_content, "html.parser")], which yields a
    document or raises ([None]). *)
Variable MatchId : Type.
Variable BeautifulSoup : string -> option Bs4.node.

Inductive value : Type :=
| Text (s : string)
| Id (match_id : MatchId).

Definition details_class : Bs4.class_filter :=
  Bs4.ClassIs "ds-border-color-border-secondary ds-flex ds-border-t".

(** The body of [for row in match_details_rows]. *)
Definition add_row (metadata : gmap string value) (row : Bs4.node)
    : gmap string value :=
  match Bs4.find_all "span" Bs4.AnyClass row with
  | [] => metadata
  | [span] =>
      let text := Bs4.get_text_strip "" span in
      if Py.truthy text && negb (bool_decide (is_Some (metadata !! "Venue")))
      then <["Venue" := Text text]> metadata
      else metadata
  | span0 :: rest =>
      let key := Bs4.get_text_strip "" span0 in
      let value_parts := map (Bs4.get_text_strip "") rest in
      let value := Py.strip (Py.join " " value_parts) in
      if Py.truthy key && Py.truthy value
      then <[key := Text value]> metadata
      else metadata
  end.

Definition extract_metadata (html_content : string) (match_id : MatchId)
    : gmap string value :=
  match BeautifulSoup html_content with
  | None => {["MatchID" := Id match_id]}
  | Some soup =>
      match Bs4.find_all "div" details_class soup with
      | [] => <["MatchID" := Id match_id]> ∅
      | match_details_rows =>
          let metadata := fold_left add_row match_details_rows ∅ in
          <["MatchID" := Id match_id]> metadata
      end
  end.

End Metadata.

Arguments Text {MatchId} s.
Arguments Id {MatchId} match_id.
Arguments add_row {MatchId} metadata row.
Arguments extract_metadata {MatchId} BeautifulSoup html_content match_id.

(** *** [_get_opposite_team] *)

(** [current_team] is [None] when the innings has no batting team. *)
Definition _get_opposite_team (current_team : option string)
    (all_teams : list string) : string :=
  match current_team with
  | None => "Unknown Team"
  | Some current_team =>
      if negb (Py.truthy current_team)
         || match all_teams with [] => true | _ => false end
         || Nat.ltb (length all_teams) 2
      then "Unknown Team"
      else
        match List.find (fun team => negb (String.eqb team current_team)) all_teams with
        | Some team => team
        | None => "Unknown Team"
        end
  end.

(** The bowling team of the table with number [idx] (from 1), as
    [extract_player_names] computes it:
    [batting_teams[idx - 1] if idx <= len(batting_teams) else None]. *)
Definition bowling_team (batting_teams : list string) (idx : nat) : string :=
  let batting_team :=
    if Nat.leb idx (length batting_teams)
    then nth_error batting_teams (idx - 1) else None in
  _get_opposite_team batting_team batting_teams.

(** *** [_is_impact_player] *)

(** [tag.get("class", [])] *)
Definition class_list (n : Bs4.node) : list string :=
  match n with
  | Bs4.Tag _ (Some l) _ => l
  | _ => []
  end.

Definition required_classes : list string :=
  ["icon-arrow_back-filled"; "ds-text-icon"; "ds-text-icon-success-hover"].

(** [td_element] is [None] for Python's [None]. *)
Definition _is_impact_player (td_element : option Bs4.node) : bool :=
  match td_element with
  | None => false
  | Some td_element =>
      match Bs4.find "i" (Bs4.ClassIs "icon-arrow_back-filled") td_element with
      | Some icon =>
          let icon_classes := class_list icon in
          forallb (fun cls => existsb (String.eqb cls) icon_classes)
            required_classes
      | None => false
      end
  end.

(** *** [_clean_player_name] *)

(** The class of [re.sub(r'[...]', '', name)]: a with circumflex (226),
    the no-break space (160) and the asterisk (42); its fourth member,
    the euro sign, lies above 255 and is no character of a modelled
    string. *)
Definition is_symbol (c : ascii) : bool :=
  let n := nat_of_ascii c in
  ((n =? 226) || (n =? 160) || (n =? 42))%nat.

Fixpoint remove_symbols (s : string) : string :=
  match s with
  | EmptyString => EmptyString
  | String c s' =>
      if is_symbol c then remove_symbols s' else String c (remove_symbols s')
  end.

(** [re.sub(r'\(c\)|\(wk\)', '', name, flags=re.IGNORECASE)]; [skip]
    counts the characters of a match still to be dropped. *)
Fixpoint sub_captain_keeper (skip : nat) (s : string) : string :=
  match s with
  | EmptyString => EmptyString
  | String c s' =>
      match skip with
      | S skip' => sub_captain_keeper skip' s'
      | O =>
          match match_literal_ci "(c)" s with
          | Some _ => sub_captain_keeper 2 s'
          | None =>
              match match_literal_ci "(wk)" s with
              | Some _ => sub_captain_keeper 3 s'
              | None => String c (sub_captain_keeper 0 s')
              end
          end
      end
  end.

(** The class [[,;]]. *)
Definition is_comma_semicolon (c : ascii) : bool :=
  Ascii.eqb c ","%char || Ascii.eqb c ";"%char.

Definition is_newline (c : ascii) : bool := Nat.eqb (nat_of_ascii c) 10.

(** Whether [[,;]+$] matches [s] from its first character: [s] is a run
    of commas and semicolons up to its end, or up to a newline that
    ends it. *)
Fixpoint punct_to_end (s : string) : bool :=
  match s with
  | EmptyString => false
  | String c s' =>
      is_comma_semicolon c
      && match s' with
         | EmptyString => true
         | String c' EmptyString => is_newline c' || is_comma_semicolon c'
         | _ => punct_to_end s'
         end
  end.

(** The last character of [s] when it is a newline. *)
Fixpoint final_newline (s : string) : string :=
  match s with
  | EmptyString => EmptyString
  | String c EmptyString => if is_newline c then s else EmptyString
  | String _ s' => final_newline s'
  end.

(** [re.sub(r'[,;]+$', '', name)] *)
Fixpoint sub_trailing_punct (s : string) : string :=
  if punct_to_end s then final_newline s
  else match s with
       | EmptyString => EmptyString
       | String c s' => String c (sub_trailing_punct s')
       end.

(** [re.sub(r'^[,;]+', '', name)] *)
Fixpoint sub_leading_punct (s : string) : string :=
  match s with
  | EmptyString => EmptyString
  | String c s' => if is_comma_semicolon c then sub_leading_punct s' else s
  end.

(** [name.split()]: the maximal runs of characters that are not white
    space; [word] is the run being read. *)
Fixpoint split_whitespace (word s : string) : list string :=
  match s with
  | EmptyString => if Py.truthy word then [word] else []
  | String c s' =>
      if Py.is_space c then
        if Py.truthy word then word :: split_whitespace EmptyString s'
        else split_whitespace EmptyString s'
      else split_whitespace (word ++ String c EmptyString) s'
  end.

Definition header_labels : list string :=
  ["batter"; "batsman"; "batters"; "name"; "bowler"].

(** [name] is [None] for Python's [None]. *)
Definition _clean_player_name (name : option string) : option string :=
  match name with
  | None => None
  | Some name =>
      if negb (Py.truthy name) then None
      else
        let name := remove_symbols name in
        let name := sub_captain_keeper 0 name in
        let name := sub_trailing_punct name in
        let name := sub_leading_punct name in
        let name := Py.join " " (split_whitespace EmptyString name) in
        let cleaned := Py.strip name in
        if existsb (String.eqb (Py.lower cleaned)) header_labels then None
        else if Py.truthy cleaned && Nat.ltb 1 (String.length cleaned)
             then Some cleaned else None
  end.

(** *** [_extract_batting_players] and [_extract_bowlers] *)

(** [lambda x: x and sub in x], as a class filter. *)
Definition class_has (sub : string) : Bs4.class_filter :=
  Bs4.ClassSat (fun x =>
    match x with
    | None => false
    | Some x => Py.truthy x && Py.contains sub x
    end).

(** [href=lambda x: x and "/cricketers/" in x] *)
Definition cricketers_href (e : Html.element) : bool :=
  match Html.get e "href" with
  | None => false
  | Some x => Py.truthy x && Py.contains "/cricketers/" x
  end.

(** [lambda x: x and "ds-w-0" in x and "ds-whitespace-nowrap" in x and
    "ds-min-w-max" in x] *)
Definition batsman_cell_class : Bs4.class_filter :=
  Bs4.ClassSat (fun x =>
    match x with
    | None => false
    | Some x =>
        Py.truthy x && Py.contains "ds-w-0" x
        && Py.contains "ds-whitespace-nowrap" x && Py.contains "ds-min-w-max" x
    end).

(** [player_link.get("title", "").strip()] *)
Definition link_title (player_link : Html.element) : string :=
  Py.strip (match Html.get player_link "title" with
            | Some t => t
            | None => EmptyString
            end).

(** The name of a batting or did-not-bat link before cleaning: the
    title, else the text of the span inside the span of class
    [span_class]. *)
Definition batting_link_name (span_class : string)
    (player_link : Html.element) : string :=
  let player_name := link_title player_link in
  if Py.truthy player_name then player_name
  else
    match Html.find "span" (class_has span_class) Html.any_attrs player_link with
    | Some player_span =>
        match Html.find "span" Bs4.AnyClass Html.any_attrs player_span with
        | Some inner_span => Html.get_text_strip inner_span
        | None => player_name
        end
    | None => player_name
    end.

Definition type_of (is_impact : bool) : player_type :=
  if is_impact then impact else regular.

Section Players.

Variable match_id : Z.
Variable innings_key : string.
Variable team_name : string.

(** The loop over [batsman_cells], from the cell list [cells] on, with
    the next batting position. *)
Fixpoint batted_players (cells : list Html.element) (batting_position : nat)
    : list player :=
  match cells with
  | [] => []
  | cell :: cells' =>
      match Html.get cell "colspan" with
      | Some (String _ _) => batted_players cells' batting_position
      | _ =>
          match Html.find "a" Bs4.AnyClass cricketers_href cell with
          | Some player_link =>
              let player_name :=
                _clean_player_name
                  (Some (batting_link_name "ds-text-table-link" player_link)) in
              let is_not_out :=
                Py.contains "ci-v2-scorecard-player-notout"
                  (Py.join " " (Html.get_class cell)) in
              let is_impact := _is_impact_player (Some (Html.erase cell)) in
              let is_retired :=
                match Html.find "i" (class_has "icon-arrow_forward-filled")
                        Html.any_attrs cell with
                | Some _ => true
                | None => false
                end in
              match player_name with
              | Some player_name =>
                  mkPlayer match_id innings_key team_name player_name true
                    (Some batting_position) (type_of is_impact)
                    (Some is_retired) (Some is_not_out) None
                    :: batted_players cells' (S batting_position)
              | None => batted_players cells' batting_position
              end
          | None => batted_players cells' batting_position
          end
      end
  end.

(** The players of one did-not-bat section. *)
Definition section_players (dnb_cell : Html.element) : list player :=
  let is_dnb :=
    match Html.find "span" (class_has "ds-text-overline-2") Html.any_attrs
            dnb_cell with
    | Some dnb_header =>
        Py.contains "did not bat" (Py.lower (Html.get_text_strip dnb_header))
    | None => false
    end in
  if is_dnb then
    flat_map
      (fun player_link =>
         let player_name :=
           _clean_player_name
             (Some (batting_link_name "ds-text-body-3" player_link)) in
         let is_impact := _is_impact_player (Some (Html.erase dnb_cell)) in
         match player_name with
         | Some player_name =>
             [mkPlayer match_id innings_key team_name player_name false None
                (type_of is_impact) (Some false) (Some false) None]
         | None => []
         end)
      (Html.find_all "a" Bs4.AnyClass cricketers_href dnb_cell)
  else [].

(** [colspan=True]: the attribute is present. *)
Definition has_colspan (e : Html.element) : bool :=
  match Html.get e "colspan" with Some _ => true | None => false end.

Definition _extract_batting_players (table : Html.element) : list player :=
  let batsman_cells :=
    Html.find_all "td" batsman_cell_class Html.any_attrs table in
  let dnb_cells := Html.find_all "td" (Bs4.ClassIs "!ds-py-2") has_colspan table in
  batted_players batsman_cells 1 ++ flat_map section_players dnb_cells.

Definition bowler_entry (player_name : string) (is_impact : bool) : player :=
  mkPlayer match_id innings_key team_name player_name false None
    (type_of is_impact) None None (Some true).

Definition not_in (names : list string) (player_name : string) : bool :=
  negb (existsb (String.eqb player_name) names).

(** Method 2, the loop over [bowler_spans]; the spans come with their
    places in the document [root]. *)
Fixpoint bowlers_from_spans (root : Html.element)
    (spans : list (Bs4.path * Html.element)) (seen_names : list string)
    : list player :=
  match spans with
  | [] => []
  | (place, span) :: spans' =>
      match _clean_player_name (Some (Html.get_text_strip span)) with
      | Some player_name =>
          if not_in ["Bowler"; "BOWLER"] player_name
             && not_in seen_names player_name
          then
            let is_impact :=
              match Html.find_parent "td" root place with
              | Some parent_td => _is_impact_player (Some (Html.erase parent_td))
              | None => false
              end in
            bowler_entry player_name is_impact
              :: bowlers_from_spans root spans' (player_name :: seen_names)
          else bowlers_from_spans root spans' seen_names
      | None => bowlers_from_spans root spans' seen_names
      end
  end.

(** The name of a bowler link before cleaning. *)
Definition bowler_link_name (player_link : Html.element) : string :=
  let player_name := link_title player_link in
  if Py.truthy player_name then player_name
  else
    match Html.find "span" (class_has "ds-text-table-link") Html.any_attrs
            player_link with
    | Some player_span =>
        match Html.find "span" Bs4.AnyClass Html.any_attrs player_span with
        | Some inner_span => Html.get_text_strip inner_span
        | None => Html.get_text_strip player_span
        end
    | None => player_name
    end.

(** Method 1, the loop over [bowler_cells]. *)
Fixpoint bowlers_from_cells (cells : list Html.element)
    (seen_names : list string) : list player :=
  match cells with
  | [] => []
  | cell :: cells' =>
      match Html.find "a" Bs4.AnyClass cricketers_href cell with
      | Some player_link =>
          let player_name :=
            _clean_player_name (Some (bowler_link_name player_link)) in
          let is_impact := _is_impact_player (Some (Html.erase cell)) in
          match player_name with
          | Some player_name =>
              if not_in ["Bowler"; "BOWLER"; "bowler"] player_name
                 && not_in seen_names player_name
              then bowler_entry player_name is_impact
                     :: bowlers_from_cells cells' (player_name :: seen_names)
              else bowlers_from_cells cells' seen_names
          | None => bowlers_from_cells cells' seen_names
          end
      | None => bowlers_from_cells cells' seen_names
      end
  end.

(** [lambda x: x and "ds-text-table-link" in x and "ds-font-semibold" in x] *)
Definition bowler_span_class : Bs4.class_filter :=
  Bs4.ClassSat (fun x =>
    match x with
    | None => false
    | Some x =>
        Py.truthy x && Py.contains "ds-text-table-link" x
        && Py.contains "ds-font-semibold" x
    end).

(** The table is the tag [table] at [place] in the document [root]. *)
Definition _extract_bowlers (root : Html.element) (place : Bs4.path)
    (table : Html.element) : list player :=
  match Html.find_all "td"
          (Bs4.ClassIs "ds-w-0 ds-whitespace-nowrap ds-min-w-max")
          Html.any_attrs table with
  | [] =>
      bowlers_from_spans root
        (Html.find_all_at place "span" bowler_span_class Html.any_attrs table) []
  | bowler_cells => bowlers_from_cells bowler_cells []
  end.

End Players.

(** *** [extract_player_names] *)

Section PlayerNames.

Variable BeautifulSoup : string -> option Html.element.
Variable sort_values : list player -> list player.

(** [f"innings_{idx}"] *)
Definition innings_label (idx : nat) : string :=
  ("innings_" ++ Py.str_of_nat idx)%string.

(** STEP 1: the batting tables with their places, and their teams. *)
Definition batting_tables (soup : Html.element)
    : list (Bs4.path * Html.element) :=
  Html.find_all_at [] "table" (class_has "ci-scorecard-table") Html.any_attrs soup.

(** [enumerate(tables, start=idx)] carried through a loop that collects
    [f idx table]. *)
Fixpoint for_each_from {A B : Type} (f : nat -> A -> B) (idx : nat)
    (tables : list A) : list B :=
  match tables with
  | [] => []
  | table :: tables' => f idx table :: for_each_from f (S idx) tables'
  end.

Definition batting_teams (soup : Html.element) : list string :=
  for_each_from
    (fun idx table =>
       _extract_team_name_from_table (Html.erase soup) (fst table) idx)
    1 (batting_tables soup).

(** STEP 3: the bowling tables. *)
Definition bowling_only_tables (soup : Html.element)
    : list (Bs4.path * Html.element) :=
  List.filter
    (fun t => negb (existsb (String.eqb "ci-scorecard-table")
                      (Html.get_class (snd t))))
    (Html.find_all_at [] "table"
       (Bs4.ClassIs "ds-w-full ds-v2-table ds-v2-table-md ds-table-auto")
       Html.any_attrs soup).

(** [all_players] when the last loop is done. *)
Definition all_players (soup : Html.element) (match_id : Z) : list player :=
  let teams := batting_teams soup in
  concat
    (for_each_from
       (fun idx table =>
          _extract_batting_players match_id (innings_label idx)
            (nth (idx - 1) teams EmptyString) (snd table))
       1 (batting_tables soup))
  ++ concat
       (for_each_from
          (fun idx table =>
             _extract_bowlers match_id (innings_label idx)
               (bowling_team teams idx) soup (fst table) (snd table))
          1 (bowling_only_tables soup)).

(** The rows of the frame [extract_player_names] returns; [match_id] is
    the identifier after [int(match_id)]. *)
Definition extract_player_names (html_content : string) (match_id : Z)
    : list player :=
  match BeautifulSoup html_content with
  | None => []
  | Some soup =>
      match batting_tables soup with
      | [] => []
      | _ => merge_players sort_values (all_players soup match_id)
      end
  end.

End PlayerNames.

End MetadataExtractor.

(** ** [main.py] *)

Module Main.

(** The digits at the start of [s]: what a greedy [\d+] takes. *)
Fixpoint take_digits (s : string) : string :=
  match s with
  | EmptyString => EmptyString
  | String c s' => if Py.is_digit c then String c (take_digits s') else EmptyString
  end.

(** The pattern [-(\d+)/full-scorecard] at the start of [s]: the text of
    its group. *)
Definition match_id_here (s : string) : option string :=
  match s with
  | String c rest =>
      if Ascii.eqb c "-"%char
         && Py.truthy (take_digits rest)
         && String.prefix "/full-scorecard" (MetadataExtractor.drop_digits rest)
      then Some (take_digits rest)
      else None
  | EmptyString => None
  end.

(** [extract_match_id(url)]: [re.search] tries the positions of [url]
    from left to right; [None] when there is no match. *)
Fixpoint extract_match_id (url : string) : option string :=
  match match_id_here url with
  | Some match_id => Some match_id
  | None =>
      match url with
      | EmptyString => None
      | String _ url' => extract_match_id url'
      end
  end.

(** The filter of [scrape_cricket_data]: [if "full-scorecard" in url]. *)
Definition scorecard_links (match_links : list string) : list string :=
  List.filter (Py.contains "full-scorecard") match_links.

(** *** The retry logic *)

Definition MAX_RETRIES : nat := 3.
Definition RETRY_DELAY_BASE : nat := 30.
Definition MATCH_DELAY : nat := 10.

(** An exception as the retry logic looks at it: whether it is an
    instance of one of the classes of [retryable_errors], and its text
    [str(e)]. *)
Record exception : Type := mkException {
  retryable_class : bool;
  message : string
}.

Definition connection_keywords : list string :=
  ["connection"; "timeout"; "timed out"; "network"; "http"; "refused";
   "unreachable"; "failed to establish"; "cannot connect";
   "connection reset"; "connection aborted"; "remotedisconnected";
   "broken pipe"; "connection pool"].

(** [is_connection_error(exception)] *)
Definition is_connection_error (e : exception) : bool :=
  if retryable_class e then true
  else
    let error_msg := Py.lower (message e) in
    existsb (fun keyword => Py.contains keyword error_msg) connection_keywords.

(** What a pass through the [try] block of [scrape_match_with_retry]
    does: the constructor, [scrape] and [tracker.add] all return; the
    constructor [MatchScraper(...)] raises, so that the variable
    [match_scraper] keeps its value; or [scrape] or [tracker.add]
    raises, with the new scraper bound. *)
Inductive attempt : Type :=
| Completes
| ConstructorRaises (e : exception)
| ScrapeRaises (e : exception).

(** What the loop does to the outside: a scraper is constructed and
    bound to [match_scraper]; [cleanup_driver] is called on the bound
    scraper; [time.sleep(seconds)]. *)
Inductive event : Type :=
| Construct
| Cleanup
| Sleep (seconds : nat).

(** [f"Failed after {max_retries + 1} attempts"] *)
Definition failed_after (max_retries : nat) : string :=
  ("Failed after " ++ Py.str_of_nat (max_retries + 1) ++ " attempts")%string.

(** The [while] loop of [scrape_match_with_retry], entered with the
    given [retry_count] and with [match_scraper] bound or [None]; pass
    number [retry_count] of the [try] block does [attempts retry_count].
    The result is the returned pair with the events so far.  On every
    path [match_scraper] is [None] when the [finally] clause runs, so
    that clause does nothing; [fuel] bounds the number of passes. *)
Fixpoint retry_from (fuel : nat) (attempts : nat -> attempt)
    (max_retries retry_count : nat) (match_scraper : bool)
    (trace : list event) : option (bool * option string * list event) :=
  match fuel with
  | O => None
  | S fuel' =>
      if (retry_count <=? max_retries)%nat then
        let except_ (match_scraper : bool) (trace : list event)
              (e : exception) :=
          let error_msg := message e in
          let trace := if match_scraper then trace ++ [Cleanup] else trace in
          if is_connection_error e && (retry_count <? max_retries)%nat then
            let retry_count := S retry_count in
            let retry_delay := RETRY_DELAY_BASE * Nat.pow 2 (retry_count - 1) in
            retry_from fuel' attempts max_retries retry_count false
              (trace ++ [Sleep retry_delay])
          else
            let error_msg :=
              if (max_retries <=? retry_count)%nat
              then (failed_after max_retries ++ ": "
                    ++ Py.take 200 error_msg)%string
              else error_msg in
            Some (false, Some error_msg, trace) in
        match attempts retry_count with
        | Completes => Some (true, None, trace ++ [Construct; Cleanup])
        | ConstructorRaises e => except_ match_scraper trace e
        | ScrapeRaises e => except_ true (trace ++ [Construct]) e
        end
      else Some (false, Some (failed_after max_retries), trace)
  end.

(** [scrape_match_with_retry(url, match_id, tracker, max_retries)] *)
Definition scrape_match_with_retry (attempts : nat -> attempt)
    (max_retries : nat) : option (bool * option string * list event) :=
  retry_from (S (S max_retries)) attempts max_retries 0 false [].

(** *** [scrape_cricket_data] *)

(** What a pass through the [try] block of the schedule loop does. *)
Inductive fetch : Type :=
| Fetched (match_links : list string)
| FetchRaises (e : exception).

Record results : Type := mkResults {
  total_found : nat;
  downloaded : nat;
  skipped : nat;
  failed : nat;
  status : string
}.

Section Scraping.

(** The world [scrape_cricket_data] runs in: whether [MatchTracker()]
    returns; the passes of the schedule loop; the answer of
    [tracker.exists(match_id)] at the link number [idx]; the passes of
    [scrape_match_with_retry] for the link number [idx].  The other
    calls on the tracker are taken to return. *)
Variable tracker_init : bool.
Variable fetches : nat -> fetch.
Variable tracker_exists : nat -> string -> bool.
Variable attempts : nat -> nat -> attempt.

(** The schedule loop: [Some match_links] when the function goes on
    (the list is empty when the loop ends by its condition), [None]
    when it returns with the status ['failed']. *)
Fixpoint fetch_schedule_from (fuel : nat)
    (schedule_max_retries schedule_retry_count : nat)
    : option (option (list string)) :=
  match fuel with
  | O => None
  | S fuel' =>
      if (schedule_retry_count <=? schedule_max_retries)%nat then
        match fetches schedule_retry_count with
        | Fetched match_links => Some (Some match_links)
        | FetchRaises e =>
            if is_connection_error e
               && (schedule_retry_count <? schedule_max_retries)%nat
            then fetch_schedule_from fuel' schedule_max_retries
                   (S schedule_retry_count)
            else Some None
        end
      else Some (Some [])
  end.

Definition fetch_schedule : option (option (list string)) :=
  fetch_schedule_from 5 3 0.

(** The loop over [enumerate(scorecard_links, 1)], from the link number
    [idx] on. *)
Fixpoint scrape_links (idx : nat) (links : list string) (r : results)
    : option results :=
  match links with
  | [] => Some r
  | url :: links' =>
      match extract_match_id url with
      | None | Some EmptyString =>
          scrape_links (S idx) links'
            (mkResults (total_found r) (downloaded r) (skipped r)
               (failed r + 1) (status r))
      | Some match_id =>
          if tracker_exists idx match_id then
            scrape_links (S idx) links'
              (mkResults (total_found r) (downloaded r) (skipped r + 1)
                 (failed r) (status r))
          else
            match scrape_match_with_retry (attempts idx) MAX_RETRIES with
            | None => None
            | Some (true, _, _) =>
                scrape_links (S idx) links'
                  (mkResults (total_found r) (downloaded r + 1) (skipped r)
                     (failed r) (status r))
            | Some (false, _, _) =>
                scrape_links (S idx) links'
                  (mkResults (total_found r) (downloaded r) (skipped r)
                     (failed r + 1) (status r))
            end
      end
  end.

(** [scrape_cricket_data()]: the returned [results]. *)
Definition scrape_cricket_data : option results :=
  let results := mkResults 0 0 0 0 "success" in
  if negb tracker_init then Some (mkResults 0 0 0 0 "failed")
  else
    match fetch_schedule with
    | None => None
    | Some None => Some (mkResults 0 0 0 0 "failed")
    | Some (Some match_links) =>
        let scorecard_links := scorecard_links match_links in
        let results :=
          mkResults (length scorecard_links) (downloaded results)
            (skipped results) (failed results) (status results) in
        match scorecard_links with
        | [] => Some results
        | _ => scrape_links 1 scorecard_links results
        end
    end.

End Scraping.

End Main.

(** ** [scraping/match_scraper.py] *)

Module MatchScraper.

(** What [scrape] records about the innings of a match. *)
Record innings_info := mkInningsInfo {
  has_super_over : bool;
  super_over_count : nat;
  first_innings : option string;
  second_innings : option string
}.

(** ['Super Over' in inn] *)
Definition is_super_over (inn : string) : bool := Py.contains "Super Over" inn.

(** The part of [scrape] from [regular_innings = ...] to the setting of
    [first_innings] and [second_innings].  [None]: the expression
    [[inn for inn in regular_innings if inn != default_innings][0]]
    raised [IndexError], which ends [scrape] with that error. *)
Definition innings_metadata (all_innings : list string)
    (default_innings : string) : option innings_info :=
  let regular_innings :=
    List.filter (fun inn => negb (is_super_over inn)) all_innings in
  let super_overs := List.filter is_super_over all_innings in
  let has := Nat.ltb 0 (length super_overs) in
  let count := length super_overs in
  match regular_innings with
  | r0 :: r1 :: _ =>
      if existsb (String.eqb default_innings) regular_innings then
        match List.filter (fun inn => negb (String.eqb inn default_innings))
                regular_innings with
        | _other_regular :: _ => Some (mkInningsInfo has count (Some r0) (Some r1))
        | [] => None
        end
      else Some (mkInningsInfo has count (Some r0) (Some r1))
  | [r0] => Some (mkInningsInfo has count (Some r0) None)
  | [] => Some (mkInningsInfo has count None None)
  end.

(** [other_innings = [inn for inn in all_innings if inn != default_innings]] *)
Definition other_innings (all_innings : list string)
    (default_innings : string) : list string :=
  List.filter (fun inn => negb (String.eqb inn default_innings)) all_innings.

(** The class [[ ()]] of the first replacement of the column cleaning. *)
Definition is_space_or_paren (c : ascii) : bool :=
  Ascii.eqb c " "%char || Ascii.eqb c "("%char || Ascii.eqb c ")"%char.

Definition is_underscore (c : ascii) : bool := Ascii.eqb c "_"%char.

(** [.str.replace(r"[ ()]", "_", regex=True)] *)
Fixpoint replace_space_paren (s : string) : string :=
  match s with
  | EmptyString => EmptyString
  | String c s' =>
      String (if is_space_or_paren c then "_"%char else c) (replace_space_paren s')
  end.

(** [.str.replace(r"_+", "_", regex=True)]; [in_run] tells that the
    previous character was an underscore. *)
Fixpoint collapse_underscores (in_run : bool) (s : string) : string :=
  match s with
  | EmptyString => EmptyString
  | String c s' =>
      if is_underscore c then
        if in_run then collapse_underscores true s'
        else String c (collapse_underscores true s')
      else String c (collapse_underscores false s')
  end.

(** [.str.strip("_")] *)
Fixpoint lstrip_underscores (s : string) : string :=
  match s with
  | EmptyString => EmptyString
  | String c s' => if is_underscore c then lstrip_underscores s' else s
  end.

Fixpoint rstrip_underscores (s : string) : string :=
  match s with
  | EmptyString => EmptyString
  | String c s' =>
      match rstrip_underscores s' with
      | EmptyString => if is_underscore c then EmptyString else String c EmptyString
      | t => String c t
      end
  end.

Definition strip_underscores (s : string) : string :=
  rstrip_underscores (lstrip_underscores s).

(** The cleaning of one column name of [final_df] and [metadata_df]. *)
Definition clean_column (name : string) : string :=
  Py.lower
    (strip_underscores
       (collapse_underscores false (replace_space_paren name))).

(** *** [_navigate_with_retry] *)

(** What [driver.get(url)] does at one attempt: it returns; it raises a
    [TimeoutException] with the given text, after which
    [driver.refresh()] returns or raises; it raises another
    [WebDriverException]; it raises an exception of another class,
    which no clause catches. *)
Inductive load : Type :=
| Loads
| TimesOut (e : string) (refreshed : bool)
| DriverFails (e : string)
| OtherRaises (e : string).

(** What the loop does to the driver and the clock. *)
Inductive step : Type :=
| Get
| Refresh
| Wait (seconds : nat).

(** How the call ends: it returns, it raises [Exception(error_msg)], or
    an exception of [driver.get] goes through. *)
Inductive navigation : Type :=
| Returned
| Raised (error_msg : string)
| Propagated (e : string).

(** [str(last_exception)] *)
Definition str_of_exception (last_exception : option string) : string :=
  match last_exception with
  | Some e => e
  | None => "None"
  end.

(** The [for] loop over the attempt numbers still to come, and what
    follows it. *)
Fixpoint navigate_from (loads : nat -> load) (max_retries : nat)
    (description : string) (attempts : list nat)
    (last_exception : option string) (trace : list step)
    : navigation * list step :=
  match attempts with
  | [] =>
      let error_msg :=
        ("Failed to load " ++ description ++ " after "
         ++ Py.str_of_nat max_retries ++ " attempts: "
         ++ str_of_exception last_exception)%string in
      (Raised error_msg, trace)
  | attempt :: attempts' =>
      match loads attempt with
      | Loads => (Returned, trace ++ [Get; Wait 8])
      | TimesOut e refreshed =>
          let trace := trace ++ [Get] in
          let trace :=
            if (attempt <? max_retries)%nat then
              let wait_time := attempt * 10 in
              trace ++ [Wait wait_time; Refresh]
                ++ (if refreshed then [Wait 5] else [])
            else trace in
          navigate_from loads max_retries description attempts' (Some e) trace
      | DriverFails e =>
          let trace := trace ++ [Get] in
          let trace :=
            if (attempt <? max_retries)%nat then
              let wait_time := attempt * 8 in
              trace ++ [Wait wait_time]
            else trace in
          navigate_from loads max_retries description attempts' (Some e) trace
      | OtherRaises e => (Propagated e, trace ++ [Get])
      end
  end.

(** [self._navigate_with_retry(driver, url, description)] *)
Definition _navigate_with_retry (loads : nat -> load) (max_retries : nat)
    (description : string) : navigation * list step :=
  navigate_from loads max_retries description (seq 1 max_retries) None [].

End MatchScraper.

(** ** [scraping/player_extractor.py] *)

Module PlayerExtractor.

Import MetadataExtractor.

Inductive status : Type := success | failed.

(** The [results_dict] of [extract_and_store]. *)
Record results := mkResults {
  result_status : status;
  total_players : nat;
  batted_count : nat;
  did_not_bat : nat;
  regular_players : nat;
  impact_players : nat;
  teams : list string
}.

(** [players_df['team'].unique().tolist()]: the teams in the order of
    their first row; [seen] holds the teams already listed. *)
Fixpoint unique_from (seen : list string) (l : list string) : list string :=
  match l with
  | [] => []
  | x :: l' =>
      if existsb (String.eqb x) seen then unique_from seen l'
      else x :: unique_from (x :: seen) l'
  end.

Definition is_type (t : player_type) (p : player) : bool :=
  match t, ptype p with
  | impact, impact => true
  | regular, regular => true
  | _, _ => false
  end.

(** The statistics [extract_and_store] computes from the roster
    [players_df] that [extract_player_names] returned. *)
Definition extract_and_store (players_df : list player) : results :=
  match players_df with
  | [] => mkResults failed 0 0 0 0 0 []
  | _ =>
      let total_players := length players_df in
      let batted_count := length (List.filter batted players_df) in
      let did_not_bat_count := total_players - batted_count in
      let teams := unique_from [] (map team players_df) in
      let regular_count := length (List.filter (is_type regular) players_df) in
      let impact_count := length (List.filter (is_type impact) players_df) in
      mkResults success total_players batted_count did_not_bat_count
        regular_count impact_count teams
  end.

End PlayerExtractor.

(** ** [scraping/schedule_scraper.py] *)

Module ScheduleScraper.

(** [href=True]: the tag has the attribute. *)
Definition has_href (e : Html.element) : bool :=
  match Html.get e "href" with
  | Some _ => true
  | None => false
  end.

(** The loop over [links] that fills [self.hrefs]. *)
Fixpoint collect_hrefs (links : list Html.element) (hrefs : list string)
    : list string :=
  match links with
  | [] => hrefs
  | link :: links' =>
      match Html.get link "href" with
      | Some href =>
          if Py.truthy href && negb (Py.contains "Match yet to begin" href)
          then
            let full_link :=
              if String.prefix "/" href
              then ("https://www.espncricinfo.com" ++ href)%string
              else href in
            if negb (existsb (String.eqb full_link) hrefs)
            then collect_hrefs links' (hrefs ++ [full_link])
            else collect_hrefs links' hrefs
          else collect_hrefs links' hrefs
      | None => collect_hrefs links' hrefs
      end
  end.

(** The links of the parsed page. *)
Definition match_hrefs (soup : Html.element) : list string :=
  let links :=
    match Html.find_all "a" (Bs4.ClassIs "ds-no-tap-higlight")
            Html.any_attrs soup with
    | [] => Html.find_all "a" Bs4.AnyClass has_href soup
    | links => links
    end in
  collect_hrefs links [].

Section Fetch.

Variable BeautifulSoup : string -> option Html.element.

(** [fetch_hrefs()]: [page_source] is the source of the loaded page, or
    [None] when the driver or the loading raises; every exception ends
    in [return []]. *)
Definition fetch_hrefs (page_source : option string) : list string :=
  match page_source with
  | Some html =>
      match BeautifulSoup html with
      | Some soup => match_hrefs soup
      | None => []
      end
  | None => []
  end.

End Fetch.

End ScheduleScraper.

(** ** Notions the properties are stated with *)

Module Spec.

(** Number of rows of a batch whose width is [k]. *)
Definition freq (data : list CommentaryParser.row) (k : nat) : nat :=
  count_occ Nat.eq_dec (map (@length string) data) k.

(** A batch of three rows of width 5 and two rows of width 6. *)
Definition batch_3x5_2x6 : list CommentaryParser.row :=
  [["0"; "a"; "b"; "c"; "t0"];
   ["1"; "a"; "b"; "c"; "d"; "t1"];
   ["2"; "a"; "b"; "c"; "t2"];
   ["3"; "a"; "b"; "c"; "d"; "t3"];
   ["4"; "a"; "b"; "c"; "t4"]].

(** The text of [s] up to its first comma, all of [s] without one. *)
Fixpoint up_to_first_comma (s : string) : string :=
  match s with
  | EmptyString => EmptyString
  | String c s' =>
      if Ascii.eqb c ","%char then EmptyString
      else String c (up_to_first_comma s')
  end.

(** [sub] occurs in [s]. *)
Definition occurs (sub s : string) : Prop :=
  exists a b : string, s = (a ++ sub ++ b)%string.

(** Bowler and batsman as the record description gives them: the
    event text is split on [" to "]; the first segment, trimmed, is
    the bowler; the second segment up to its first comma, trimmed, is
    the batsman; both are null when the separator is absent. *)
Definition bowler_batsman (event_text : string)
    : option string * option string :=
  if Py.contains " to " event_text then
    let segments := Py.split " to " event_text in
    (Some (Py.strip (nth 0 segments "")),
     Some (Py.strip (up_to_first_comma (nth 1 segments ""))))
  else (None, None).

(** Number of occurrences of the character [c] in [s]. *)
Fixpoint count_char (c : ascii) (s : string) : nat :=
  match s with
  | EmptyString => 0
  | String c' s' => (if Ascii.eqb c' c then 1 else 0) + count_char c s'
  end.

(** [a] is [b] with some characters deleted: the characters of [a]
    are characters of [b], in the same order and unchanged. *)
Definition subsequence (a b : string) : Prop :=
  sublist (list_ascii_of_string a) (list_ascii_of_string b).

(** A commentary block whose text sits in a paragraph, and the same
    block with the text directly inside it. *)
Definition block_with_paragraph : Bs4.node :=
  Bs4.Tag "div" (Some ["ds-text-article-body-1"; "ds-flex"; "ds-items-start"])
    [Bs4.Tag "span" None [Bs4.NavigableString "0.1"];
     Bs4.Tag "p" None [Bs4.NavigableString "short, pulled away"]].

Definition block_without_paragraph : Bs4.node :=
  Bs4.Tag "div" (Some ["ds-text-article-body-1"; "ds-flex"; "ds-items-start"])
    [Bs4.Tag "span" None [Bs4.NavigableString "0.1"];
     Bs4.NavigableString " short, pulled away "].

(** A page whose details panel has a row labelled [MatchID]. *)
Definition details_page : Bs4.node :=
  Bs4.Tag "[document]" None
    [Bs4.Tag "div"
       (Some ["ds-border-color-border-secondary"; "ds-flex"; "ds-border-t"])
       [Bs4.Tag "span" None [Bs4.NavigableString "MatchID"];
        Bs4.Tag "span" None [Bs4.NavigableString "999"]]].

(** A page whose details panel has a toss row with a value in two
    spans. *)
Definition toss_page : Bs4.node :=
  Bs4.Tag "[document]" None
    [Bs4.Tag "div"
       (Some ["ds-border-color-border-secondary"; "ds-flex"; "ds-border-t"])
       [Bs4.Tag "span" None [Bs4.NavigableString "Toss"];
        Bs4.Tag "span" None [Bs4.NavigableString " India,"];
        Bs4.Tag "span" None [Bs4.NavigableString "elected to bat "]]].

(** A page without details panel. *)
Definition bare_page : Bs4.node :=
  Bs4.Tag "[document]" None [Bs4.Tag "table" None []].

(** A scorecard page whose only team header carries a two-letter
    name; the table is the second child of the first child of the
    document. *)
Definition short_name_page : Bs4.node :=
  Bs4.Tag "[document]" None
    [Bs4.Tag "div" None
       [Bs4.Tag "div" (Some ["ds-bg-color-primary-bg"; "ds-p-3"])
          [Bs4.Tag "span"
             (Some ["ds-text-title-1"; "ds-font-semibold"; "ds-capitalize";
                    "ds-text-color-text"])
             [Bs4.NavigableString "XI"]];
        Bs4.Tag "table" (Some ["ci-scorecard-table"]) []]].

Definition short_name_table : Bs4.path := [0; 1].

(** Every character of [s] passes the test [p]. *)
Fixpoint forall_chars (p : ascii -> bool) (s : string) : bool :=
  match s with
  | EmptyString => true
  | String c s' => p c && forall_chars p s'
  end.

(** Every white space character of [s] is a plain space that does not
    follow another white space character ([after_space] tells whether
    the character before [s] was white space). *)
Fixpoint spaced_from (after_space : bool) (s : string) : bool :=
  match s with
  | EmptyString => true
  | String c s' =>
      if Py.is_space c
      then Ascii.eqb c " "%char && negb after_space && spaced_from true s'
      else spaced_from false s'
  end.

Definition single_spaced (s : string) : Prop := spaced_from false s = true.

(** Characters that are not white space, and characters outside the
    class of symbols removed from player names. *)
Definition no_space (c : ascii) : bool := negb (Py.is_space c).

Definition no_symbol (c : ascii) : bool :=
  negb (MetadataExtractor.is_symbol c).

(** No two neighbouring characters of [s] both pass the test [p]
    ([after] tells whether the character before [s] passed it). *)
Fixpoint no_repeat (p : ascii -> bool) (after : bool) (s : string) : bool :=
  match s with
  | EmptyString => true
  | String c s' =>
      if p c then negb after && no_repeat p true s' else no_repeat p false s'
  end.

(** The regular innings of a dropdown: the labels without ["Super Over"]. *)
Definition regular_innings (all_innings : list string) : list string :=
  List.filter (fun inn => negb (MatchScraper.is_super_over inn)) all_innings.

(** Characters allowed in a cleaned column name. *)
Definition column_char (c : ascii) : bool :=
  negb (MatchScraper.is_space_or_paren c).

(** [s] has no white space at either end. *)
Definition trimmed (s : string) : Prop := Py.strip s = s.

(** The fields of a row that carry content: neither a photo marker nor
    blank. *)
Definition has_content (x : string) : bool :=
  negb (CommentaryParser.is_photo_marker x)
  && negb (CommentaryParser.is_blank x).

(** A scorecard cell with the impact icon, and one whose icon lacks two
    of the three marker classes. *)
Definition impact_cell : Bs4.node :=
  Bs4.Tag "td" (Some ["ds-w-0"; "ds-whitespace-nowrap"; "ds-min-w-max"])
    [Bs4.Tag "a" None [Bs4.NavigableString "Player"];
     Bs4.Tag "i"
       (Some ["icon-arrow_back-filled"; "ds-text-icon";
              "ds-text-icon-success-hover"; "ds-ml-0.5"; "ds-cursor-pointer"])
       []].

Definition plain_arrow_cell : Bs4.node :=
  Bs4.Tag "td" (Some ["ds-w-0"; "ds-whitespace-nowrap"; "ds-min-w-max"])
    [Bs4.Tag "a" None [Bs4.NavigableString "Player"];
     Bs4.Tag "i" (Some ["icon-arrow_back-filled"]) []].

(** A scorecard page with a team header above its table. *)
Definition india_page : Bs4.node :=
  Bs4.Tag "[document]" None
    [Bs4.Tag "div" None
       [Bs4.Tag "div" (Some ["ds-bg-color-primary-bg"; "ds-p-3"])
          [Bs4.Tag "span"
             (Some ["ds-text-title-1"; "ds-font-semibold"; "ds-capitalize";
                    "ds-text-color-text"])
             [Bs4.NavigableString "India  Innings"]];
        Bs4.Tag "table" (Some ["ci-scorecard-table"]) []]].

(** [name] is the cleaned text of a name span of the document [root]. *)
Definition from_name_span (root : Bs4.node) (name : string) : Prop :=
  exists span,
    In span (Bs4.preorder root)
    /\ Bs4.matches "span" MetadataExtractor.team_span_class span = true
    /\ MetadataExtractor._clean_team_name (Bs4.get_text_strip "" span)
       = Some name.

(** Every entry of [metadata] is a text, with a key and a value that are
    not empty. *)
Definition scraped {MatchId : Type}
    (metadata : gmap string (MetadataExtractor.value MatchId)) : Prop :=
  forall k val, metadata !! k = Some val ->
    exists v, val = MetadataExtractor.Text v
              /\ k <> EmptyString /\ v <> EmptyString.

(** A scorecard page with one batting table (two batters, the second
    an impact player who is not out, a colspan cell that is skipped and
    a did-not-bat section) and one bowling table (one bowler listed
    twice, and a header cell). *)
Definition player_link (title : string) : Html.element :=
  Html.Elem "a" [("href", "/cricketers/x-1"); ("title", title)] None
    [Html.Elem "span" [] (Some ["ds-text-table-link"]) [Html.Str title]].

Definition batsman_cell (extra_classes : list string)
    (contents : list Html.element) : Html.element :=
  Html.Elem "td" []
    (Some (["ds-w-0"; "ds-whitespace-nowrap"; "ds-min-w-max"] ++ extra_classes))
    contents.

Definition impact_icon : Html.element :=
  Html.Elem "i" []
    (Some ["icon-arrow_back-filled"; "ds-text-icon"; "ds-text-icon-success-hover"])
    [].

Definition batting_table : Html.element :=
  Html.Elem "table" []
    (Some ["ds-w-full"; "ds-v2-table"; "ds-v2-table-md"; "ds-table-auto";
           "ci-scorecard-table"])
    [batsman_cell [] [player_link "Rohit Sharma (c)"];
     Html.Elem "td" [("colspan", "9")]
       (Some ["ds-w-0"; "ds-whitespace-nowrap"; "ds-min-w-max"])
       [player_link "Nobody"];
     batsman_cell ["ci-v2-scorecard-player-notout"]
       [player_link "Shivam Dube"; impact_icon];
     Html.Elem "td" [("colspan", "9")] (Some ["!ds-py-2"])
       [Html.Elem "span" [] (Some ["ds-text-overline-2"])
          [Html.Str "Did not bat: "];
        player_link "Jasprit Bumrah,"]].

Definition bowling_table : Html.element :=
  Html.Elem "table" []
    (Some ["ds-w-full"; "ds-v2-table"; "ds-v2-table-md"; "ds-table-auto"])
    [Html.Elem "td" [] (Some ["ds-w-0"; "ds-whitespace-nowrap"; "ds-min-w-max"])
       [player_link "Mitchell Starc"];
     Html.Elem "td" [] (Some ["ds-w-0"; "ds-whitespace-nowrap"; "ds-min-w-max"])
       [player_link "Bowler"];
     Html.Elem "td" [] (Some ["ds-w-0"; "ds-whitespace-nowrap"; "ds-min-w-max"])
       [player_link "Mitchell Starc"];
     Html.Elem "td" [] (Some ["ds-w-0"; "ds-whitespace-nowrap"; "ds-min-w-max"])
       [player_link "Shivam Dube"]].

Definition scorecard_page : Html.element :=
  Html.Elem "[document]" [] None
    [Html.Elem "div" [] None
       [Html.Elem "div" [] (Some ["ds-bg-color-primary-bg"; "ds-p-3"])
          [Html.Elem "span" []
             (Some ["ds-text-title-1"; "ds-font-semibold"; "ds-capitalize";
                    "ds-text-color-text"])
             [Html.Str "India"]];
        batting_table;
        bowling_table]].

(** [name] is a name that [_clean_player_name] accepted. *)
Definition cleaned_name (name : string) : Prop :=
  exists raw, MetadataExtractor._clean_player_name (Some raw) = Some name.

(** What every entry collected for a match has: the identifier of the
    match, the label of an innings counted from 1, an accepted name. *)
Definition roster_entry (match_id : Z) (p : MetadataExtractor.player) : Prop :=
  MetadataExtractor.matchid p = match_id
  /\ (exists idx, (1 <= idx)%nat
                  /\ MetadataExtractor.innings p
                     = MetadataExtractor.innings_label idx)
  /\ cleaned_name (MetadataExtractor.player_name p).

(** An entry made by the loops of one table, and a bowler entry. *)
Definition table_entry (match_id : Z) (innings_key team_name : string)
    (p : MetadataExtractor.player) : Prop :=
  MetadataExtractor.matchid p = match_id
  /\ MetadataExtractor.innings p = innings_key
  /\ MetadataExtractor.team p = team_name
  /\ cleaned_name (MetadataExtractor.player_name p).

Definition bowler_shape (match_id : Z) (innings_key team_name : string)
    (p : MetadataExtractor.player) : Prop :=
  MetadataExtractor.batted p = false
  /\ MetadataExtractor.batting_position p = None
  /\ MetadataExtractor.bowled p = Some true
  /\ table_entry match_id innings_key team_name p.

(** Two entries for the same player of match 1, one regular (as a
    batter) and one impact (as a bowler). *)
Definition smith_regular : MetadataExtractor.player :=
  MetadataExtractor.mkPlayer 1 "innings_1" "India" "Smith" true (Some 4)
    MetadataExtractor.regular (Some false) (Some false) None.

Definition smith_impact : MetadataExtractor.player :=
  MetadataExtractor.mkPlayer 1 "innings_2" "India" "Smith" false None
    MetadataExtractor.impact None None (Some true).

(** The exception a pass of the [try] block raises, and whether the
    loop goes on after it when retries are left. *)
Definition raised (a : Main.attempt) : option Main.exception :=
  match a with
  | Main.Completes => None
  | Main.ConstructorRaises e | Main.ScrapeRaises e => Some e
  end.

Definition retried (a : Main.attempt) : bool :=
  match raised a with
  | Some e => Main.is_connection_error e
  | None => false
  end.

(** The events of one pass started with no scraper bound. *)
Definition attempt_events (a : Main.attempt) : list Main.event :=
  match a with
  | Main.ConstructorRaises _ => []
  | _ => [Main.Construct; Main.Cleanup]
  end.

(** The seconds slept, in order. *)
Fixpoint sleeps (trace : list Main.event) : list nat :=
  match trace with
  | [] => []
  | Main.Sleep seconds :: trace' => seconds :: sleeps trace'
  | _ :: trace' => sleeps trace'
  end.

(** Every scraper is cleaned up before the next one is constructed,
    before any sleep and before the end; nothing is cleaned up twice.
    [bound] tells whether a scraper is bound at the start. *)
Fixpoint cleaned_up (bound : bool) (trace : list Main.event) : bool :=
  match trace with
  | [] => negb bound
  | Main.Construct :: trace' => negb bound && cleaned_up true trace'
  | Main.Cleanup :: trace' => bound && cleaned_up false trace'
  | Main.Sleep _ :: trace' => negb bound && cleaned_up false trace'
  end.

(** The seconds waited and the number of page loads of a navigation. *)
Fixpoint waited (trace : list MatchScraper.step) : nat :=
  match trace with
  | [] => 0
  | MatchScraper.Wait seconds :: trace' => seconds + waited trace'
  | _ :: trace' => waited trace'
  end.

Fixpoint loads_made (trace : list MatchScraper.step) : nat :=
  match trace with
  | [] => 0
  | MatchScraper.Get :: trace' => S (loads_made trace')
  | _ :: trace' => loads_made trace'
  end.

(** The text of the exception a failed load raises in one of the two
    caught classes. *)
Definition caught (l : MatchScraper.load) : option string :=
  match l with
  | MatchScraper.TimesOut e _ | MatchScraper.DriverFails e => Some e
  | _ => None
  end.

(** The events of the passes [first] to [k] of the retry loop when the
    passes before [k] are retried, and the pair returned at pass [k]. *)
Definition retry_events (attempts : nat -> Main.attempt) (first k : nat)
    : list Main.event :=
  flat_map
    (fun i => attempt_events (attempts i) ++ [Main.Sleep (30 * Nat.pow 2 i)])
    (seq first (k - first))
  ++ attempt_events (attempts k).

Definition final_result (max_retries k : nat) (a : Main.attempt)
    : bool * option string :=
  match raised a with
  | None => (true, None)
  | Some e =>
      (false,
       Some (if (max_retries <=? k)%nat
             then (Main.failed_after max_retries ++ ": "
                   ++ Py.take 200 (Main.message e))%string
             else Main.message e))
  end.

End Spec.

(** * Properties *)

(** ** The column normalizer *)

Section NormalizerFacts.

Import CommentaryParser Spec.

Lemma dict_get_set (d : counts) (k v k' : nat) :
  dict_get (dict_set d k v) k' = if Nat.eqb k k' then v else dict_get d k'.
Proof.
  induction d as [|[a b] d IH]; simpl.
  - destruct (Nat.eqb k k'); reflexivity.
  - destruct (Nat.eqb a k) eqn:Eak; simpl.
    + apply Nat.eqb_eq in Eak; subst a.
      destruct (Nat.eqb k k'); reflexivity.
    + destruct (Nat.eqb a k') eqn:Eak'.
      * apply Nat.eqb_eq in Eak'; subst a.
        rewrite Nat.eqb_sym, Eak. reflexivity.
      * apply IH.
Qed.

Lemma keys_dict_set (d : counts) (k v k' : nat) :
  In k' (keys (dict_set d k v)) <-> k' = k \/ In k' (keys d).
Proof.
  unfold keys. induction d as [|[a b] d IH]; simpl.
  - intuition.
  - destruct (Nat.eqb a k) eqn:Eak; simpl.
    + apply Nat.eqb_eq in Eak; subst a. intuition.
    + rewrite IH. intuition.
Qed.

Lemma freq_cons (r : row) (data : list row) (k : nat) :
  freq (r :: data) k = (if Nat.eqb (length r) k then 1 else 0) + freq data k.
Proof.
  unfold freq; simpl.
  destruct (Nat.eq_dec (length r) k) as [E|E].
  - apply Nat.eqb_eq in E as ->. reflexivity.
  - apply Nat.eqb_neq in E as ->. reflexivity.
Qed.

Lemma dict_get_fold (data : list row) (d : counts) (k : nat) :
  dict_get (fold_left count_row data d) k = dict_get d k + freq data k.
Proof.
  revert d; induction data as [|r data IH]; intros d; simpl.
  - unfold freq; simpl; lia.
  - rewrite IH, freq_cons. unfold count_row. rewrite dict_get_set.
    destruct (Nat.eqb (length r) k) eqn:E.
    + apply Nat.eqb_eq in E; subst k. lia.
    + lia.
Qed.

(** The dictionary counts the rows of each width. *)
Lemma column_counts_get (data : list row) (k : nat) :
  dict_get (column_counts data) k = freq data k.
Proof. unfold column_counts. rewrite dict_get_fold. reflexivity. Qed.

Lemma keys_fold (data : list row) (d : counts) (k : nat) :
  In k (keys (fold_left count_row data d))
  <-> In k (keys d) \/ In k (map (@length string) data).
Proof.
  revert d; induction data as [|r data IH]; intros d; simpl.
  - intuition.
  - rewrite IH. unfold count_row. rewrite keys_dict_set. intuition.
Qed.

(** Its keys are the widths that occur. *)
Lemma column_counts_keys (data : list row) (k : nat) :
  In k (keys (column_counts data)) <-> (0 < freq data k)%nat.
Proof.
  unfold column_counts. rewrite keys_fold. simpl. unfold freq.
  pose proof (count_occ_In Nat.eq_dec (map (@length string) data) k) as H.
  unfold gt in H. intuition.
Qed.

Lemma max_from_spec (f : nat -> nat) (ks : list nat) (best : nat) :
  let m := max_from f best ks in
  In m (best :: ks) /\ forall k, In k (best :: ks) -> (f k <= f m)%nat.
Proof.
  revert best; induction ks as [|k ks IH]; intros best; simpl.
  - split; [auto|]. intros k [->|[]]. lia.
  - specialize (IH (if Nat.ltb (f best) (f k) then k else best)).
    simpl in IH. destruct IH as [Hin Hmax]. split.
    + destruct (Nat.ltb (f best) (f k)); destruct Hin as [<-|Hin]; auto.
    + destruct (Nat.ltb (f best) (f k)) eqn:E.
      * apply Nat.ltb_lt in E. intros k' [<-|[<-|Hk']].
        -- specialize (Hmax k (or_introl eq_refl)). lia.
        -- apply Hmax; auto.
        -- apply Hmax; auto.
      * apply Nat.ltb_ge in E. intros k' [<-|[<-|Hk']].
        -- apply Hmax; auto.
        -- specialize (Hmax best (or_introl eq_refl)). lia.
        -- apply Hmax; auto.
Qed.

(** A non-empty batch has a target width: a width that occurs, and
    that no other width outnumbers. *)
Lemma target_columns_spec (data : list row) :
  data <> [] ->
  exists target,
    target_columns data = Some target
    /\ (0 < freq data target)%nat
    /\ forall k, (freq data k <= freq data target)%nat.
Proof.
  intros Hne. unfold target_columns, py_max.
  destruct (keys (column_counts data)) as [|k0 ks] eqn:Ek.
  - destruct data as [|r data]; [congruence|].
    assert (H : In (length r) (keys (column_counts (r :: data)))).
    { apply column_counts_keys. rewrite freq_cons, Nat.eqb_refl. lia. }
    rewrite Ek in H. destruct H.
  - destruct (max_from_spec (dict_get (column_counts data)) ks k0) as [Hin Hmax].
    eexists; split; [reflexivity|]. split.
    + apply column_counts_keys. rewrite Ek. exact Hin.
    + intros k. destruct (Nat.eq_dec (freq data k) 0) as [->|Hk]; [lia|].
      rewrite <- !column_counts_get. apply Hmax. rewrite <- Ek.
      apply column_counts_keys. lia.
Qed.

Lemma normalize_row_length (target : nat) (r : row) :
  length (normalize_row target r) = target.
Proof.
  unfold normalize_row.
  destruct (Nat.eqb (length r) target) eqn:E1.
  - apply Nat.eqb_eq in E1. exact E1.
  - apply Nat.eqb_neq in E1.
    destruct (Nat.ltb (length r) target) eqn:E2.
    + apply Nat.ltb_lt in E2.
      destruct (Nat.ltb 0 (length r)) eqn:E3.
      * apply Nat.ltb_lt in E3.
        rewrite !length_app, repeat_length. simpl.
        assert (length (removelast r) = length r - 1).
        { destruct r as [|x r]; [simpl in E3; lia|].
          rewrite (app_removelast_last "" (l := x :: r)) at 2 by discriminate.
          rewrite length_app. simpl. lia. }
        lia.
      * apply repeat_length.
    + apply Nat.ltb_ge in E2. rewrite length_firstn. lia.
Qed.

Lemma normalize_columns_unfold (data : list row) (target : nat) :
  target_columns data = Some target ->
  _normalize_columns data = map (normalize_row target) data.
Proof.
  intros Ht. unfold _normalize_columns. rewrite Ht.
  destruct data; reflexivity.
Qed.

End NormalizerFacts.

Section NormalizerClaims.

Import CommentaryParser Spec.

(** C1: for every non-empty batch the normalizer returns, row for row,
    rows that all have the target width, and the target width is a
    most frequent width of the batch: it occurs, and no width occurs
    more often. *)
Theorem normalize_columns_uniform_majority (data : list row) :
  data <> [] ->
  exists target,
    target_columns data = Some target
    /\ length (_normalize_columns data) = length data
    /\ (forall r, In r (_normalize_columns data) -> length r = target)
    /\ (0 < freq data target)%nat
    /\ forall k, (freq data k <= freq data target)%nat.
Proof.
  intros Hne.
  destruct (target_columns_spec data Hne) as (target & Ht & Hocc & Hmax).
  exists target. rewrite (normalize_columns_unfold data target Ht).
  repeat split; auto.
  - apply length_map.
  - intros r Hr. apply in_map_iff in Hr as (r0 & <- & _).
    apply normalize_row_length.
Qed.

Lemma normalize_columns_uniform_majority_witness :
  [["0"; "a"; "b"]; ["1"; "c"]; ["2"; "d"; "e"]] <> []
  /\ exists target,
       target_columns [["0"; "a"; "b"]; ["1"; "c"]; ["2"; "d"; "e"]] = Some target
       /\ length (_normalize_columns [["0"; "a"; "b"]; ["1"; "c"]; ["2"; "d"; "e"]]) = 3
       /\ (forall r,
             In r (_normalize_columns [["0"; "a"; "b"]; ["1"; "c"]; ["2"; "d"; "e"]]) ->
             length r = target)
       /\ (0 < freq [["0"; "a"; "b"]; ["1"; "c"]; ["2"; "d"; "e"]] target)%nat
       /\ forall k,
            (freq [["0"; "a"; "b"]; ["1"; "c"]; ["2"; "d"; "e"]] k
             <= freq [["0"; "a"; "b"]; ["1"; "c"]; ["2"; "d"; "e"]] target)%nat.
Proof.
  split; [discriminate|].
  apply (normalize_columns_uniform_majority
           [["0"; "a"; "b"]; ["1"; "c"]; ["2"; "d"; "e"]]).
  discriminate.
Defined.

(** C2: a non-empty row shorter than the target width comes out as its
    fields but the last, then [target - actual] empty strings, then its
    last field; so the last field of the padded row is the last field
    of the row. *)
Theorem normalize_pads_before_last
    (data : list row) (target i : nat) (r : row) :
  target_columns data = Some target ->
  nth_error data i = Some r ->
  r <> [] ->
  (length r < target)%nat ->
  nth_error (_normalize_columns data) i
    = Some (removelast r ++ repeat "" (target - length r) ++ [List.last r ""])
  /\ (forall padded,
        nth_error (_normalize_columns data) i = Some padded ->
        List.last padded "" = List.last r "" /\ length padded = target).
Proof.
  intros Ht Hi Hne Hlt.
  rewrite (normalize_columns_unfold data target Ht).
  assert (E : normalize_row target r
              = removelast r ++ repeat "" (target - length r) ++ [List.last r ""]).
  { unfold normalize_row.
    destruct (Nat.eqb (length r) target) eqn:E1;
      [apply Nat.eqb_eq in E1; lia|].
    destruct (Nat.ltb (length r) target) eqn:E2;
      [|apply Nat.ltb_ge in E2; lia].
    destruct r as [|x r]; [congruence|]. reflexivity. }
  rewrite nth_error_map, Hi. simpl. rewrite E. split; [reflexivity|].
  intros padded [= <-]. split.
  - rewrite app_assoc. apply last_last.
  - rewrite <- E. apply normalize_row_length.
Qed.

Lemma normalize_pads_before_last_witness :
  target_columns [["0"; "x"; "y"; "text"]; ["1"; "text, more"]; ["2"; "x"; "y"; "text"]]
    = Some 4
  /\ nth_error (_normalize_columns
                  [["0"; "x"; "y"; "text"]; ["1"; "text, more"]; ["2"; "x"; "y"; "text"]]) 1
     = Some ["1"; ""; ""; "text, more"].
Proof.
  split; [reflexivity|].
  apply (normalize_pads_before_last
           [["0"; "x"; "y"; "text"]; ["1"; "text, more"]; ["2"; "x"; "y"; "text"]]
           4 1 ["1"; "text, more"]);
    [reflexivity | reflexivity | discriminate | simpl; lia].
Defined.

(** C3 as stated fails: on three rows of width 5 and two of width 6
    the target width is not 6 and no width-5 row gains a field. *)
Lemma normalize_3x5_2x6_counterexample :
  freq batch_3x5_2x6 5 = 3 /\ freq batch_3x5_2x6 6 = 2
  /\ freq batch_3x5_2x6 7 = 0
  /\ ~ (target_columns batch_3x5_2x6 = Some 6
        /\ forall r, In r batch_3x5_2x6 -> length r = 5 ->
             In (removelast r ++ [""] ++ [List.last r ""])
                (_normalize_columns batch_3x5_2x6)).
Proof.
  repeat split; try reflexivity.
  intros [H _]. vm_compute in H. discriminate H.
Qed.

(** C3, amended: on a batch of three rows of width 5 and two rows of
    width 6 the target width is 5; every width-5 row is returned as it
    is and every width-6 row is cut to its first five fields. *)
Theorem normalize_3x5_2x6_target_5 (data : list row) :
  (forall r, In r data -> length r = 5 \/ length r = 6) ->
  freq data 5 = 3 ->
  freq data 6 = 2 ->
  target_columns data = Some 5
  /\ forall i r, nth_error data i = Some r ->
       nth_error (_normalize_columns data) i
       = Some (if Nat.eqb (length r) 5 then r else firstn 5 r).
Proof.
  intros Hw H5 H6.
  assert (Hne : data <> []).
  { intros ->. unfold freq in H5. simpl in H5. discriminate. }
  destruct (target_columns_spec data Hne) as (target & Ht & Hocc & Hmax).
  assert (target = 5) as ->.
  { unfold freq in Hocc.
    apply (count_occ_In Nat.eq_dec) in Hocc.
    apply in_map_iff in Hocc as (r & Hr & Hin).
    destruct (Hw r Hin) as [E|E]; [congruence|].
    specialize (Hmax 5). rewrite <- Hr, E in Hmax. lia. }
  split; [exact Ht|]. intros i r Hi.
  rewrite (normalize_columns_unfold data 5 Ht), nth_error_map, Hi. simpl.
  f_equal. unfold normalize_row.
  destruct (Nat.eqb (length r) 5) eqn:E1; [reflexivity|].
  apply nth_error_In in Hi. destruct (Hw r Hi) as [E|E]; rewrite E in *.
  - discriminate.
  - reflexivity.
Qed.

Lemma normalize_3x5_2x6_target_5_witness :
  target_columns batch_3x5_2x6 = Some 5
  /\ forall i r, nth_error batch_3x5_2x6 i = Some r ->
       nth_error (_normalize_columns batch_3x5_2x6) i
       = Some (if Nat.eqb (length r) 5 then r else firstn 5 r).
Proof.
  apply (normalize_3x5_2x6_target_5 batch_3x5_2x6).
  - intros r Hr. simpl in Hr.
    repeat (destruct Hr as [<-|Hr]; [simpl; auto|]). destruct Hr.
  - reflexivity.
  - reflexivity.
Defined.

End NormalizerClaims.

(** ** Python strings *)

Section StringFacts.

Lemma append_cons (c : ascii) (a b : string) :
  (String c a ++ b)%string = String c (a ++ b)%string.
Proof. reflexivity. Qed.

Lemma append_nil (b : string) : (EmptyString ++ b)%string = b.
Proof. reflexivity. Qed.

Lemma length_append (a b : string) :
  String.length (a ++ b)%string = String.length a + String.length b.
Proof.
  induction a as [|c a IH]; [reflexivity|].
  rewrite append_cons. simpl. rewrite IH. reflexivity.
Qed.

Lemma prefix_app (sub b : string) :
  String.prefix sub (sub ++ b)%string = true.
Proof.
  induction sub as [|c sub IH]; simpl.
  - destruct b; reflexivity.
  - destruct (ascii_dec c c); [exact IH | congruence].
Qed.

Lemma prefix_split (sub s : string) :
  String.prefix sub s = true ->
  s = (sub ++ Py.drop (String.length sub) s)%string.
Proof.
  revert s; induction sub as [|c sub IH]; intros s H.
  - destruct s; reflexivity.
  - destruct s as [|c' s]; simpl in H; [discriminate|].
    destruct (ascii_dec c c'); [subst c'|discriminate].
    simpl. rewrite append_cons. f_equal. apply IH. exact H.
Qed.

Lemma take_drop (n : nat) (s : string) :
  (Py.take n s ++ Py.drop n s)%string = s.
Proof.
  revert s; induction n as [|n IH]; intros [|c s]; simpl; try reflexivity.
  rewrite append_cons. f_equal. apply IH.
Qed.

Lemma drop_add (n m : nat) (s : string) :
  Py.drop (n + m) s = Py.drop m (Py.drop n s).
Proof.
  revert s; induction n as [|n IH]; intros s; simpl.
  - reflexivity.
  - destruct s as [|c s]; [destruct m; reflexivity | apply IH].
Qed.

Lemma length_drop_le (n : nat) (s : string) :
  (String.length (Py.drop n s) <= String.length s - n)%nat.
Proof.
  revert s; induction n as [|n IH]; intros [|c s]; simpl; try lia.
  apply IH.
Qed.

Lemma find_unfold (sub s : string) :
  Py.find sub s
  = if String.prefix sub s then Some 0
    else match s with
         | EmptyString => None
         | String _ s' => option_map S (Py.find sub s')
         end.
Proof. destruct s; reflexivity. Qed.

Lemma prefix_empty (sub : string) :
  String.prefix sub "" = true -> sub = "".
Proof. destruct sub; [reflexivity | discriminate]. Qed.

(** [find] returns a place where [sub] occurs. *)
Lemma find_Some (sub s : string) (i : nat) :
  Py.find sub s = Some i ->
  s = (Py.take i s ++ sub ++ Py.drop (i + String.length sub) s)%string
  /\ (i + String.length sub <= String.length s)%nat.
Proof.
  revert i; induction s as [|c s IH]; intros i; rewrite find_unfold.
  - destruct (String.prefix sub "") eqn:E; [intros [= <-] | intros [=]].
    apply prefix_empty in E as ->. split; [reflexivity | simpl; lia].
  - destruct (String.prefix sub (String c s)) eqn:E.
    + intros [= <-]. simpl Py.take. rewrite append_nil.
      apply prefix_split in E. split; [exact E|].
      apply (f_equal String.length) in E.
      rewrite length_append in E. simpl in *. lia.
    + destruct (Py.find sub s) as [j|] eqn:Ej; [intros [= <-] | intros [=]].
      destruct (IH j eq_refl) as [H1 H2]. simpl. split.
      * rewrite append_cons. f_equal. exact H1.
      * lia.
Qed.

Lemma find_None (sub s : string) :
  Py.find sub s = None -> ~ Spec.occurs sub s.
Proof.
  induction s as [|c s IH]; rewrite find_unfold.
  - destruct (String.prefix sub "") eqn:E; [intros [=] | intros _].
    intros (a & b & H). destruct a; [|discriminate].
    rewrite append_nil in H. rewrite H, prefix_app in E. discriminate.
  - destruct (String.prefix sub (String c s)) eqn:E; [intros [=]|].
    destruct (Py.find sub s) eqn:Ej; [intros [=] | intros _].
    intros (a & b & H). destruct a as [|c' a].
    + rewrite append_nil in H. rewrite H, prefix_app in E. discriminate.
    + rewrite append_cons in H. injection H as -> H. apply IH; [reflexivity|].
      exists a, b. exact H.
Qed.

(** [sub in s] decides whether [sub] occurs in [s]. *)
Lemma contains_occurs (sub s : string) :
  Py.contains sub s = true <-> Spec.occurs sub s.
Proof.
  unfold Py.contains. destruct (Py.find sub s) as [i|] eqn:E.
  - split; [intros _|reflexivity]. apply find_Some in E as [E _].
    eexists _, _. exact E.
  - split; [discriminate|]. intros H. exfalso. exact (find_None _ _ E H).
Qed.

Lemma split_unfold (sep s : string) :
  Py.split sep s
  = match Py.find sep s with
    | None => [s]
    | Some i =>
        Py.take i s
          :: Py.split_fuel (String.length s) sep
               (Py.drop (i + String.length sep) s)
    end.
Proof. reflexivity. Qed.

Lemma split_fuel_nonempty (fuel : nat) (sep s : string) :
  Py.split_fuel fuel sep s <> [].
Proof.
  destruct fuel; simpl; [discriminate|].
  destruct (Py.find sep s); discriminate.
Qed.

Lemma split_fuel_hd (fuel : nat) (sep s : string) :
  hd "" (Py.split_fuel (S fuel) sep s)
  = match Py.find sep s with
    | None => s
    | Some i => Py.take i s
    end.
Proof. simpl. destruct (Py.find sep s); reflexivity. Qed.

(** With enough rounds the result of [split_fuel] no longer depends on
    the number of rounds. *)
Lemma split_fuel_enough (sep : string) (fuel fuel' : nat) (s : string) :
  sep <> EmptyString ->
  (String.length s < fuel)%nat -> (String.length s < fuel')%nat ->
  Py.split_fuel fuel sep s = Py.split_fuel fuel' sep s.
Proof.
  intros Hsep. revert fuel' s.
  induction fuel as [|fuel IH]; intros fuel' s H1 H2; [lia|].
  destruct fuel' as [|fuel']; [lia|]. simpl.
  destruct (Py.find sep s) as [i|] eqn:E; [|reflexivity].
  f_equal. apply find_Some in E as [_ E].
  assert (0 < String.length sep)%nat by (destruct sep; [congruence | simpl; lia]).
  pose proof (length_drop_le (i + String.length sep) s).
  apply IH; lia.
Qed.

(** The rounds given to [split] are enough: it satisfies the equation
    of the search loop. *)
Lemma split_equation (sep s : string) :
  sep <> EmptyString ->
  Py.split sep s
  = match Py.find sep s with
    | None => [s]
    | Some i => Py.take i s :: Py.split sep (Py.drop (i + String.length sep) s)
    end.
Proof.
  intros Hsep. rewrite split_unfold.
  destruct (Py.find sep s) as [i|] eqn:E; [|reflexivity].
  f_equal. unfold Py.split. apply find_Some in E as [_ E].
  assert (0 < String.length sep)%nat by (destruct sep; [congruence | simpl; lia]).
  pose proof (length_drop_le (i + String.length sep) s).
  apply split_fuel_enough; [exact Hsep | lia | lia].
Qed.

Lemma replace_fuel_enough (old new : string) (fuel fuel' : nat) (s : string) :
  old <> EmptyString ->
  (String.length s < fuel)%nat -> (String.length s < fuel')%nat ->
  Py.replace_fuel fuel old new s = Py.replace_fuel fuel' old new s.
Proof.
  intros Hold. revert fuel' s.
  induction fuel as [|fuel IH]; intros fuel' s H1 H2; [lia|].
  destruct fuel' as [|fuel']; [lia|]. simpl.
  destruct (Py.find old s) as [i|] eqn:E; [|reflexivity].
  do 2 f_equal. apply find_Some in E as [_ E].
  assert (0 < String.length old)%nat by (destruct old; [congruence | simpl; lia]).
  pose proof (length_drop_le (i + String.length old) s).
  apply IH; lia.
Qed.

(** Likewise for [replace]. *)
Lemma replace_equation (old new s : string) :
  old <> EmptyString ->
  Py.replace old new s
  = match Py.find old s with
    | None => s
    | Some i =>
        (Py.take i s ++ new
           ++ Py.replace old new (Py.drop (i + String.length old) s))%string
    end.
Proof.
  intros Hold. unfold Py.replace at 1. simpl.
  destruct (Py.find old s) as [i|] eqn:E; [|reflexivity].
  do 2 f_equal. unfold Py.replace. apply find_Some in E as [_ E].
  assert (0 < String.length old)%nat by (destruct old; [congruence | simpl; lia]).
  pose proof (length_drop_le (i + String.length old) s).
  apply replace_fuel_enough; [exact Hold | lia | lia].
Qed.

Lemma find_comma (s : string) :
  match Py.find "," s with
  | None => s
  | Some i => Py.take i s
  end = Spec.up_to_first_comma s.
Proof.
  induction s as [|c s IH]; [reflexivity|].
  cbn [Py.find Spec.up_to_first_comma String.prefix].
  destruct (ascii_dec ","%char c) as [<-|Hc].
  - destruct s; reflexivity.
  - assert (Ascii.eqb c ","%char = false) as ->
      by (apply Ascii.eqb_neq; congruence).
    destruct (Py.find "," s); simpl; rewrite <- IH; reflexivity.
Qed.

End StringFacts.

(** ** The commentary-to-table mapper *)

Section MapperClaims.

Import CommentaryParser.

Lemma num_columns_uniform (parsed_data : list row) (w : nat) :
  parsed_data <> [] ->
  (forall r, In r parsed_data -> length r = w) ->
  num_columns parsed_data = w.
Proof.
  induction parsed_data as [|r data IH]; intros Hne Hw; [congruence|].
  simpl. rewrite (Hw r (or_introl eq_refl)).
  destruct data as [|r' data].
  - simpl. lia.
  - rewrite IH; [lia | discriminate |].
    intros r0 Hr0. apply Hw. right. exact Hr0.
Qed.

Lemma to_dataframe_uniform (parsed_data : list row) (w : nat) :
  (forall r, In r parsed_data -> length r = w) ->
  w <> 6 -> w <> 7 ->
  to_dataframe parsed_data = empty_frame.
Proof.
  intros Hw H6 H7. destruct parsed_data as [|r data]; [reflexivity|].
  unfold to_dataframe.
  rewrite (num_columns_uniform (r :: data) w) by (discriminate || exact Hw).
  apply Nat.eqb_neq in H6 as ->. apply Nat.eqb_neq in H7 as ->. reflexivity.
Qed.

(** C4: a batch whose rows all have one width, other than 6 and 7, is
    mapped to the empty frame; so is what the normalizer returns when
    its target width is neither 6 nor 7. *)
Theorem to_dataframe_unexpected_width :
  (forall (parsed_data : list row) (w : nat),
      (forall r, In r parsed_data -> length r = w) ->
      w <> 6 -> w <> 7 ->
      to_dataframe parsed_data = empty_frame)
  /\ (forall (data : list row) (target : nat),
        target_columns data = Some target ->
        target <> 6 -> target <> 7 ->
        to_dataframe (_normalize_columns data) = empty_frame).
Proof.
  split; [exact to_dataframe_uniform|].
  intros data target Ht H6 H7.
  apply (to_dataframe_uniform _ target); [|exact H6|exact H7].
  rewrite (normalize_columns_unfold data target Ht).
  intros r Hr. apply in_map_iff in Hr as (r0 & <- & _).
  apply normalize_row_length.
Qed.

Lemma to_dataframe_unexpected_width_witness :
  ((forall r, In r [["0"; "a"; "b"; "c"; "t"]; ["1"; "a"; "b"; "c"; "u"]] ->
      length r = 5)
   /\ to_dataframe [["0"; "a"; "b"; "c"; "t"]; ["1"; "a"; "b"; "c"; "u"]]
      = empty_frame)
  /\ (target_columns Spec.batch_3x5_2x6 = Some 5
      /\ to_dataframe (_normalize_columns Spec.batch_3x5_2x6) = empty_frame).
Proof.
  assert (H : forall r,
             In r [["0"; "a"; "b"; "c"; "t"]; ["1"; "a"; "b"; "c"; "u"]] ->
             length r = 5).
  { intros r [<-|[<-|[]]]; reflexivity. }
  split; (split; [exact H || reflexivity|]).
  - apply (proj1 to_dataframe_unexpected_width
             [["0"; "a"; "b"; "c"; "t"]; ["1"; "a"; "b"; "c"; "u"]] 5 H); lia.
  - apply (proj2 to_dataframe_unexpected_width Spec.batch_3x5_2x6 5);
      [reflexivity | lia | lia].
Defined.

(** C5: [extract_bowler_batsman] computes what the record description
    says: without the separator [" to "] both results are null;
    otherwise the bowler is the first segment trimmed and the batsman
    the second segment up to its first comma, trimmed.  The two
    examples of the specification are instances. *)
Theorem extract_bowler_batsman_spec :
  (forall event : string,
      extract_bowler_batsman (Some event) = Spec.bowler_batsman event)
  /\ (forall event : string,
        ~ Spec.occurs " to " event ->
        extract_bowler_batsman (Some event) = (None, None))
  /\ extract_bowler_batsman (Some "Bumrah to Kohli, no run")
     = (Some "Bumrah", Some "Kohli")
  /\ extract_bowler_batsman (Some "no run") = (None, None).
Proof.
  assert (H : forall event : string,
             extract_bowler_batsman (Some event) = Spec.bowler_batsman event).
  { intros event. unfold extract_bowler_batsman, Spec.bowler_batsman.
    destruct event as [|c event]; [reflexivity|].
    cbn [Py.truthy negb].
    unfold Py.contains at 2. rewrite split_unfold.
    destruct (Py.find " to " (String c event)) as [i|]; [|reflexivity].
    destruct (Py.split_fuel _ " to " _) as [|p1 rest] eqn:E;
      [exfalso; exact (split_fuel_nonempty _ _ _ E)|].
    cbn [nth]. pose proof (find_comma p1) as Hc.
    unfold Py.contains. rewrite split_unfold.
    destruct (Py.find "," p1) as [j|]; [rewrite Hc | rewrite <- Hc];
      reflexivity. }
  split; [exact H|]. split; [|split; reflexivity].
  intros event Hno. rewrite H. unfold Spec.bowler_batsman.
  destruct (Py.contains " to " event) eqn:E; [|reflexivity].
  apply contains_occurs in E. contradiction.
Qed.

Lemma extract_bowler_batsman_spec_witness :
  ~ Spec.occurs " to " "four runs, through covers"
  /\ extract_bowler_batsman (Some "four runs, through covers") = (None, None).
Proof.
  assert (H : ~ Spec.occurs " to " "four runs, through covers")
    by (apply find_None; reflexivity).
  split; [exact H|].
  apply (proj1 (proj2 extract_bowler_batsman_spec)
           "four runs, through covers" H).
Defined.

End MapperClaims.

(** ** The photo-marker cleanup *)

Section PhotoMarkerClaims.

Import CommentaryParser.

Lemma clean_photo_markers_no_marker (n : nat) (all_text : list string) :
  (length all_text <= n)%nat ->
  Forall (fun x => is_photo_marker x = false) (_clean_photo_markers all_text).
Proof.
  revert all_text; induction n as [|n IH]; intros all_text Hlen.
  - destruct all_text; [constructor | simpl in Hlen; lia].
  - destruct all_text as [|current rest]; [constructor|].
    simpl in Hlen. simpl.
    destruct (is_photo_marker current) eqn:Em.
    + destruct rest as [|next_element rest']; [constructor|].
      destruct (is_blank next_element).
      * apply IH. simpl in Hlen. lia.
      * apply IH. lia.
    + constructor; [exact Em|]. apply IH. lia.
Qed.

Lemma clean_photo_markers_fixed (all_text : list string) :
  Forall (fun x => is_photo_marker x = false) all_text ->
  _clean_photo_markers all_text = all_text.
Proof.
  induction 1 as [|x l Hx _ IH]; [reflexivity|].
  simpl. rewrite Hx, IH. reflexivity.
Qed.

(** C6: the photo-marker cleanup is idempotent. *)
Theorem clean_photo_markers_idempotent (all_text : list string) :
  _clean_photo_markers (_clean_photo_markers all_text)
  = _clean_photo_markers all_text.
Proof.
  apply clean_photo_markers_fixed.
  apply (clean_photo_markers_no_marker (length all_text)). lia.
Qed.

End PhotoMarkerClaims.

(** ** The merged roster *)

Section RosterClaims.

Import MetadataExtractor.

Lemma same_key_iff (p q : player) :
  same_key p q = true <-> dedup_key p = dedup_key q.
Proof.
  unfold same_key, dedup_key. rewrite andb_true_iff, Z.eqb_eq, String.eqb_eq.
  split; [intros [-> ->]; reflexivity | intros [= -> ->]; auto].
Qed.

Lemma same_key_false_iff (p q : player) :
  same_key p q = false <-> dedup_key p <> dedup_key q.
Proof.
  rewrite <- same_key_iff. destruct (same_key p q); split; congruence.
Qed.

(** Whether the key of [p] is among the keys of [seen]. *)
Lemma seen_iff (p : player) (seen : list player) :
  existsb (same_key p) seen = true <-> In (dedup_key p) (map dedup_key seen).
Proof.
  rewrite existsb_exists, in_map_iff. split.
  - intros (x & Hx & Hk). exists x. apply same_key_iff in Hk. auto.
  - intros (x & Hk & Hx). exists x. split; [exact Hx|].
    apply same_key_iff. auto.
Qed.

Lemma seen_false_iff (p : player) (seen : list player) :
  existsb (same_key p) seen = false <-> ~ In (dedup_key p) (map dedup_key seen).
Proof.
  rewrite <- seen_iff. destruct (existsb (same_key p) seen); split; congruence.
Qed.

(** A kept row comes from the frame and its key was not seen before. *)
Lemma drop_duplicates_from_in (df seen : list player) (q : player) :
  In q (drop_duplicates_from seen df) ->
  In q df /\ ~ In (dedup_key q) (map dedup_key seen).
Proof.
  revert seen; induction df as [|p df IH]; intros seen; simpl; [tauto|].
  destruct (existsb (same_key p) seen) eqn:E.
  - intros H. apply IH in H. tauto.
  - intros [<-|H].
    + split; [auto|]. apply seen_false_iff. exact E.
    + apply IH in H as [H1 H2]. simpl in H2. tauto.
Qed.

(** A kept row is the first row of the frame with its key. *)
Lemma drop_duplicates_from_first (df seen : list player) (q : player) :
  In q (drop_duplicates_from seen df) ->
  exists l1 l2,
    df = l1 ++ q :: l2
    /\ Forall (fun x => dedup_key x <> dedup_key q) l1.
Proof.
  revert seen; induction df as [|p df IH]; intros seen; simpl; [tauto|].
  destruct (existsb (same_key p) seen) eqn:E.
  - intros H. pose proof (drop_duplicates_from_in _ _ _ H) as [_ Hq].
    apply IH in H as (l1 & l2 & -> & Hl1).
    exists (p :: l1), l2. split; [reflexivity|].
    constructor; [|exact Hl1].
    apply seen_iff in E. congruence.
  - intros [<-|H].
    + exists [], df. split; [reflexivity | constructor].
    + pose proof (drop_duplicates_from_in _ _ _ H) as [_ Hq].
      apply IH in H as (l1 & l2 & -> & Hl1).
      exists (p :: l1), l2. split; [reflexivity|].
      constructor; [|exact Hl1].
      simpl in Hq. intros Hk. apply Hq. left. exact Hk.
Qed.

(** No two kept rows share a key. *)
Lemma drop_duplicates_from_NoDup (df seen : list player) :
  List.NoDup (map dedup_key (drop_duplicates_from seen df)).
Proof.
  revert seen; induction df as [|p df IH]; intros seen; simpl; [constructor|].
  destruct (existsb (same_key p) seen); [apply IH|].
  simpl. constructor; [|apply IH].
  intros Hin. apply in_map_iff in Hin as (q & Hk & Hq).
  apply drop_duplicates_from_in in Hq as [_ Hq].
  apply Hq. simpl. left. symmetry. exact Hk.
Qed.

(** Every key of the frame that was not seen before is kept. *)
Lemma drop_duplicates_from_complete (df seen : list player) (p : player) :
  In p df ->
  ~ In (dedup_key p) (map dedup_key seen) ->
  exists q, In q (drop_duplicates_from seen df) /\ dedup_key q = dedup_key p.
Proof.
  revert seen; induction df as [|p0 df IH]; intros seen Hin Hseen;
    [destruct Hin|].
  simpl. destruct (existsb (same_key p0) seen) eqn:E.
  - destruct Hin as [->|Hin]; [|apply IH; assumption].
    apply seen_iff in E. contradiction.
  - destruct (same_key p0 p) eqn:Ek.
    + exists p0. split; [left; reflexivity|]. apply same_key_iff. exact Ek.
    + apply same_key_false_iff in Ek.
      destruct Hin as [->|Hin]; [congruence|].
      destruct (IH (p0 :: seen) Hin) as (q & Hq & Hk).
      * simpl. intros [H|H]; [congruence | contradiction].
      * exists q. split; [right; exact Hq | exact Hk].
Qed.

Lemma StronglySorted_after (R : player -> player -> Prop)
    (l1 l2 : list player) (q : player) :
  StronglySorted R (l1 ++ q :: l2) -> Forall (R q) l2.
Proof.
  induction l1 as [|x l1 IH]; simpl; intros H.
  - apply StronglySorted_inv in H as [_ H]. exact H.
  - apply StronglySorted_inv in H as [H _]. apply IH. exact H.
Qed.

Lemma partition_Permutation (f : player -> bool) (df : list player) :
  Permutation df (List.filter f df ++ List.filter (fun p => negb (f p)) df).
Proof.
  induction df as [|p df IH]; simpl; [constructor|].
  destruct (f p); simpl.
  - constructor. exact IH.
  - apply Permutation_cons_app. exact IH.
Qed.

Lemma StronglySorted_pairwise (R : player -> player -> Prop)
    (l : list player) :
  (forall a b, In a l -> In b l -> R a b) -> StronglySorted R l.
Proof.
  induction l as [|x l IH]; intros H; constructor.
  - apply IH. intros a b Ha Hb. apply H; right; assumption.
  - apply List.Forall_forall. intros b Hb. apply H; [left; reflexivity | right; exact Hb].
Qed.

Lemma StronglySorted_app (R : player -> player -> Prop)
    (l1 l2 : list player) :
  StronglySorted R l1 -> StronglySorted R l2 ->
  (forall a b, In a l1 -> In b l2 -> R a b) ->
  StronglySorted R (l1 ++ l2).
Proof.
  intros H1 H2 H12. induction H1 as [|x l1 Hl1 IH Hx]; simpl; [exact H2|].
  constructor.
  - apply IH. intros a b Ha Hb. apply H12; [right; exact Ha | exact Hb].
  - apply List.Forall_app. split; [exact Hx|].
    apply List.Forall_forall. intros b Hb. apply H12; [left; reflexivity | exact Hb].
Qed.

Lemma priority_range (p : player) : priority p = 1 \/ priority p = 2.
Proof. unfold priority, type_priority. destruct (ptype p); auto. Qed.

(** The impact rows first, then the regular ones, is one outcome of
    sorting by priority. *)
Lemma impact_first_is_sort (df : list player) :
  is_sort_values df (impact_first df).
Proof.
  split; [apply partition_Permutation|].
  unfold impact_first. apply StronglySorted_app.
  - apply StronglySorted_pairwise. intros a b Ha Hb.
    apply filter_In in Ha as [_ Ha]. apply Nat.eqb_eq in Ha.
    destruct (priority_range b); lia.
  - apply StronglySorted_pairwise. intros a b Ha Hb.
    apply filter_In in Ha as [_ Ha]. apply filter_In in Hb as [_ Hb].
    apply negb_true_iff, Nat.eqb_neq in Ha, Hb.
    destruct (priority_range a), (priority_range b); lia.
  - intros a b Ha _. apply filter_In in Ha as [_ Ha]. apply Nat.eqb_eq in Ha.
    destruct (priority_range b); lia.
Qed.

Lemma merge_players_unfold (sort_values : list player -> list player)
    (all_players : list player) :
  is_sort_values all_players (sort_values all_players) ->
  merge_players sort_values all_players
  = drop_duplicates (sort_values all_players).
Proof.
  intros [Hperm _]. destruct all_players as [|p l]; [|reflexivity].
  apply Permutation_nil in Hperm. simpl. rewrite Hperm. reflexivity.
Qed.

(** C7: whatever order the sort leaves among rows of equal priority,
    the merged roster has one record per [(matchid, player_name)] pair
    of the extracted entries, no pair twice and no record of its own
    making; and a pair that has an impact entry is represented by an
    impact record. *)
Theorem roster_one_per_key_impact_first
    (sort_values : list player -> list player) (all_players : list player) :
  (forall df, is_sort_values df (sort_values df)) ->
  List.NoDup (map dedup_key (merge_players sort_values all_players))
  /\ (forall p, In p all_players ->
        exists q, In q (merge_players sort_values all_players)
                  /\ dedup_key q = dedup_key p)
  /\ (forall q, In q (merge_players sort_values all_players) ->
        In q all_players)
  /\ (forall p q, In p all_players ->
        In q (merge_players sort_values all_players) ->
        dedup_key q = dedup_key p -> ptype p = impact -> ptype q = impact).
Proof.
  intros Hsort. rewrite (merge_players_unfold _ _ (Hsort all_players)).
  destruct (Hsort all_players) as [Hperm Hsorted]. unfold drop_duplicates.
  split; [apply drop_duplicates_from_NoDup|]. split; [|split].
  - intros p Hp. apply drop_duplicates_from_complete; [|simpl; tauto].
    eapply Permutation_in; [exact Hperm | exact Hp].
  - intros q Hq. apply drop_duplicates_from_in in Hq as [Hq _].
    eapply Permutation_in; [exact (Permutation_sym Hperm) | exact Hq].
  - intros p q Hp Hq Hk Himp.
    apply drop_duplicates_from_first in Hq as (l1 & l2 & E & Hl1).
    eapply Permutation_in in Hp; [|exact Hperm]. rewrite E in Hp, Hsorted.
    apply in_app_or in Hp as [Hp|[<-|Hp]].
    + rewrite List.Forall_forall in Hl1. specialize (Hl1 p Hp). congruence.
    + exact Himp.
    + apply StronglySorted_after in Hsorted.
      rewrite List.Forall_forall in Hsorted. specialize (Hsorted p Hp).
      unfold priority, type_priority in Hsorted. rewrite Himp in Hsorted.
      destruct (ptype q); [reflexivity | lia].
Qed.

Lemma roster_one_per_key_impact_first_witness :
  (forall df, is_sort_values df (impact_first df))
  /\ merge_players impact_first [Spec.smith_regular; Spec.smith_impact]
     = [Spec.smith_impact]
  /\ List.NoDup
       (map dedup_key
          (merge_players impact_first [Spec.smith_regular; Spec.smith_impact]))
  /\ forall p q,
       In p [Spec.smith_regular; Spec.smith_impact] ->
       In q (merge_players impact_first [Spec.smith_regular; Spec.smith_impact]) ->
       dedup_key q = dedup_key p -> ptype p = impact -> ptype q = impact.
Proof.
  split; [exact impact_first_is_sort|]. split; [reflexivity|].
  pose proof (roster_one_per_key_impact_first impact_first
                [Spec.smith_regular; Spec.smith_impact] impact_first_is_sort)
    as (H1 & _ & _ & H4).
  split; [exact H1 | exact H4].
Defined.

End RosterClaims.

(** ** Documents *)

Section DocumentFacts.

Import Bs4.

(** Induction on a node with the property available for its contents. *)
Lemma node_contents_ind (P : node -> Prop) :
  (forall name cls cs, Forall P cs -> P (Tag name cls cs)) ->
  (forall s, P (NavigableString s)) ->
  forall n, P n.
Proof.
  intros HTag HStr. fix IH 1. intros [name cls cs|s].
  - apply HTag. induction cs as [|c cs IHcs]; constructor.
    + apply IH.
    + exact IHcs.
  - apply HStr.
Qed.

Lemma preorder_self (n : node) : In n (preorder n).
Proof. destruct n; left; reflexivity. Qed.

Lemma descendants_preorder (t n : node) :
  In n (descendants t) -> In n (preorder t).
Proof. destruct t; simpl; [auto | tauto]. Qed.

Lemma preorder_trans (t m n : node) :
  In m (preorder t) -> In n (preorder m) -> In n (preorder t).
Proof.
  revert m n. induction t as [name cls cs IH|s] using node_contents_ind;
    intros m n Hm Hn.
  - simpl in Hm. destruct Hm as [<-|Hm]; [exact Hn|].
    simpl. right. apply in_flat_map in Hm as (c & Hc & Hm).
    apply in_flat_map. exists c. split; [exact Hc|].
    rewrite List.Forall_forall in IH. exact (IH c Hc m n Hm Hn).
  - simpl in Hm. destruct Hm as [<-|[]]. exact Hn.
Qed.

Lemma subtree_preorder (p : path) (root t : node) :
  subtree root p = Some t -> In t (preorder root).
Proof.
  revert root; induction p as [|i p IH]; intros root; simpl.
  - intros [= <-]. apply preorder_self.
  - destruct root as [name cls cs|s]; [|discriminate].
    destruct (nth_error cs i) as [c|] eqn:Ec; [|discriminate].
    intros H. simpl. right. apply in_flat_map. exists c.
    split; [exact (nth_error_In _ _ Ec) | exact (IH c H)].
Qed.

Lemma before_preorder (p : path) (root n : node) :
  In n (before root p) -> In n (preorder root).
Proof.
  revert root; induction p as [|i p IH]; intros root; simpl; [tauto|].
  destruct root as [name cls cs|s]; [|simpl; tauto].
  intros [<-|H]; [left; reflexivity|]. right.
  apply in_app_or in H as [H|H].
  - apply in_flat_map in H as (c & Hc & H). apply in_flat_map.
    exists c. split; [|exact H].
    rewrite <- (firstn_skipn i cs). apply in_or_app. left. exact Hc.
  - destruct (nth_error cs i) as [c|] eqn:Ec; [|destruct H].
    apply in_flat_map. exists c.
    split; [exact (nth_error_In _ _ Ec) | exact (IH c H)].
Qed.

Lemma head_filter_Some (f : node -> bool) (l : list node) (n : node) :
  head (List.filter f l) = Some n -> In n l /\ f n = true.
Proof.
  intros H. apply filter_In.
  destruct (List.filter f l) as [|x l']; [discriminate|].
  injection H as ->. left. reflexivity.
Qed.

(** What [find] returns lies below the tag and passes the filter. *)
Lemma find_Some_in (name : string) (flt : class_filter) (t n : node) :
  find name flt t = Some n ->
  In n (preorder t) /\ matches name flt n = true.
Proof.
  unfold find, find_all. intros H. apply head_filter_Some in H as [H1 H2].
  split; [apply descendants_preorder; exact H1 | exact H2].
Qed.

(** What [find_previous] returns lies in the document and passes the
    filter. *)
Lemma find_previous_Some_in (name : string) (flt : class_filter)
    (root : node) (p : path) (n : node) :
  find_previous name flt root p = Some n ->
  In n (preorder root) /\ matches name flt n = true.
Proof.
  unfold find_previous. intros H. apply head_filter_Some in H as [H1 H2].
  split; [|exact H2]. apply (before_preorder p). apply in_rev. exact H1.
Qed.

End DocumentFacts.

(** ** The team-name resolver *)

Section TeamNameClaims.

Import Bs4 MetadataExtractor.

(** A cleaned name that is accepted has more than two characters. *)
Lemma clean_team_name_length (team_name cleaned : string) :
  _clean_team_name team_name = Some cleaned ->
  (2 < String.length cleaned)%nat.
Proof.
  unfold _clean_team_name.
  destruct (negb (Py.truthy team_name)); [discriminate|].
  destruct (Py.truthy _ && Nat.ltb 2 _) eqn:E; [|discriminate].
  intros [= <-]. apply andb_true_iff in E as [_ E].
  apply Nat.ltb_lt in E. exact E.
Qed.

Lemma name_of_span_length (team_span : option node) (team_name : string) :
  name_of_span team_span = Some team_name ->
  (2 < String.length team_name)%nat.
Proof.
  destruct team_span as [sp|]; simpl; [|discriminate].
  apply clean_team_name_length.
Qed.

Lemma name_of_div_length (team_div : option node) (team_name : string) :
  name_of_div team_div = Some team_name ->
  (2 < String.length team_name)%nat.
Proof.
  destruct team_div as [d|]; simpl; [|discriminate].
  apply name_of_span_length.
Qed.

Lemma strategy_parents_length (levels : nat) (root : node)
    (current : path) (team_name : string) :
  strategy_parents levels root current = Some team_name ->
  (2 < String.length team_name)%nat.
Proof.
  revert current; induction levels as [|levels IH]; intros current; simpl;
    [discriminate|].
  destruct (find_parent current) as [pp|]; [|discriminate].
  destruct (subtree root pp) as [parent|]; [|discriminate].
  destruct (name_of_div _) as [nm|] eqn:E.
  - intros [= <-]. exact (name_of_div_length _ _ E).
  - apply IH.
Qed.

Section NoMarker.

Variable root : node.
Hypothesis no_name_span :
  forall n, In n (preorder root) -> matches "span" team_span_class n = false.

Lemma no_marker_name_of_div (t : node) (team_div : option node) :
  In t (preorder root) ->
  (forall d, team_div = Some d -> In d (preorder t)) ->
  name_of_div team_div = None.
Proof.
  intros Ht Hd. destruct team_div as [d|]; [|reflexivity]. simpl.
  destruct (find "span" team_span_class d) as [sp|] eqn:E; [|reflexivity].
  apply find_Some_in in E as [E1 E2].
  rewrite no_name_span in E2; [discriminate|].
  apply (preorder_trans root t); [exact Ht|].
  apply (preorder_trans t d); [apply Hd; reflexivity | exact E1].
Qed.

Lemma no_marker_parents (levels : nat) (current : path) :
  strategy_parents levels root current = None.
Proof.
  revert current; induction levels as [|levels IH]; intros current; simpl;
    [reflexivity|].
  destruct (find_parent current) as [pp|]; [|reflexivity].
  destruct (subtree root pp) as [parent|] eqn:Ep; [|reflexivity].
  rewrite (no_marker_name_of_div parent).
  - apply IH.
  - exact (subtree_preorder _ _ _ Ep).
  - intros d Hd. apply find_Some_in in Hd as [Hd _]. exact Hd.
Qed.

Lemma no_marker_previous_span (table : path) :
  strategy_previous_span root table = None.
Proof.
  unfold strategy_previous_span.
  destruct (find_previous "span" team_span_class root table) as [sp|] eqn:E;
    [|reflexivity].
  apply find_previous_Some_in in E as [E1 E2].
  rewrite (no_name_span sp E1) in E2. discriminate.
Qed.

Lemma no_marker_previous_div (table : path) :
  strategy_previous_div root table = None.
Proof.
  unfold strategy_previous_div.
  apply (no_marker_name_of_div root); [apply preorder_self|].
  intros d Hd. apply find_previous_Some_in in Hd as [Hd _]. exact Hd.
Qed.

End NoMarker.

(** C8: when none of the three strategies yields a cleaned name of more
    than two characters the resolver returns ["Team "] followed by the
    innings number, ["Team 2"] for the second innings; this is the
    case in particular when the document has no name span at all.  In
    every case the result is a name of more than two characters. *)
Theorem team_name_placeholder
    (root : node) (table : path) (innings_number : nat) :
  (strategy_parents 10 root table = None ->
   strategy_previous_span root table = None ->
   strategy_previous_div root table = None ->
   _extract_team_name_from_table root table innings_number
   = ("Team " ++ Py.str_of_nat innings_number)%string
   /\ (innings_number = 2 ->
       _extract_team_name_from_table root table innings_number = "Team 2"))
  /\ ((forall n, In n (preorder root) ->
         matches "span" team_span_class n = false) ->
      _extract_team_name_from_table root table innings_number
      = ("Team " ++ Py.str_of_nat innings_number)%string)
  /\ (2 < String.length
            (_extract_team_name_from_table root table innings_number))%nat.
Proof.
  split; [|split].
  - intros H1 H2 H3. unfold _extract_team_name_from_table.
    rewrite H1, H2, H3. split; [reflexivity|]. intros ->. reflexivity.
  - intros Hno. unfold _extract_team_name_from_table.
    rewrite (no_marker_parents root Hno), (no_marker_previous_span root Hno),
      (no_marker_previous_div root Hno). reflexivity.
  - unfold _extract_team_name_from_table.
    destruct (strategy_parents 10 root table) as [nm|] eqn:E1;
      [exact (strategy_parents_length _ _ _ _ E1)|].
    destruct (strategy_previous_span root table) as [nm|] eqn:E2;
      [exact (name_of_span_length _ _ E2)|].
    destruct (strategy_previous_div root table) as [nm|] eqn:E3;
      [exact (name_of_div_length _ _ E3)|].
    rewrite length_append. simpl. lia.
Qed.

Lemma team_name_placeholder_witness :
  (strategy_parents 10 Spec.short_name_page Spec.short_name_table = None
   /\ strategy_previous_span Spec.short_name_page Spec.short_name_table = None
   /\ strategy_previous_div Spec.short_name_page Spec.short_name_table = None
   /\ _extract_team_name_from_table
        Spec.short_name_page Spec.short_name_table 2 = "Team 2")
  /\ ((forall n, In n (preorder Spec.bare_page) ->
         matches "span" team_span_class n = false)
      /\ _extract_team_name_from_table Spec.bare_page [0] 2 = "Team 2").
Proof.
  split.
  - split; [reflexivity|]. split; [reflexivity|]. split; [reflexivity|].
    apply (proj1 (team_name_placeholder
                    Spec.short_name_page Spec.short_name_table 2));
      reflexivity.
  - assert (H : forall n, In n (preorder Spec.bare_page) ->
                  matches "span" team_span_class n = false).
    { intros n [<-|[<-|[]]]; reflexivity. }
    split; [exact H|].
    apply (proj1 (proj2 (team_name_placeholder Spec.bare_page [0] 2)) H).
Defined.

End TeamNameClaims.

(** ** Commas in the commentary text *)

Section CommaFacts.

Import Spec.

Lemma count_char_append (c : ascii) (a b : string) :
  count_char c (a ++ b)%string = count_char c a + count_char c b.
Proof.
  induction a as [|x a IH]; [reflexivity|].
  rewrite append_cons. simpl. rewrite IH. lia.
Qed.

Lemma count_comma_contains (s : string) :
  count_char ","%char s = 0 -> Py.contains "," s = false.
Proof.
  intros H. destruct (Py.contains "," s) eqn:E; [|reflexivity].
  apply contains_occurs in E as (a & b & ->).
  rewrite !count_char_append in H. simpl in H. lia.
Qed.

Lemma count_comma_up_to (s : string) :
  count_char ","%char (up_to_first_comma s) = 0.
Proof.
  induction s as [|c s IH]; [reflexivity|]. simpl.
  destruct (Ascii.eqb c ","%char) eqn:E; [reflexivity|].
  simpl. rewrite E, IH. reflexivity.
Qed.

(** With enough rounds, replacing the commas leaves no comma. *)
Lemma replace_fuel_no_comma (fuel : nat) (s : string) :
  (String.length s < fuel)%nat ->
  count_char ","%char (Py.replace_fuel fuel "," "-" s) = 0.
Proof.
  revert s; induction fuel as [|fuel IH]; intros s Hlen; [lia|]. simpl.
  pose proof (find_comma s) as Hc.
  destruct (Py.find "," s) as [i|] eqn:E.
  - rewrite !count_char_append, Hc, count_comma_up_to. simpl.
    apply IH. apply find_Some in E as [_ E].
    pose proof (length_drop_le (i + String.length ",") s). simpl in *. lia.
  - rewrite Hc. apply count_comma_up_to.
Qed.

Lemma replace_no_comma (s : string) :
  count_char ","%char (Py.replace "," "-" s) = 0.
Proof. apply replace_fuel_no_comma. lia. Qed.

Lemma join_count_char (c : ascii) (sep : string) (parts : list string) :
  count_char c sep = 0 ->
  Forall (fun p => count_char c p = 0) parts ->
  count_char c (Py.join sep parts) = 0.
Proof.
  intros Hsep. induction 1 as [|p parts Hp _ IH]; [reflexivity|].
  simpl. destruct parts as [|p' parts]; [exact Hp|].
  rewrite !count_char_append, Hp, Hsep, IH. reflexivity.
Qed.

Lemma list_ascii_append (a b : string) :
  list_ascii_of_string (a ++ b)%string
  = list_ascii_of_string a ++ list_ascii_of_string b.
Proof.
  induction a as [|c a IH]; [reflexivity|].
  rewrite append_cons. simpl. rewrite IH. reflexivity.
Qed.

Lemma subsequence_refl (s : string) : subsequence s s.
Proof. unfold subsequence. reflexivity. Qed.

Lemma subsequence_trans (a b c : string) :
  subsequence a b -> subsequence b c -> subsequence a c.
Proof. unfold subsequence. intros H1 H2. etrans; eassumption. Qed.

Lemma subsequence_drop (n : nat) (s : string) : subsequence (Py.drop n s) s.
Proof.
  unfold subsequence. revert s; induction n as [|n IH]; intros s.
  - destruct s; reflexivity.
  - destruct s as [|c s]; [reflexivity|]. simpl.
    apply sublist_cons. apply IH.
Qed.

Lemma subsequence_lstrip (s : string) : subsequence (Py.lstrip s) s.
Proof.
  unfold subsequence. induction s as [|c s IH]; [reflexivity|]. simpl.
  destruct (Py.is_space c); [apply sublist_cons; exact IH | reflexivity].
Qed.

Lemma subsequence_rstrip (s : string) : subsequence (Py.rstrip s) s.
Proof.
  unfold subsequence. induction s as [|c s IH]; [reflexivity|]. simpl.
  destruct (Py.rstrip s) as [|c' t].
  - destruct (Py.is_space c); simpl.
    + apply sublist_nil_l.
    + apply sublist_skip. exact IH.
  - simpl. apply sublist_skip. exact IH.
Qed.

Lemma subsequence_strip (s : string) : subsequence (Py.strip s) s.
Proof.
  unfold Py.strip.
  apply (subsequence_trans _ (Py.lstrip s));
    [apply subsequence_rstrip | apply subsequence_lstrip].
Qed.

(** Removing the first occurrence of a text only deletes characters. *)
Lemma subsequence_replace1 (old s : string) :
  subsequence (Py.replace1 old "" s) s.
Proof.
  unfold Py.replace1. destruct (Py.find old s) as [i|];
    [|apply subsequence_refl].
  rewrite append_nil. unfold subsequence.
  rewrite <- (take_drop i s) at 3. rewrite !list_ascii_append.
  apply sublist_app; [reflexivity|].
  rewrite drop_add. apply subsequence_drop.
Qed.

Lemma subsequence_remove_all (olds : list string) (s : string) :
  subsequence
    (fold_left (fun remaining old => Py.replace1 old "" remaining) olds s) s.
Proof.
  revert s; induction olds as [|old olds IH]; intros s; simpl.
  - apply subsequence_refl.
  - apply (subsequence_trans _ (Py.replace1 old "" s));
      [apply IH | apply subsequence_replace1].
Qed.

(** A subsequence has no more of any character. *)
Lemma subsequence_count_char (c : ascii) (a b : string) :
  subsequence a b -> (count_char c a <= count_char c b)%nat.
Proof.
  unfold subsequence. revert a; induction b as [|y b IH]; intros a H.
  - destruct a; [simpl; lia | inversion H].
  - destruct a as [|x a]; [simpl; lia|]. simpl in H.
    inversion H as [|? ? ? H'|? ? ? H']; subst.
    + specialize (IH a H'). simpl. lia.
    + specialize (IH (String x a) H'). simpl in *. lia.
Qed.

End CommaFacts.

Section CommentaryClaims.

Import CommentaryParser Spec.

Lemma commentary_parts_no_comma (block : Bs4.node) :
  Forall (fun p => count_char ","%char p = 0) (commentary_parts block).
Proof.
  unfold commentary_parts. apply List.Forall_app. split;
    apply List.Forall_forall; intros p Hp;
    apply in_map_iff in Hp as (n & <- & _); apply replace_no_comma.
Qed.

Lemma p_and_strong_join (block : Bs4.node) :
  p_and_strong block = Py.join "#**#" (commentary_parts block).
Proof. unfold p_and_strong. destruct (commentary_parts block); reflexivity. Qed.

Lemma remaining_text_subsequence (block : Bs4.node) :
  subsequence (remaining_text block) (Bs4.get_text_strip " " block).
Proof.
  unfold remaining_text.
  eapply subsequence_trans; [apply subsequence_strip|].
  eapply subsequence_trans; [apply subsequence_remove_all|].
  destruct (Py.truthy (header_text block));
    [apply subsequence_replace1 | apply subsequence_refl].
Qed.

(** C10: commentary assembled from paragraph and emphasis fragments has
    every comma replaced; commentary taken by the fallback is the
    block text with the header and span texts deleted and the ends
    trimmed, nothing else: its characters, commas included, are those
    of the block text, and it has no hyphen the block text does not
    have. *)
Theorem commentary_commas (block : Bs4.node) :
  (takes_fallback block = false ->
   commentary_text block = Py.join "#**#" (commentary_parts block)
   /\ Py.contains "," (commentary_text block) = false)
  /\ (takes_fallback block = true ->
      Py.truthy (remaining_text block) = true ->
      commentary_text block = remaining_text block
      /\ subsequence (commentary_text block) (Bs4.get_text_strip " " block)
      /\ (count_char "-"%char (commentary_text block)
          <= count_char "-"%char (Bs4.get_text_strip " " block))%nat).
Proof.
  split.
  - intros Hf. unfold commentary_text. rewrite Hf, p_and_strong_join.
    split; [reflexivity|]. apply count_comma_contains.
    apply join_count_char; [reflexivity | apply commentary_parts_no_comma].
  - intros Hf Hr. unfold commentary_text. rewrite Hf, Hr.
    split; [reflexivity|]. split.
    + apply remaining_text_subsequence.
    + apply subsequence_count_char. apply remaining_text_subsequence.
Qed.

Lemma commentary_commas_witness :
  (takes_fallback block_with_paragraph = false
   /\ commentary_text block_with_paragraph = "short- pulled away"
   /\ Py.contains "," (commentary_text block_with_paragraph) = false)
  /\ (takes_fallback block_without_paragraph = true
      /\ Py.truthy (remaining_text block_without_paragraph) = true
      /\ commentary_text block_without_paragraph = "short, pulled away"
      /\ subsequence (commentary_text block_without_paragraph)
           (Bs4.get_text_strip " " block_without_paragraph)).
Proof.
  split.
  - split; [reflexivity|]. split; [reflexivity|].
    apply (proj1 (commentary_commas block_with_paragraph)). reflexivity.
  - split; [reflexivity|]. split; [reflexivity|]. split; [reflexivity|].
    apply (proj2 (commentary_commas block_without_paragraph));
      reflexivity.
Defined.

End CommentaryClaims.

(** ** The metadata extractor *)

Section MetadataClaims.

Import MetadataExtractor.

(** C9: the mapping returned by [extract_metadata] binds ["MatchID"] to
    the given identifier, whatever the details panel holds; when the
    parser raises, and when the page has no details row, the mapping
    is exactly that one binding. *)
Theorem extract_metadata_match_id (MatchId : Type)
    (BeautifulSoup : string -> option Bs4.node)
    (html_content : string) (match_id : MatchId) :
  extract_metadata BeautifulSoup html_content match_id !! "MatchID"
  = Some (Id match_id)
  /\ (BeautifulSoup html_content = None ->
      extract_metadata BeautifulSoup html_content match_id
      = {["MatchID" := Id match_id]})
  /\ (forall soup,
        BeautifulSoup html_content = Some soup ->
        Bs4.find_all "div" details_class soup = [] ->
        extract_metadata BeautifulSoup html_content match_id
        = {["MatchID" := Id match_id]}).
Proof.
  unfold extract_metadata. split; [|split].
  - destruct (BeautifulSoup html_content) as [soup|].
    + destruct (Bs4.find_all "div" details_class soup);
        apply lookup_insert_eq.
    + apply lookup_singleton_eq.
  - intros ->. reflexivity.
  - intros soup -> ->. apply insert_empty.
Qed.

Lemma extract_metadata_match_id_witness :
  extract_metadata (fun _ => Some Spec.details_page) "<html>" 7%nat !! "MatchID"
  = Some (Id 7%nat)
  /\ extract_metadata (fun _ => @None Bs4.node) "<html>" 7%nat
     = {["MatchID" := Id 7%nat]}
  /\ extract_metadata (fun _ => Some Spec.bare_page) "<html>" 7%nat
     = {["MatchID" := Id 7%nat]}.
Proof.
  split; [|split].
  - apply (extract_metadata_match_id nat
             (fun _ => Some Spec.details_page) "<html>" 7%nat).
  - apply (extract_metadata_match_id nat
             (fun _ => @None Bs4.node) "<html>" 7%nat). reflexivity.
  - apply (proj2 (proj2 (extract_metadata_match_id nat
             (fun _ => Some Spec.bare_page) "<html>" 7%nat))
             Spec.bare_page); reflexivity.
Defined.

End MetadataClaims.

(** * Further properties of the extraction core *)

(** ** More on the column normalizer *)

Section NormalizerMore.

Import CommentaryParser Spec.

Lemma target_columns_occurs (data : list row) (target : nat) :
  target_columns data = Some target ->
  exists r, In r data /\ length r = target.
Proof.
  intros Ht. assert (Hne : data <> []) by (intros ->; discriminate Ht).
  destruct (target_columns_spec data Hne) as (t & Ht' & Hocc & _).
  rewrite Ht in Ht'. injection Ht' as <-.
  unfold freq in Hocc. apply (count_occ_In Nat.eq_dec) in Hocc.
  apply in_map_iff in Hocc as (r & Hr & Hin). eauto.
Qed.

Lemma normalize_row_same (target : nat) (r : row) :
  length r = target -> normalize_row target r = r.
Proof.
  intros H. unfold normalize_row. apply Nat.eqb_eq in H. rewrite H. reflexivity.
Qed.

Lemma normalize_row_firstn (target : nat) (r : row) :
  (target <= length r)%nat -> normalize_row target r = firstn target r.
Proof.
  intros H. unfold normalize_row.
  destruct (Nat.eqb (length r) target) eqn:E1.
  - apply Nat.eqb_eq in E1. subst target. symmetry. apply firstn_all.
  - destruct (Nat.ltb (length r) target) eqn:E2; [|reflexivity].
    apply Nat.ltb_lt in E2. lia.
Qed.

(** X1: a row at least as wide as the target comes out as its first
    [target] fields, at the same position of the batch; a row of the
    target width is therefore returned unchanged. *)
Theorem normalize_truncates_to_prefix
    (data : list row) (target i : nat) (r : row) :
  target_columns data = Some target ->
  nth_error data i = Some r ->
  (target <= length r)%nat ->
  nth_error (_normalize_columns data) i = Some (firstn target r)
  /\ (length r = target -> nth_error (_normalize_columns data) i = Some r).
Proof.
  intros Ht Hi Hle.
  rewrite (normalize_columns_unfold data target Ht), nth_error_map, Hi. simpl.
  rewrite (normalize_row_firstn target r Hle). split; [reflexivity|].
  intros <-. rewrite firstn_all. reflexivity.
Qed.

Lemma normalize_truncates_to_prefix_witness :
  target_columns [["0"; "a"]; ["1"; "b"; "extra"]; ["2"; "c"]] = Some 2
  /\ nth_error (_normalize_columns [["0"; "a"]; ["1"; "b"; "extra"]; ["2"; "c"]]) 1
     = Some ["1"; "b"].
Proof.
  split; [reflexivity|].
  apply (normalize_truncates_to_prefix
           [["0"; "a"]; ["1"; "b"; "extra"]; ["2"; "c"]] 2 1 ["1"; "b"; "extra"]);
    [reflexivity | reflexivity | simpl; lia].
Defined.

(** X2: normalizing is idempotent: a normalized batch is returned as it
    is. *)
Theorem normalize_columns_idempotent (data : list row) :
  _normalize_columns (_normalize_columns data) = _normalize_columns data.
Proof.
  destruct data as [|r0 data0]; [reflexivity|].
  set (data := r0 :: data0).
  destruct (target_columns_spec data) as (target & Ht & _ & _);
    [discriminate|].
  rewrite (normalize_columns_unfold data target Ht).
  assert (Hlen : forall r, In r (map (normalize_row target) data) ->
                   length r = target).
  { intros r Hr. apply in_map_iff in Hr as (x & <- & _).
    apply normalize_row_length. }
  destruct (target_columns_spec (map (normalize_row target) data))
    as (t' & Ht' & _ & _); [discriminate|].
  destruct (target_columns_occurs _ _ Ht') as (r & Hr & Hw).
  rewrite (Hlen r Hr) in Hw. subst t'.
  rewrite (normalize_columns_unfold _ target Ht').
  rewrite <- (map_id (map (normalize_row target) data)) at 2.
  apply map_ext_in. intros r' Hr'. apply normalize_row_same. exact (Hlen r' Hr').
Qed.

(** [max] keeps the first of the keys with the largest count. *)
Lemma max_from_first (f : nat -> nat) (ks : list nat) (best : nat) :
  exists a b,
    best :: ks = a ++ max_from f best ks :: b
    /\ (forall x, In x a -> (f x < f (max_from f best ks))%nat)
    /\ (forall x, In x b -> (f x <= f (max_from f best ks))%nat).
Proof.
  revert best; induction ks as [|k ks IH]; intros best; simpl.
  - exists [], []. repeat split; intros x [].
  - destruct (IH (if Nat.ltb (f best) (f k) then k else best))
      as (a & b & E & Ha & Hb).
    set (m := max_from f (if Nat.ltb (f best) (f k) then k else best) ks) in *.
    destruct (Nat.ltb (f best) (f k)) eqn:Elt.
    + apply Nat.ltb_lt in Elt. exists (best :: a), b.
      split; [simpl; rewrite <- E; reflexivity|]. split; [|exact Hb].
      intros x [<-|Hx]; [|exact (Ha x Hx)].
      destruct a as [|y a].
      * simpl in E. injection E as E _. rewrite <- E. exact Elt.
      * simpl in E. injection E as E _. subst y.
        specialize (Ha k (or_introl eq_refl)). lia.
    + apply Nat.ltb_ge in Elt. destruct a as [|y a].
      * simpl in E. injection E as E1 E2. exists [], (k :: ks).
        split; [simpl; rewrite <- E1; reflexivity|].
        split; [intros x []|].
        intros x [<-|Hx]; [rewrite <- E1; exact Elt|].
        apply Hb. rewrite <- E2. exact Hx.
      * simpl in E. injection E as E1 E2. subst y.
        exists (best :: k :: a), b.
        split; [simpl; rewrite E2; reflexivity|]. split; [|exact Hb].
        specialize (Ha best (or_introl eq_refl)) as Hbest.
        intros x [<-|[<-|Hx]]; [exact Hbest | lia |].
        apply Ha. right. exact Hx.
Qed.

Lemma keys_dict_set_extends (d : counts) (k v : nat) :
  exists rest, keys (dict_set d k v) = keys d ++ rest.
Proof.
  unfold keys. induction d as [|[a b] d IHd]; simpl.
  - exists [k]. reflexivity.
  - destruct (Nat.eqb a k); simpl.
    + exists []. rewrite app_nil_r. reflexivity.
    + destruct IHd as (rest & E). exists rest. rewrite E. reflexivity.
Qed.

(** Counting more rows only adds keys at the end. *)
Lemma keys_fold_extends (data : list row) (d : counts) :
  exists rest, keys (fold_left count_row data d) = keys d ++ rest.
Proof.
  revert d; induction data as [|r data IH]; intros d; simpl.
  - exists []. rewrite app_nil_r. reflexivity.
  - destruct (IH (count_row d r)) as (rest & E). rewrite E.
    destruct (keys_dict_set_extends d (length r) (dict_get d (length r) + 1))
      as (rest' & E').
    unfold count_row. rewrite E'. exists (rest' ++ rest).
    rewrite app_assoc. reflexivity.
Qed.

Lemma prefix_before (k1 rest a b : list nat) (t : nat) :
  k1 ++ rest = a ++ t :: b -> ~ In t k1 -> exists c, a = k1 ++ c.
Proof.
  revert a; induction k1 as [|x k1 IH]; intros a E Hnot.
  - exists a. reflexivity.
  - destruct a as [|y a]; simpl in E.
    + injection E as -> _. exfalso. apply Hnot. left. reflexivity.
    + injection E as -> E. destruct (IH a E) as (c & ->).
      * intros H. apply Hnot. right. exact H.
      * exists c. reflexivity.
Qed.

(** X3: among the widths that occur most often, the target is the one
    seen first: a row whose width is as frequent as the target width is
    never placed before the first row of the target width. *)
Theorem target_columns_first_seen
    (l1 l2 : list row) (r : row) (target : nat) :
  target_columns (l1 ++ r :: l2) = Some target ->
  freq (l1 ++ r :: l2) (length r) = freq (l1 ++ r :: l2) target ->
  exists r', In r' (l1 ++ [r]) /\ length r' = target.
Proof.
  intros Ht Hfreq.
  destruct (in_dec Nat.eq_dec target (map (@length string) (l1 ++ [r])))
    as [Hin|Hnot].
  { apply in_map_iff in Hin as (r' & Hr' & Hin). eauto. }
  exfalso. set (data := l1 ++ r :: l2) in *.
  unfold target_columns, py_max in Ht.
  destruct (keys (column_counts data)) as [|k0 ks] eqn:Ek; [discriminate|].
  injection Ht as Ht.
  destruct (max_from_first (dict_get (column_counts data)) ks k0)
    as (a & b & E & Ha & _).
  rewrite Ht in E, Ha. rewrite <- Ek in E.
  assert (Esplit : data = (l1 ++ [r]) ++ l2)
    by (unfold data; rewrite <- app_assoc; reflexivity).
  unfold column_counts in E. rewrite Esplit, fold_left_app in E.
  destruct (keys_fold_extends l2 (fold_left count_row (l1 ++ [r]) []))
    as (rest & Erest).
  rewrite Erest in E.
  assert (Hk1 : forall k, In k (keys (fold_left count_row (l1 ++ [r]) []))
                  <-> In k (map (@length string) (l1 ++ [r]))).
  { intros k. rewrite keys_fold. simpl. tauto. }
  destruct (prefix_before _ _ _ _ _ E) as (c & ->).
  { rewrite Hk1. exact Hnot. }
  assert (Hr : In (length r) (keys (fold_left count_row (l1 ++ [r]) []))).
  { apply Hk1. apply in_map. apply in_or_app. right. left. reflexivity. }
  specialize (Ha (length r) (in_or_app _ _ _ (or_introl Hr))).
  rewrite !column_counts_get in Ha. lia.
Qed.

Lemma target_columns_first_seen_witness :
  target_columns ([["0"; "a"]] ++ ["1"] :: [["2"]; ["3"; "b"]]) = Some 2
  /\ exists r', In r' ([["0"; "a"]] ++ [["1"]]) /\ length r' = 2.
Proof.
  split; [reflexivity|].
  apply (target_columns_first_seen [["0"; "a"]] [["2"]; ["3"; "b"]] ["1"] 2);
    reflexivity.
Defined.

End NormalizerMore.

(** ** More on the photo-marker cleanup *)

Section PhotoMarkerMore.

Import CommentaryParser Spec.

Lemma clean_photo_markers_sublist (n : nat) (all_text : list string) :
  (length all_text <= n)%nat ->
  sublist (_clean_photo_markers all_text) all_text.
Proof.
  revert all_text; induction n as [|n IH]; intros all_text Hlen.
  - destruct all_text; [constructor | simpl in Hlen; lia].
  - destruct all_text as [|current rest]; [constructor|].
    simpl in Hlen. simpl.
    destruct (is_photo_marker current).
    + destruct rest as [|next_element rest']; [apply sublist_nil_l|].
      destruct (is_blank next_element).
      * do 2 apply sublist_cons. apply IH. simpl in Hlen. lia.
      * apply sublist_cons. apply IH. lia.
    + apply sublist_skip. apply IH. lia.
Qed.

Lemma clean_photo_markers_content (n : nat) (all_text : list string) :
  (length all_text <= n)%nat ->
  sublist (List.filter has_content all_text) (_clean_photo_markers all_text).
Proof.
  revert all_text; induction n as [|n IH]; intros all_text Hlen.
  - destruct all_text; [constructor | simpl in Hlen; lia].
  - destruct all_text as [|current rest]; [constructor|].
    simpl in Hlen. cbn [_clean_photo_markers List.filter].
    unfold has_content at 1.
    destruct (is_photo_marker current); cbn [negb andb].
    + destruct rest as [|next_element rest']; [constructor|].
      destruct (is_blank next_element) eqn:Eb.
      * cbn [List.filter]. unfold has_content at 1. rewrite Eb, andb_false_r.
        apply IH. simpl in Hlen. lia.
      * apply IH. lia.
    + destruct (is_blank current); cbn [negb].
      * apply sublist_cons. apply IH. lia.
      * apply sublist_skip. apply IH. lia.
Qed.

(** X4: the cleanup only deletes fields, keeping the order of the rest,
    and it deletes no field that carries content: the fields that are
    neither photo markers nor blank all survive, in order. *)
Theorem clean_photo_markers_keeps_content (all_text : list string) :
  sublist (_clean_photo_markers all_text) all_text
  /\ sublist (List.filter has_content all_text) (_clean_photo_markers all_text).
Proof.
  split.
  - apply (clean_photo_markers_sublist (length all_text)). lia.
  - apply (clean_photo_markers_content (length all_text)). lia.
Qed.

End PhotoMarkerMore.

(** ** The commentary block parser *)

Section ParserFacts.

Import CommentaryParser Spec.

Lemma digit_lower (c : ascii) : Py.is_digit c = true -> Py.lower_char c = c.
Proof.
  destruct c as [[] [] [] [] [] [] [] []]; try reflexivity; discriminate.
Qed.

Lemma digit_not_s (c : ascii) : Py.is_digit c = true -> c <> "s"%char.
Proof.
  destruct c as [[] [] [] [] [] [] [] []]; try discriminate; intros _ [=].
Qed.

Lemma string_of_uint_digits (d : Decimal.uint) :
  forall_chars Py.is_digit (NilEmpty.string_of_uint d) = true.
Proof. induction d; simpl; auto. Qed.

Lemma digits_lower (s : string) :
  forall_chars Py.is_digit s = true -> Py.lower s = s.
Proof.
  induction s as [|c s IH]; [reflexivity|]. simpl.
  intros H. apply andb_true_iff in H as [Hc Hs].
  rewrite (digit_lower c Hc), (IH Hs). reflexivity.
Qed.

Lemma digits_no_marker (s : string) :
  forall_chars Py.is_digit s = true -> Py.find "see all photo" s = None.
Proof.
  induction s as [|c s IH]; [reflexivity|].
  intros H. simpl in H. apply andb_true_iff in H as [Hc Hs].
  rewrite find_unfold. cbn [String.prefix].
  destruct (ascii_dec "s"%char c) as [E|_].
  - exfalso. apply (digit_not_s c Hc). congruence.
  - rewrite (IH Hs). reflexivity.
Qed.

(** The index of a block is never taken for a photo marker. *)
Lemma str_of_nat_not_marker (n : nat) :
  is_photo_marker (Py.str_of_nat n) = false.
Proof.
  unfold is_photo_marker, Py.contains, Py.str_of_nat.
  rewrite (digits_lower _ (string_of_uint_digits _)).
  rewrite (digits_no_marker _ (string_of_uint_digits _)).
  apply andb_false_r.
Qed.

Lemma block_row_shape (idx : nat) (block : Bs4.node) :
  exists rest,
    block_row idx block = Py.str_of_nat idx :: rest
    /\ Forall (fun x => is_photo_marker x = false) (block_row idx block).
Proof.
  assert (H : Forall (fun x => is_photo_marker x = false) (block_row idx block)).
  { unfold block_row. eapply clean_photo_markers_no_marker. reflexivity. }
  unfold block_row in *.
  destruct (Py.truthy (header_text block)); simpl in *;
    rewrite str_of_nat_not_marker in *; eexists; (split; [reflexivity | exact H]).
Qed.

Lemma meaningful_length (all_text : row) :
  meaningful all_text = true -> (2 <= length all_text)%nat.
Proof.
  unfold meaningful. destruct all_text as [|x l]; [discriminate|].
  intros H. apply Nat.leb_le in H.
  pose proof (filter_length_le Py.truthy (x :: l)). lia.
Qed.

(** What the block loop collects: rows of at least two fields, free of
    photo markers, each starting with the index of its block; the
    indices increase. *)
Lemma collect_rows_shape (blocks : list Bs4.node) (idx : nat) :
  Forall (fun r => (2 <= length r)%nat
                   /\ Forall (fun x => is_photo_marker x = false) r)
    (collect_rows idx blocks)
  /\ exists idxs,
       map (hd "") (collect_rows idx blocks) = map Py.str_of_nat idxs
       /\ Forall (fun i => (idx <= i < idx + length blocks)%nat) idxs
       /\ StronglySorted lt idxs.
Proof.
  revert idx; induction blocks as [|block blocks IH]; intros idx; simpl.
  - split; [constructor|]. exists []. repeat split; constructor.
  - destruct (IH (S idx)) as (Hrows & idxs & Hhd & Hrange & Hsorted).
    assert (Hrange' : Forall (fun i => (idx <= i < idx + S (length blocks))%nat) idxs).
    { eapply List.Forall_impl; [|exact Hrange]. simpl. intros i Hi. lia. }
    destruct (meaningful (block_row idx block)) eqn:Em.
    + destruct (block_row_shape idx block) as (rest & E & Hnm). split.
      * constructor; [|exact Hrows]. split; [|exact Hnm].
        apply meaningful_length. exact Em.
      * exists (idx :: idxs). split; [|split].
        -- simpl. rewrite E at 1. simpl. f_equal. exact Hhd.
        -- constructor; [lia | exact Hrange'].
        -- constructor; [exact Hsorted|].
           eapply List.Forall_impl; [|exact Hrange]. simpl. intros i Hi. lia.
    + split; [exact Hrows|]. exists idxs. auto.
Qed.

Lemma removelast_hd (r : row) :
  (2 <= length r)%nat -> hd "" (removelast r) = hd "" r.
Proof.
  destruct r as [|x [|y r]]; simpl; try lia. reflexivity.
Qed.

Lemma normalize_row_hd (target : nat) (r : row) :
  (2 <= length r)%nat -> (1 <= target)%nat ->
  hd "" (normalize_row target r) = hd "" r.
Proof.
  intros Hr Ht. unfold normalize_row.
  destruct (Nat.eqb (length r) target); [reflexivity|].
  destruct (Nat.ltb (length r) target).
  - destruct r as [|x [|y r]]; simpl in Hr; try lia. reflexivity.
  - destruct target; [lia|]. destruct r; reflexivity.
Qed.

Lemma normalize_row_no_marker (target : nat) (r : row) :
  Forall (fun x => is_photo_marker x = false) r ->
  Forall (fun x => is_photo_marker x = false) (normalize_row target r).
Proof.
  intros H. rewrite List.Forall_forall in H. apply List.Forall_forall.
  intros x Hx. unfold normalize_row in Hx.
  destruct (Nat.eqb (length r) target); [exact (H x Hx)|].
  destruct (Nat.ltb (length r) target).
  - destruct (Nat.ltb 0 (length r)).
    + apply in_app_or in Hx as [Hx|Hx].
      * apply H. destruct r as [|y r]; [destruct Hx|].
        rewrite (app_removelast_last "" (l := y :: r)) by discriminate.
        apply in_or_app. left. exact Hx.
      * apply in_app_or in Hx as [Hx|[<-|[]]].
        -- apply repeat_spec in Hx. subst x. reflexivity.
        -- destruct r as [|y r]; [reflexivity|]. apply H.
           rewrite (app_removelast_last "" (l := y :: r)) at 2 by discriminate.
           apply in_or_app. right. left. reflexivity.
    + apply repeat_spec in Hx. subst x. reflexivity.
  - apply H. rewrite <- (firstn_skipn target r). apply in_or_app. left. exact Hx.
Qed.

End ParserFacts.

Section ParserClaims.

Import CommentaryParser Spec.

Variable BeautifulSoup : string -> option Bs4.node.

Lemma normalize_columns_shape (data : list row) :
  Forall (fun r => (2 <= length r)%nat
                   /\ Forall (fun x => is_photo_marker x = false) r) data ->
  (exists w, (2 <= w)%nat
     /\ forall r, In r (_normalize_columns data) ->
          length r = w /\ Forall (fun x => is_photo_marker x = false) r)
  /\ map (hd "") (_normalize_columns data) = map (hd "") data.
Proof.
  intros Hdata. rewrite List.Forall_forall in Hdata.
  destruct data as [|r0 data0]; [split; [exists 2; split; [lia | intros r []] | reflexivity]|].
  set (data := r0 :: data0) in *.
  destruct (target_columns_spec data) as (target & Ht & _ & _); [discriminate|].
  destruct (target_columns_occurs data target Ht) as (r1 & Hr1 & Hw).
  assert (Htarget : (2 <= target)%nat) by (rewrite <- Hw; apply (Hdata r1 Hr1)).
  rewrite (normalize_columns_unfold data target Ht). split.
  - exists target. split; [exact Htarget|].
    intros r Hr. apply in_map_iff in Hr as (x & <- & Hx). split.
    + apply normalize_row_length.
    + apply normalize_row_no_marker. apply (Hdata x Hx).
  - rewrite map_map. apply map_ext_in. intros x Hx.
    apply normalize_row_hd; [apply (Hdata x Hx) | lia].
Qed.

(** X5: all rows returned by [parse_commentary] have one and the same
    width, of at least two fields, and no field of any of them is a
    photo marker. *)
Theorem parse_commentary_rows (html_content : string) :
  exists w, (2 <= w)%nat
    /\ forall r, In r (parse_commentary BeautifulSoup html_content) ->
         length r = w /\ Forall (fun x => is_photo_marker x = false) r.
Proof.
  unfold parse_commentary.
  destruct (BeautifulSoup html_content) as [soup|];
    [|exists 2; split; [lia | intros r []]].
  destruct (Bs4.find_all "div" block_class soup) as [|b bs];
    [exists 2; split; [lia | intros r []]|].
  apply normalize_columns_shape. apply collect_rows_shape.
Qed.


End ParserClaims.

(** ** More on the commentary-to-table mapper *)

Section MapperMore.

Import CommentaryParser Spec.

(** X7: [to_dataframe] returns either the empty frame or a frame with
    the six final columns and one row per input row, in order; such a
    row has six cells, starts with the first three fields of its input
    row, and its [Bowler] and [Batsman] cells are the attribution of its
    own [Event] cell.  Its [Commentary] cell is the sixth field in the
    six-column layout; in the seven-column layout it is the seventh
    field, or the sixth when the seventh is missing or empty. *)
Theorem to_dataframe_well_formed (parsed_data : list row) :
  to_dataframe parsed_data = empty_frame
  \/ (columns (to_dataframe parsed_data) = final_columns
      /\ length (values (to_dataframe parsed_data)) = length parsed_data
      /\ forall i r, nth_error parsed_data i = Some r ->
           exists commentary,
             nth_error (values (to_dataframe parsed_data)) i
             = Some [nth_error r 0; nth_error r 1; nth_error r 2; commentary;
                     fst (extract_bowler_batsman (nth_error r 1));
                     snd (extract_bowler_batsman (nth_error r 1))]
             /\ (num_columns parsed_data = 6 -> commentary = nth_error r 5)
             /\ (num_columns parsed_data = 7 ->
                 commentary = if is_missing (nth_error r 6)
                              then nth_error r 5 else nth_error r 6)).
Proof.
  unfold to_dataframe. destruct parsed_data as [|r0 data0]; [left; reflexivity|].
  set (data := r0 :: data0).
  destruct (Nat.eqb (num_columns data) 6) eqn:E6.
  - right. split; [reflexivity|]. split; [apply length_map|].
    intros i r Hi. cbn [values]. rewrite nth_error_map, Hi.
    cbn [option_map]. unfold map_row6, field.
    destruct (extract_bowler_batsman (nth_error r 1)) as [bowler batsman].
    eexists. split; [reflexivity|]. apply Nat.eqb_eq in E6.
    split; [reflexivity | intros E7; rewrite E6 in E7; discriminate].
  - destruct (Nat.eqb (num_columns data) 7) eqn:E7; [|left; reflexivity].
    right. split; [reflexivity|]. split; [apply length_map|].
    intros i r Hi. cbn [values]. rewrite nth_error_map, Hi.
    cbn [option_map]. unfold map_row7, field.
    destruct (extract_bowler_batsman (nth_error r 1)) as [bowler batsman].
    eexists. split; [reflexivity|]. apply Nat.eqb_neq in E6.
    split; [intros E; contradiction | reflexivity].
Qed.

Lemma to_dataframe_well_formed_witness :
  nth_error
    (values (to_dataframe
               [["0"; "Bumrah to Kohli, SIX"; "19.6"; "6"; ""; "six runs"; ""]])) 0
  = Some [Some "0"; Some "Bumrah to Kohli, SIX"; Some "19.6"; Some "six runs";
          Some "Bumrah"; Some "Kohli"].
Proof.
  destruct (to_dataframe_well_formed
              [["0"; "Bumrah to Kohli, SIX"; "19.6"; "6"; ""; "six runs"; ""]])
    as [H|(_ & _ & H)]; [discriminate H|].
  destruct (H 0 ["0"; "Bumrah to Kohli, SIX"; "19.6"; "6"; ""; "six runs"; ""]
              eq_refl) as (commentary & Hrow & _ & H7).
  rewrite Hrow, (H7 eq_refl). reflexivity.
Defined.

Lemma rstrip_cons (c : ascii) (s : string) :
  Py.is_space c = false ->
  exists t, Py.rstrip (String c s) = String c t.
Proof.
  intros Hc. simpl. destruct (Py.rstrip s); rewrite ?Hc; eexists; reflexivity.
Qed.

Lemma rstrip_idempotent (s : string) : Py.rstrip (Py.rstrip s) = Py.rstrip s.
Proof.
  induction s as [|c s IH]; [reflexivity|]. simpl.
  destruct (Py.rstrip s) as [|c' t] eqn:E.
  - destruct (Py.is_space c) eqn:Ec; [reflexivity|]. simpl. rewrite Ec. reflexivity.
  - change (Py.rstrip (String c (String c' t))) with
      (match Py.rstrip (String c' t) with
       | EmptyString => if Py.is_space c then EmptyString else String c EmptyString
       | u => String c u
       end).
    rewrite IH. reflexivity.
Qed.

Lemma lstrip_head (s : string) :
  Py.lstrip s = EmptyString
  \/ exists c t, Py.lstrip s = String c t /\ Py.is_space c = false.
Proof.
  induction s as [|c s IH]; [left; reflexivity|]. simpl.
  destruct (Py.is_space c) eqn:Ec; [exact IH|]. right. eauto.
Qed.

(** Stripping leaves nothing to strip. *)
Lemma strip_trimmed (s : string) : trimmed (Py.strip s).
Proof.
  unfold trimmed, Py.strip.
  destruct (lstrip_head s) as [->|(c & t & -> & Hc)]; [reflexivity|].
  destruct (rstrip_cons c t Hc) as (u & E). rewrite E.
  cbn [Py.lstrip]. rewrite Hc, <- E. apply rstrip_idempotent.
Qed.

(** X8: the names returned by [extract_bowler_batsman] are either both
    null or both present; when present they have no white space at
    either end, and the batsman has no comma. *)
Theorem extract_bowler_batsman_clean (event : cell) :
  extract_bowler_batsman event = (None, None)
  \/ exists bowler batsman,
       extract_bowler_batsman event = (Some bowler, Some batsman)
       /\ trimmed bowler /\ trimmed batsman
       /\ Py.contains "," batsman = false.
Proof.
  destruct event as [event|]; [|left; reflexivity].
  unfold extract_bowler_batsman.
  destruct (negb (Py.truthy event)); [left; reflexivity|].
  rewrite split_unfold.
  destruct (Py.find " to " event) as [i|]; [|left; reflexivity].
  destruct (Py.split_fuel _ " to " _) as [|p1 rest]; [left; reflexivity|].
  right. pose proof (find_comma p1) as Hc.
  assert (Hno : forall t, subsequence t (up_to_first_comma p1) ->
                  Py.contains "," t = false).
  { intros t Ht. apply count_comma_contains.
    pose proof (subsequence_count_char ","%char _ _ Ht) as Hle.
    rewrite count_comma_up_to in Hle. lia. }
  unfold Py.contains at 1. rewrite split_unfold.
  destruct (Py.find "," p1) as [j|].
  - exists (Py.strip (Py.take i event)), (Py.strip (Py.take j p1)).
    split; [reflexivity|]. split; [apply strip_trimmed|].
    split; [apply strip_trimmed|].
    apply Hno. rewrite Hc. apply subsequence_strip.
  - exists (Py.strip (Py.take i event)), (Py.strip p1).
    split; [reflexivity|]. split; [apply strip_trimmed|].
    split; [apply strip_trimmed|].
    apply Hno. rewrite <- Hc. apply subsequence_strip.
Qed.

End MapperMore.

(** ** Names *)

Section NameFacts.

Import MetadataExtractor Spec.

Lemma forall_chars_append (p : ascii -> bool) (a b : string) :
  forall_chars p (a ++ b)%string = forall_chars p a && forall_chars p b.
Proof.
  induction a as [|c a IH]; [reflexivity|].
  rewrite append_cons. simpl. rewrite IH, andb_assoc. reflexivity.
Qed.

Lemma forall_chars_subsequence (p : ascii -> bool) (a b : string) :
  subsequence a b -> forall_chars p b = true -> forall_chars p a = true.
Proof.
  unfold subsequence. revert a; induction b as [|y b IH]; intros a H Hb.
  - destruct a; [reflexivity | inversion H].
  - destruct a as [|x a]; [reflexivity|]. simpl in H, Hb.
    apply andb_true_iff in Hb as [Hy Hb].
    inversion H as [|? ? ? H'|? ? ? H']; subst.
    + simpl. rewrite Hy. exact (IH a H' Hb).
    + exact (IH (String x a) H' Hb).
Qed.

Lemma spaced_lstrip (b : bool) (s : string) :
  spaced_from b s = true -> spaced_from false (Py.lstrip s) = true.
Proof.
  revert b; induction s as [|c s IH]; intros b; [reflexivity|]. simpl.
  destruct (Py.is_space c) eqn:Ec.
  - intros H. apply andb_true_iff in H as [_ H]. exact (IH true H).
  - intros H. simpl. rewrite Ec. exact H.
Qed.

Lemma spaced_rstrip (b : bool) (s : string) :
  spaced_from b s = true -> spaced_from b (Py.rstrip s) = true.
Proof.
  revert b; induction s as [|c s IH]; intros b; [reflexivity|].
  cbn [spaced_from Py.rstrip]. intros H.
  destruct (Py.is_space c) eqn:Ec.
  - apply andb_true_iff in H as [H1 H2]. specialize (IH true H2).
    destruct (Py.rstrip s) as [|c' t]; [reflexivity|].
    cbn [spaced_from]. rewrite Ec, H1. exact IH.
  - specialize (IH false H).
    destruct (Py.rstrip s) as [|c' t].
    + simpl. rewrite Ec. reflexivity.
    + cbn [spaced_from]. rewrite Ec. exact IH.
Qed.

Lemma spaced_strip (s : string) : single_spaced s -> single_spaced (Py.strip s).
Proof.
  unfold single_spaced, Py.strip. intros H.
  apply spaced_rstrip. exact (spaced_lstrip false s H).
Qed.

(** Replacing the runs of white space by single spaces. *)
Lemma spaced_sub_whitespace (s : string) (b : bool) :
  spaced_from b (sub_whitespace b s) = true.
Proof.
  revert b; induction s as [|c s IH]; intros b; [reflexivity|]. simpl.
  destruct (Py.is_space c) eqn:Ec.
  - destruct b; [apply IH|]. simpl. apply IH.
  - simpl. rewrite Ec. apply IH.
Qed.

(** X9: a team name accepted by [_clean_team_name] has more than two
    characters, no white space at either end, and only single plain
    spaces inside. *)
Theorem clean_team_name_normal_form (team_name cleaned : string) :
  _clean_team_name team_name = Some cleaned ->
  (2 < String.length cleaned)%nat /\ trimmed cleaned /\ single_spaced cleaned.
Proof.
  unfold _clean_team_name.
  destruct (negb (Py.truthy team_name)); [discriminate|].
  destruct (Py.truthy _ && Nat.ltb 2 _) eqn:E; [|discriminate].
  intros [= <-]. apply andb_true_iff in E as [_ E]. apply Nat.ltb_lt in E.
  split; [exact E|]. split; [apply strip_trimmed|].
  apply spaced_strip. apply spaced_sub_whitespace.
Qed.

Lemma clean_team_name_normal_form_witness :
  _clean_team_name "2nd  Innings   New   Zealand  Innings" = Some "New Zealand"
  /\ trimmed "New Zealand" /\ single_spaced "New Zealand".
Proof.
  split; [reflexivity|].
  apply (clean_team_name_normal_form "2nd  Innings   New   Zealand  Innings" "New Zealand"). reflexivity.
Defined.

Lemma remove_symbols_clean (s : string) :
  forall_chars no_symbol (remove_symbols s) = true.
Proof.
  induction s as [|c s IH]; [reflexivity|]. simpl.
  destruct (is_symbol c) eqn:Ec; [exact IH|].
  simpl. unfold no_symbol at 1. rewrite Ec. exact IH.
Qed.

Lemma sub_captain_keeper_chars (p : ascii -> bool) (s : string) (skip : nat) :
  forall_chars p s = true -> forall_chars p (sub_captain_keeper skip s) = true.
Proof.
  revert skip; induction s as [|c s IH]; intros skip H; [reflexivity|].
  simpl in H. apply andb_true_iff in H as [Hc Hs].
  cbn [sub_captain_keeper]. destruct skip as [|skip]; [|exact (IH skip Hs)].
  destruct (match_literal_ci "(c)" (String c s)); [exact (IH 2 Hs)|].
  destruct (match_literal_ci "(wk)" (String c s)); [exact (IH 3 Hs)|].
  simpl. rewrite Hc. exact (IH 0 Hs).
Qed.

Lemma final_newline_chars (p : ascii -> bool) (s : string) :
  forall_chars p s = true -> forall_chars p (final_newline s) = true.
Proof.
  induction s as [|c s IH]; [reflexivity|]. intros H.
  simpl in H. apply andb_true_iff in H as [Hc Hs].
  destruct s as [|c' s'].
  - simpl. destruct (is_newline c); [simpl; rewrite Hc|]; reflexivity.
  - exact (IH Hs).
Qed.

Lemma sub_trailing_punct_chars (p : ascii -> bool) (s : string) :
  forall_chars p s = true -> forall_chars p (sub_trailing_punct s) = true.
Proof.
  induction s as [|c s IH]; [reflexivity|]. intros H.
  cbn [sub_trailing_punct].
  destruct (punct_to_end (String c s)); [exact (final_newline_chars p _ H)|].
  simpl in H. apply andb_true_iff in H as [Hc Hs].
  simpl. rewrite Hc. exact (IH Hs).
Qed.

Lemma sub_leading_punct_chars (p : ascii -> bool) (s : string) :
  forall_chars p s = true -> forall_chars p (sub_leading_punct s) = true.
Proof.
  induction s as [|c s IH]; [reflexivity|]. intros H. simpl.
  destruct (is_comma_semicolon c); [|exact H].
  simpl in H. apply andb_true_iff in H as [_ Hs]. exact (IH Hs).
Qed.

(** The words of [name.split()]: not empty, without white space, made
    of characters of the name. *)
Lemma split_whitespace_words (p : ascii -> bool) (s word : string) :
  forall_chars no_space word = true ->
  forall_chars p word = true -> forall_chars p s = true ->
  Forall (fun w => Py.truthy w = true
                   /\ forall_chars no_space w = true
                   /\ forall_chars p w = true)
    (split_whitespace word s).
Proof.
  revert word; induction s as [|c s IH]; intros word Hw Hpw Hs; simpl.
  - destruct (Py.truthy word) eqn:E; repeat constructor; assumption.
  - simpl in Hs. apply andb_true_iff in Hs as [Hc Hs].
    destruct (Py.is_space c) eqn:Ec.
    + destruct (Py.truthy word) eqn:E.
      * constructor; [auto|]. apply IH; auto.
      * apply IH; auto.
    + apply IH; [| |exact Hs]; rewrite forall_chars_append; simpl.
      * rewrite Hw. unfold no_space. rewrite Ec. reflexivity.
      * rewrite Hpw, Hc. reflexivity.
Qed.

Lemma append_empty_r (s : string) : (s ++ EmptyString)%string = s.
Proof.
  induction s as [|c s IH]; [reflexivity|]. rewrite append_cons, IH. reflexivity.
Qed.

Lemma spaced_word (w rest : string) (b : bool) :
  Py.truthy w = true -> forall_chars no_space w = true ->
  spaced_from b (w ++ rest)%string = spaced_from false rest.
Proof.
  revert b; induction w as [|c w IH]; intros b Ht Hw; [discriminate|].
  simpl in Hw. apply andb_true_iff in Hw as [Hc Hw].
  unfold no_space in Hc. apply negb_true_iff in Hc.
  rewrite append_cons. cbn [spaced_from]. rewrite Hc.
  destruct w as [|c' w']; [reflexivity|]. apply IH; [reflexivity | exact Hw].
Qed.

Lemma join_words_spaced (b : bool) (words : list string) :
  Forall (fun w => Py.truthy w = true /\ forall_chars no_space w = true) words ->
  words <> [] ->
  spaced_from b (Py.join " " words) = true.
Proof.
  intros H. revert b. induction H as [|w ws [Ht Hw] Hws IH]; intros b Hne;
    [congruence|].
  destruct ws as [|w' ws'].
  - simpl. rewrite <- (append_empty_r w). exact (spaced_word w EmptyString b Ht Hw).
  - change (Py.join " " (w :: w' :: ws'))
      with (w ++ " " ++ Py.join " " (w' :: ws'))%string.
    rewrite (spaced_word w _ b Ht Hw).
    change (" " ++ Py.join " " (w' :: ws'))%string
      with (String " "%char (Py.join " " (w' :: ws'))).
    cbn [spaced_from]. change (Py.is_space " "%char) with true.
    cbn [Ascii.eqb negb andb]. simpl Ascii.eqb.
    apply IH. discriminate.
Qed.

Lemma join_chars (p : ascii -> bool) (sep : string) (parts : list string) :
  forall_chars p sep = true ->
  Forall (fun w => forall_chars p w = true) parts ->
  forall_chars p (Py.join sep parts) = true.
Proof.
  intros Hsep. induction 1 as [|w ws Hw _ IH]; [reflexivity|].
  simpl. destruct ws as [|w' ws']; [exact Hw|].
  rewrite !forall_chars_append, Hw, Hsep, IH. reflexivity.
Qed.

End NameFacts.

Section PlayerNameClaims.

Import MetadataExtractor Spec.

(** X10: a player name accepted by [_clean_player_name] has at least two
    characters, no white space at either end, only single plain spaces
    inside, none of the symbols of the removed class (asterisk, a with
    circumflex, no-break space), and is not one of the header labels,
    whatever its letter case. *)
Theorem clean_player_name_normal_form
    (name : option string) (cleaned : string) :
  _clean_player_name name = Some cleaned ->
  (2 <= String.length cleaned)%nat
  /\ trimmed cleaned /\ single_spaced cleaned
  /\ forall_chars no_symbol cleaned = true
  /\ ~ In (Py.lower cleaned) header_labels.
Proof.
  unfold _clean_player_name. destruct name as [name|]; [|discriminate].
  destruct (negb (Py.truthy name)); [discriminate|].
  set (n4 := sub_leading_punct
               (sub_trailing_punct (sub_captain_keeper 0 (remove_symbols name)))).
  set (words := split_whitespace EmptyString n4).
  destruct (existsb _ header_labels) eqn:Eh; [discriminate|].
  destruct (Py.truthy _ && Nat.ltb 1 _) eqn:E; [|discriminate].
  intros [= <-]. apply andb_true_iff in E as [_ E]. apply Nat.ltb_lt in E.
  assert (Hn4 : forall_chars no_symbol n4 = true).
  { apply sub_leading_punct_chars, sub_trailing_punct_chars,
      sub_captain_keeper_chars, remove_symbols_clean. }
  pose proof (split_whitespace_words no_symbol n4 EmptyString
                eq_refl eq_refl Hn4) as Hwords.
  fold words in Hwords.
  split; [lia|]. split; [apply strip_trimmed|]. split; [|split].
  - apply spaced_strip. unfold single_spaced.
    destruct words as [|w ws] eqn:Ew; [reflexivity|]. rewrite <- Ew in *.
    apply join_words_spaced; [|rewrite Ew; discriminate].
    eapply List.Forall_impl; [|exact Hwords]. simpl. tauto.
  - apply (forall_chars_subsequence _ _ _ (subsequence_strip _)).
    apply join_chars; [reflexivity|].
    eapply List.Forall_impl; [|exact Hwords]. simpl. tauto.
  - intros Hin.
    assert (Ht : existsb (String.eqb (Py.lower (Py.strip (Py.join " " words))))
                   header_labels = true).
    { apply existsb_exists.
      exists (Py.lower (Py.strip (Py.join " " words))).
      split; [exact Hin | apply String.eqb_refl]. }
    rewrite Ht in Eh. discriminate.
Qed.

Lemma clean_player_name_normal_form_witness :
  _clean_player_name (Some "  Steven   Smith (c)*,") = Some "Steven Smith"
  /\ trimmed "Steven Smith" /\ single_spaced "Steven Smith".
Proof.
  split; [reflexivity|].
  destruct (clean_player_name_normal_form
              (Some "  Steven   Smith (c)*,") "Steven Smith" eq_refl)
    as (_ & H2 & H3 & _).
  split; [exact H2 | exact H3].
Defined.

(** X11: [_get_opposite_team] returns ["Unknown Team"] or a team of the
    list that differs from the current team; it returns ["Unknown
    Team"] whenever the current team is missing or empty or fewer than
    two teams are listed. *)
Theorem get_opposite_team_other
    (current_team : option string) (all_teams : list string) :
  (_get_opposite_team current_team all_teams = "Unknown Team"
   \/ (In (_get_opposite_team current_team all_teams) all_teams
       /\ current_team <> Some (_get_opposite_team current_team all_teams)))
  /\ ((current_team = None \/ current_team = Some EmptyString
       \/ (length all_teams < 2)%nat) ->
      _get_opposite_team current_team all_teams = "Unknown Team").
Proof.
  unfold _get_opposite_team. split.
  - destruct current_team as [cur|]; [|left; reflexivity].
    destruct (negb (Py.truthy cur) || _ || _); [left; reflexivity|].
    destruct (List.find _ all_teams) as [team|] eqn:E; [|left; reflexivity].
    right. apply find_some in E as [Hin Hne]. split; [exact Hin|].
    intros [= ->]. rewrite String.eqb_refl in Hne. discriminate.
  - intros [->|[->|Hlen]]; [reflexivity | reflexivity |].
    destruct current_team as [cur|]; [|reflexivity].
    apply Nat.ltb_lt in Hlen. rewrite Hlen, orb_true_r. reflexivity.
Qed.

Lemma get_opposite_team_other_witness :
  (length ["India"] < 2)%nat
  /\ _get_opposite_team (Some "India") ["India"] = "Unknown Team".
Proof.
  split; [simpl; lia|].
  apply (proj2 (get_opposite_team_other (Some "India") ["India"])).
  right. right. simpl. lia.
Defined.

Lemma find_other (t u : string) (teams : list string) :
  (forall x, In x teams -> x = t \/ x = u) ->
  In u teams -> u <> t ->
  List.find (fun team => negb (String.eqb team t)) teams = Some u.
Proof.
  intros Hall Hin Hne. induction teams as [|x teams IH]; [destruct Hin|].
  simpl. destruct (String.eqb x t) eqn:E; simpl.
  - apply String.eqb_eq in E. subst x.
    destruct Hin as [Hin|Hin]; [congruence|].
    apply IH; [|exact Hin]. intros y Hy. apply Hall. right. exact Hy.
  - apply String.eqb_neq in E.
    destruct (Hall x (or_introl eq_refl)); congruence.
Qed.

(** X12: when the batting teams of a match bear two different names,
    the bowling team computed for a table is the team that does not bat
    in the innings of the same number; a table beyond the last batting
    innings gets ["Unknown Team"]. *)
Theorem bowling_team_is_other_team
    (batting_teams : list string) (idx : nat) :
  (forall t u,
      (1 <= idx)%nat ->
      nth_error batting_teams (idx - 1) = Some t ->
      t <> EmptyString ->
      In u batting_teams -> u <> t ->
      (forall x, In x batting_teams -> x = t \/ x = u) ->
      bowling_team batting_teams idx = u)
  /\ ((length batting_teams < idx)%nat ->
      bowling_team batting_teams idx = "Unknown Team").
Proof.
  unfold bowling_team. split.
  - intros t u Hidx Ht Hne Hu Hut Hall.
    assert (Hlen : (idx <= length batting_teams)%nat).
    { pose proof (proj1 (nth_error_Some batting_teams (idx - 1))) as H.
      rewrite Ht in H. specialize (H ltac:(discriminate)). lia. }
    apply Nat.leb_le in Hlen. rewrite Hlen, Ht. unfold _get_opposite_team.
    assert (Htr : Py.truthy t = true) by (destruct t; [congruence | reflexivity]).
    rewrite Htr. simpl negb. simpl orb.
    assert (Hl2 : Nat.ltb (length batting_teams) 2 = false).
    { apply Nat.ltb_ge.
      destruct batting_teams as [|a [|b l]]; simpl; try lia.
      - destruct Hu.
      - apply nth_error_In in Ht. destruct Ht as [<-|[]].
        destruct Hu as [<-|[]]. congruence. }
    rewrite Hl2. destruct batting_teams as [|a l]; [destruct Hu|].
    rewrite (find_other t u (a :: l) Hall Hu Hut). reflexivity.
  - intros Hlt. apply Nat.leb_gt in Hlt. rewrite Hlt. reflexivity.
Qed.

Lemma bowling_team_is_other_team_witness :
  bowling_team ["India"; "Australia"; "Australia"; "India"] 3 = "India"
  /\ bowling_team ["India"; "Australia"] 3 = "Unknown Team".
Proof.
  split.
  - apply (proj1 (bowling_team_is_other_team
                    ["India"; "Australia"; "Australia"; "India"] 3)
             "Australia" "India");
      [lia | reflexivity | discriminate | simpl; auto | discriminate |].
    intros x Hx. simpl in Hx. intuition.
  - apply (proj2 (bowling_team_is_other_team ["India"; "Australia"] 3)).
    simpl. lia.
Defined.

(** X13: [_is_impact_player] answers [true] only for a cell that has,
    below it, an [i] tag carrying all three marker classes; a missing
    cell, or a cell without [i] tag of class [icon-arrow_back-filled],
    is not an impact cell. *)
Theorem is_impact_player_sound (td_element : option Bs4.node) :
  (_is_impact_player td_element = true ->
   exists td icon name contents,
     td_element = Some td
     /\ In icon (Bs4.descendants td)
     /\ icon = Bs4.Tag name (Some (class_list icon)) contents
     /\ name = "i"
     /\ forall cls, In cls required_classes -> In cls (class_list icon))
  /\ ((forall td, td_element = Some td ->
         Bs4.find "i" (Bs4.ClassIs "icon-arrow_back-filled") td = None) ->
      _is_impact_player td_element = false).
Proof.
  unfold _is_impact_player. split.
  - destruct td_element as [td|]; [|discriminate].
    destruct (Bs4.find "i" _ td) as [icon|] eqn:E; [|discriminate].
    intros H. unfold Bs4.find, Bs4.find_all in E.
    apply head_filter_Some in E as [Hin Hm].
    destruct icon as [name cls contents|txt]; [|discriminate].
    simpl in Hm. apply andb_true_iff in Hm as [Hname Hcls].
    apply String.eqb_eq in Hname.
    destruct cls as [l|]; [|discriminate].
    exists td, (Bs4.Tag name (Some l) contents), name, contents.
    repeat split; auto.
    intros c Hc. rewrite forallb_forall in H. specialize (H c Hc).
    apply existsb_exists in H as (x & Hx & Heq).
    apply String.eqb_eq in Heq. subst x. exact Hx.
  - intros H. destruct td_element as [td|]; [|reflexivity].
    rewrite (H td eq_refl). reflexivity.
Qed.

Lemma is_impact_player_sound_witness :
  _is_impact_player (Some impact_cell) = true
  /\ (exists td icon name contents,
        Some impact_cell = Some td
        /\ In icon (Bs4.descendants td)
        /\ icon = Bs4.Tag name (Some (class_list icon)) contents
        /\ name = "i"
        /\ forall cls, In cls required_classes -> In cls (class_list icon))
  /\ _is_impact_player (Some plain_arrow_cell) = false
  /\ _is_impact_player (Some short_name_page) = false.
Proof.
  split; [reflexivity|]. split; [|split; [reflexivity|]].
  - apply (proj1 (is_impact_player_sound (Some impact_cell))). reflexivity.
  - apply (proj2 (is_impact_player_sound (Some short_name_page))).
    intros td [= <-]. reflexivity.
Defined.

End PlayerNameClaims.

(** ** Where a team name comes from *)

Section TeamNameMore.

Import Bs4 MetadataExtractor Spec.

Variable root : node.

Lemma name_of_div_from_span (t : node) (team_div : option node) (name : string) :
  In t (preorder root) ->
  (forall d, team_div = Some d -> In d (preorder t)) ->
  name_of_div team_div = Some name ->
  from_name_span root name.
Proof.
  intros Ht Hd. destruct team_div as [d|]; [|discriminate]. simpl.
  destruct (find "span" team_span_class d) as [sp|] eqn:E; [|discriminate].
  simpl. intros Hn. apply find_Some_in in E as [E1 E2].
  exists sp. split; [|split; assumption].
  apply (preorder_trans root t); [exact Ht|].
  apply (preorder_trans t d); [apply Hd; reflexivity | exact E1].
Qed.

Lemma strategy_parents_from_span (levels : nat) (current : path) (name : string) :
  strategy_parents levels root current = Some name -> from_name_span root name.
Proof.
  revert current; induction levels as [|levels IH]; intros current; simpl;
    [discriminate|].
  destruct (find_parent current) as [pp|]; [|discriminate].
  destruct (subtree root pp) as [parent|] eqn:Ep; [|discriminate].
  destruct (name_of_div _) as [nm|] eqn:E; [|apply IH].
  intros [= <-]. apply (name_of_div_from_span parent _ nm) in E; [exact E| |].
  - exact (subtree_preorder _ _ _ Ep).
  - intros d Hd. apply find_Some_in in Hd as [Hd _]. exact Hd.
Qed.

(** X14: the team name returned for a table is either the placeholder
    ["Team "] followed by the innings number, or the cleaned text of a
    name span that occurs in the document. *)
Theorem team_name_provenance (table : path) (innings_number : nat) :
  _extract_team_name_from_table root table innings_number
  = ("Team " ++ Py.str_of_nat innings_number)%string
  \/ from_name_span root (_extract_team_name_from_table root table innings_number).
Proof.
  unfold _extract_team_name_from_table.
  destruct (strategy_parents 10 root table) as [nm|] eqn:E1.
  { right. exact (strategy_parents_from_span _ _ _ E1). }
  destruct (strategy_previous_span root table) as [nm|] eqn:E2.
  { right. unfold strategy_previous_span in E2.
    destruct (find_previous "span" team_span_class root table) as [sp|] eqn:E;
      [|discriminate].
    apply find_previous_Some_in in E as [Hin Hm]. exists sp. auto. }
  destruct (strategy_previous_div root table) as [nm|] eqn:E3; [|left; reflexivity].
  right. unfold strategy_previous_div in E3.
  apply (name_of_div_from_span root _ nm) in E3; [exact E3| |].
  - apply preorder_self.
  - intros d Hd. apply find_previous_Some_in in Hd as [Hd _]. exact Hd.
Qed.

End TeamNameMore.

(** ** More on the metadata extractor *)

Section MetadataMore.

Import MetadataExtractor Spec.

Variable MatchId : Type.

Lemma truthy_nonempty (s : string) : Py.truthy s = true -> s <> EmptyString.
Proof. destruct s; [discriminate | discriminate]. Qed.

Lemma scraped_insert (metadata : gmap string (value MatchId)) (k v : string) :
  scraped metadata -> Py.truthy k = true -> Py.truthy v = true ->
  scraped (<[k := Text v]> metadata).
Proof.
  intros Hm Hk Hv k' val. rewrite lookup_insert. case_decide.
  - intros [= <-]. subst k'. exists v.
    split; [reflexivity|]. split; apply truthy_nonempty; assumption.
  - apply Hm.
Qed.

Lemma add_row_scraped (metadata : gmap string (value MatchId)) (row : Bs4.node) :
  scraped metadata -> scraped (add_row metadata row).
Proof.
  intros Hm. unfold add_row.
  destruct (Bs4.find_all "span" Bs4.AnyClass row) as [|span0 [|span1 rest]];
    [exact Hm | |].
  - destruct (Py.truthy _ && _) eqn:E; [|exact Hm].
    apply andb_true_iff in E as [E _]. apply scraped_insert; auto.
  - destruct (Py.truthy _ && Py.truthy _) eqn:E; [|exact Hm].
    apply andb_true_iff in E as [E1 E2]. apply scraped_insert; auto.
Qed.

Lemma fold_add_row_scraped (rows : list Bs4.node)
    (metadata : gmap string (value MatchId)) :
  scraped metadata -> scraped (fold_left add_row rows metadata).
Proof.
  revert metadata; induction rows as [|row rows IH]; intros metadata Hm;
    [exact Hm|].
  simpl. apply IH. apply add_row_scraped. exact Hm.
Qed.

(** X15: in the mapping returned by [extract_metadata] the key
    ["MatchID"] holds the match identifier and is the only entry that
    is not a scraped text; every other entry is a text with a key and a
    value that are not empty. *)
Theorem extract_metadata_entries
    (BeautifulSoup : string -> option Bs4.node)
    (html_content : string) (match_id : MatchId)
    (k : string) (val : value MatchId) :
  extract_metadata BeautifulSoup html_content match_id !! k = Some val ->
  (k = "MatchID" /\ val = Id match_id)
  \/ (k <> "MatchID"
      /\ exists v, val = Text v /\ k <> EmptyString /\ v <> EmptyString).
Proof.
  assert (Hins : forall m : gmap string (value MatchId),
             scraped m ->
             <["MatchID" := Id match_id]> m !! k = Some val ->
             (k = "MatchID" /\ val = Id match_id)
             \/ (k <> "MatchID"
                 /\ exists v, val = Text v /\ k <> EmptyString /\ v <> EmptyString)).
  { intros m Hm. rewrite lookup_insert. case_decide.
    - intros [= <-]. left. auto.
    - intros H'. right. split; [congruence|]. exact (Hm k val H'). }
  assert (Hempty : scraped (∅ : gmap string (value MatchId))).
  { intros k' val'. rewrite lookup_empty. discriminate. }
  unfold extract_metadata.
  destruct (BeautifulSoup html_content) as [soup|].
  - destruct (Bs4.find_all "div" details_class soup) as [|row rows].
    + apply Hins. exact Hempty.
    + apply Hins. apply fold_add_row_scraped. exact Hempty.
  - rewrite <- insert_empty. apply Hins. exact Hempty.
Qed.

End MetadataMore.

Lemma extract_metadata_entries_witness :
  MetadataExtractor.extract_metadata
    (fun _ => Some Spec.toss_page) "<html>" 7%nat !! "Toss"
  = Some (MetadataExtractor.Text "India, elected to bat")
  /\ exists v,
       MetadataExtractor.Text (MatchId := nat) "India, elected to bat"
       = MetadataExtractor.Text v
       /\ "Toss" <> EmptyString /\ v <> EmptyString.
Proof.
  assert (H : MetadataExtractor.extract_metadata
                (fun _ => Some Spec.toss_page) "<html>" 7%nat !! "Toss"
              = Some (MetadataExtractor.Text "India, elected to bat"))
    by (vm_compute; reflexivity).
  split; [exact H|].
  destruct (extract_metadata_entries nat (fun _ => Some Spec.toss_page)
              "<html>" 7%nat "Toss" _ H) as [[E _]|[_ H']];
    [discriminate E | exact H'].
Defined.

(** ** Match identifiers *)

Section MatchIdClaims.

Import Main Spec.

Lemma append_assoc (a b c : string) :
  ((a ++ b) ++ c)%string = (a ++ b ++ c)%string.
Proof.
  induction a as [|x a IH]; [reflexivity|].
  rewrite !append_cons, IH. reflexivity.
Qed.

Lemma take_drop_digits (s : string) :
  (take_digits s ++ MetadataExtractor.drop_digits s)%string = s.
Proof.
  induction s as [|c s IH]; [reflexivity|]. simpl.
  destruct (Py.is_digit c); [|reflexivity].
  rewrite append_cons, IH. reflexivity.
Qed.

Lemma take_digits_digits (s : string) :
  forall_chars Py.is_digit (take_digits s) = true.
Proof.
  induction s as [|c s IH]; [reflexivity|]. simpl.
  destruct (Py.is_digit c) eqn:E; [|reflexivity]. simpl. rewrite E. exact IH.
Qed.

Lemma take_digits_app (ds rest : string) :
  forall_chars Py.is_digit ds = true ->
  take_digits (ds ++ String "/"%char rest) = ds
  /\ MetadataExtractor.drop_digits (ds ++ String "/"%char rest)
     = String "/"%char rest.
Proof.
  induction ds as [|c ds IH]; intros H; [split; reflexivity|].
  simpl in H. apply andb_true_iff in H as [Hc Hds].
  rewrite append_cons. simpl. rewrite Hc.
  destruct (IH Hds) as [-> ->]. split; reflexivity.
Qed.

Lemma match_id_here_Some (s match_id : string) :
  match_id_here s = Some match_id ->
  match_id <> EmptyString
  /\ forall_chars Py.is_digit match_id = true
  /\ exists b, s = ("-" ++ match_id ++ "/full-scorecard" ++ b)%string.
Proof.
  unfold match_id_here. destruct s as [|c rest]; [discriminate|].
  destruct (Ascii.eqb c "-"%char && Py.truthy (take_digits rest)
            && String.prefix "/full-scorecard" (MetadataExtractor.drop_digits rest))
    eqn:E; [|discriminate].
  intros [= <-]. apply andb_true_iff in E as [E E3].
  apply andb_true_iff in E as [E1 E2]. apply Ascii.eqb_eq in E1. subst c.
  split; [apply truthy_nonempty; exact E2|].
  split; [apply take_digits_digits|].
  apply prefix_split in E3.
  exists (Py.drop (String.length "/full-scorecard") (MetadataExtractor.drop_digits rest)).
  rewrite <- E3. change ("-" ++ ?x)%string with (String "-"%char x).
  rewrite take_drop_digits. reflexivity.
Qed.

(** X16: [extract_match_id] returns an identifier exactly for the URLs
    that have a hyphen, digits and [/full-scorecard] in a row; the
    identifier is such a run of digits of the URL, never empty, and the
    URL then passes the scorecard filter of the schedule loop. *)
Theorem extract_match_id_shape :
  (forall url match_id,
      extract_match_id url = Some match_id ->
      match_id <> EmptyString
      /\ forall_chars Py.is_digit match_id = true
      /\ (exists a b,
            url = (a ++ "-" ++ match_id ++ "/full-scorecard" ++ b)%string)
      /\ In url (scorecard_links [url]))
  /\ (forall a ds b,
        ds <> EmptyString -> forall_chars Py.is_digit ds = true ->
        exists match_id,
          extract_match_id (a ++ "-" ++ ds ++ "/full-scorecard" ++ b)%string
          = Some match_id).
Proof.
  split.
  - intros url match_id H.
    assert (H' : match_id <> EmptyString
                 /\ forall_chars Py.is_digit match_id = true
                 /\ exists a b,
                      url = (a ++ "-" ++ match_id ++ "/full-scorecard" ++ b)%string).
    { induction url as [|c url IH].
      - simpl in H. discriminate.
      - cbn [extract_match_id] in H.
        destruct (match_id_here (String c url)) as [m|] eqn:E.
        + injection H as ->. apply match_id_here_Some in E as (H1 & H2 & b & E).
          split; [exact H1|]. split; [exact H2|]. exists EmptyString, b. exact E.
        + destruct (IH H) as (H1 & H2 & a & b & ->).
          split; [exact H1|]. split; [exact H2|].
          exists (String c a), b. reflexivity. }
    destruct H' as (H1 & H2 & a & b & E). repeat split; auto.
    + exists a, b. exact E.
    + unfold scorecard_links. simpl.
      assert (Hc : Py.contains "full-scorecard" url = true).
      { apply contains_occurs. exists (a ++ "-" ++ match_id ++ "/")%string, b.
        rewrite E.
        change "/full-scorecard" with ("/" ++ "full-scorecard")%string.
        rewrite !append_assoc. reflexivity. }
      rewrite Hc. left. reflexivity.
  - intros a ds b Hne Hd. induction a as [|c a IH].
    + rewrite append_nil. change ("-" ++ ?x)%string with (String "-"%char x).
      cbn [extract_match_id]. unfold match_id_here.
      change ("/full-scorecard" ++ b)%string
        with (String "/"%char ("full-scorecard" ++ b)).
      destruct (take_digits_app ds ("full-scorecard" ++ b) Hd) as [-> ->].
      assert (Ht : Py.truthy ds = true) by (destruct ds; [congruence | reflexivity]).
      rewrite Ht.
      change (String "/"%char ("full-scorecard" ++ b))
        with ("/full-scorecard" ++ b)%string.
      rewrite prefix_app. simpl. eauto.
    + rewrite append_cons. cbn [extract_match_id].
      destruct (match_id_here _); [eauto | exact IH].
Qed.

Lemma extract_match_id_shape_witness :
  extract_match_id "/series/ind-vs-aus-1st-t20i-1388213/full-scorecard"
  = Some "1388213"
  /\ exists match_id,
       extract_match_id ("/series/ind-vs-aus-1st-t20i" ++ "-" ++ "1388213"
                         ++ "/full-scorecard" ++ "?tab=1")%string
       = Some match_id.
Proof.
  split; [reflexivity|].
  apply (proj2 extract_match_id_shape
           "/series/ind-vs-aus-1st-t20i" "1388213" "?tab=1");
    [discriminate | reflexivity].
Defined.

End MatchIdClaims.

(** ** Innings bookkeeping of the match scraper *)

Section InningsClaims.

Import MatchScraper Spec.

Lemma filter_partition_length {A : Type} (f : A -> bool) (l : list A) :
  length (List.filter f l) + length (List.filter (fun x => negb (f x)) l)
  = length l.
Proof.
  induction l as [|x l IH]; [reflexivity|]. simpl.
  destruct (f x); simpl; lia.
Qed.

Lemma innings_metadata_counts (all_innings : list string)
    (default_innings : string) (info : innings_info) :
  innings_metadata all_innings default_innings = Some info ->
  super_over_count info = length (List.filter is_super_over all_innings)
  /\ has_super_over info = Nat.ltb 0 (super_over_count info)
  /\ first_innings info = nth_error (regular_innings all_innings) 0
  /\ second_innings info = nth_error (regular_innings all_innings) 1.
Proof.
  unfold innings_metadata. fold (regular_innings all_innings).
  destruct (regular_innings all_innings) as [|r0 [|r1 l]].
  - intros [= <-]. repeat split.
  - intros [= <-]. repeat split.
  - destruct (existsb _ _).
    + destruct (List.filter _ (r0 :: r1 :: l)); [discriminate|].
      intros [= <-]. repeat split.
    + intros [= <-]. repeat split.
Qed.

(** X17: when the innings bookkeeping of [scrape] succeeds, the count of
    super overs and the number of regular innings add up to the number
    of dropdown entries, [has_super_over] tells whether the count is
    positive, and [first_innings] and [second_innings] are the first
    and second regular innings of the dropdown, never a super over. *)
Theorem innings_metadata_consistent (all_innings : list string)
    (default_innings : string) (info : innings_info) :
  innings_metadata all_innings default_innings = Some info ->
  super_over_count info + length (regular_innings all_innings)
  = length all_innings
  /\ (has_super_over info = true <-> (0 < super_over_count info)%nat)
  /\ first_innings info = nth_error (regular_innings all_innings) 0
  /\ second_innings info = nth_error (regular_innings all_innings) 1
  /\ forall inn,
       first_innings info = Some inn \/ second_innings info = Some inn ->
       In inn all_innings /\ is_super_over inn = false.
Proof.
  intros H. apply innings_metadata_counts in H as (Hc & Hh & H1 & H2).
  split; [|split; [|split; [exact H1|split; [exact H2|]]]].
  - rewrite Hc. unfold regular_innings. apply filter_partition_length.
  - rewrite Hh. apply Nat.ltb_lt.
  - intros inn Hinn.
    assert (Hin : In inn (regular_innings all_innings)).
    { destruct Hinn as [E|E]; [rewrite H1 in E | rewrite H2 in E];
        exact (nth_error_In _ _ E). }
    unfold regular_innings in Hin. apply filter_In in Hin as [Hin Hs].
    split; [exact Hin|]. apply negb_true_iff. exact Hs.
Qed.

Lemma innings_metadata_consistent_witness :
  innings_metadata ["IND"; "AUS"; "Super Over 1"; "Super Over 2"] "Super Over 2"
  = Some (mkInningsInfo true 2 (Some "IND") (Some "AUS"))
  /\ (2 + length (regular_innings ["IND"; "AUS"; "Super Over 1"; "Super Over 2"])
      = 4)%nat.
Proof.
  split; [reflexivity|].
  apply (innings_metadata_consistent
           ["IND"; "AUS"; "Super Over 1"; "Super Over 2"] "Super Over 2"
           (mkInningsInfo true 2 (Some "IND") (Some "AUS"))). reflexivity.
Defined.

Lemma filter_other_nil (default_innings : string) (l : list string) :
  List.filter (fun inn => negb (String.eqb inn default_innings)) l = []
  <-> forall inn, In inn l -> inn = default_innings.
Proof.
  induction l as [|x l IH]; simpl; [split; [intros _ ? [] | reflexivity]|].
  destruct (String.eqb x default_innings) eqn:E; simpl.
  - apply String.eqb_eq in E. rewrite IH. split.
    + intros H inn [<-|Hin]; auto.
    + intros H inn Hin. apply H. right. exact Hin.
  - apply String.eqb_neq in E. split; [discriminate|].
    intros H. exfalso. apply E. apply H. left. reflexivity.
Qed.

(** X18: the innings bookkeeping of [scrape] fails, with an index
    error, exactly when the dropdown has two or more regular innings
    and every one of them bears the label of the default innings. *)
Theorem innings_metadata_fails_iff (all_innings : list string)
    (default_innings : string) :
  innings_metadata all_innings default_innings = None
  <-> (2 <= length (regular_innings all_innings))%nat
      /\ forall inn, In inn (regular_innings all_innings) ->
           inn = default_innings.
Proof.
  unfold innings_metadata. fold (regular_innings all_innings).
  destruct (regular_innings all_innings) as [|r0 [|r1 l]].
  - split; [discriminate | simpl; lia].
  - split; [discriminate | simpl; lia].
  - destruct (existsb (String.eqb default_innings) (r0 :: r1 :: l)) eqn:Ed.
    + destruct (List.filter _ (r0 :: r1 :: l)) as [|o os] eqn:Ef.
      * split; [intros _|reflexivity]. split; [simpl; lia|].
        apply filter_other_nil. exact Ef.
      * split; [discriminate|]. intros [_ H].
        apply filter_other_nil in H. rewrite H in Ef. discriminate.
    + split; [discriminate|]. intros [_ H]. exfalso.
      assert (Ht : existsb (String.eqb default_innings) (r0 :: r1 :: l) = true).
      { apply existsb_exists. exists r0. split; [left; reflexivity|].
        apply String.eqb_eq. symmetry. apply H. left. reflexivity. }
      rewrite Ht in Ed. discriminate.
Qed.

Lemma innings_metadata_fails_iff_witness :
  ((2 <= length (regular_innings ["Innings"; "Innings"; "Super Over"]))%nat
   /\ forall inn, In inn (regular_innings ["Innings"; "Innings"; "Super Over"]) ->
        inn = "Innings")
  /\ innings_metadata ["Innings"; "Innings"; "Super Over"] "Innings" = None.
Proof.
  assert (H : (2 <= length (regular_innings ["Innings"; "Innings"; "Super Over"]))%nat
              /\ forall inn,
                   In inn (regular_innings ["Innings"; "Innings"; "Super Over"]) ->
                   inn = "Innings").
  { split; [simpl; lia|]. intros inn [<-|[<-|[]]]; reflexivity. }
  split; [exact H|].
  exact (proj2 (innings_metadata_fails_iff
                  ["Innings"; "Innings"; "Super Over"] "Innings") H).
Defined.

End InningsClaims.

(** ** Column names *)

Section ColumnClaims.

Import MatchScraper Spec.

Lemma lower_char_classes (c : ascii) :
  is_space_or_paren (Py.lower_char c) = is_space_or_paren c
  /\ is_underscore (Py.lower_char c) = is_underscore c
  /\ Py.lower_char (Py.lower_char c) = Py.lower_char c.
Proof.
  destruct c as [[] [] [] [] [] [] [] []]; repeat split; reflexivity.
Qed.

Lemma lower_idempotent (s : string) : Py.lower (Py.lower s) = Py.lower s.
Proof.
  induction s as [|c s IH]; [reflexivity|]. simpl.
  rewrite IH, (proj2 (proj2 (lower_char_classes c))). reflexivity.
Qed.

Lemma lower_replace (s : string) :
  replace_space_paren (Py.lower s) = Py.lower (replace_space_paren s).
Proof.
  induction s as [|c s IH]; [reflexivity|]. simpl.
  rewrite IH, (proj1 (lower_char_classes c)).
  destruct (is_space_or_paren c); reflexivity.
Qed.

Lemma lower_collapse (b : bool) (s : string) :
  collapse_underscores b (Py.lower s) = Py.lower (collapse_underscores b s).
Proof.
  revert b; induction s as [|c s IH]; intros b; [reflexivity|]. simpl.
  rewrite (proj1 (proj2 (lower_char_classes c))).
  destruct (is_underscore c); [destruct b|]; simpl; rewrite IH; reflexivity.
Qed.

Lemma lower_lstrip (s : string) :
  lstrip_underscores (Py.lower s) = Py.lower (lstrip_underscores s).
Proof.
  induction s as [|c s IH]; [reflexivity|]. simpl.
  rewrite (proj1 (proj2 (lower_char_classes c))).
  destruct (is_underscore c); [exact IH | reflexivity].
Qed.

Lemma lower_rstrip (s : string) :
  rstrip_underscores (Py.lower s) = Py.lower (rstrip_underscores s).
Proof.
  induction s as [|c s IH]; [reflexivity|]. simpl.
  rewrite IH, (proj1 (proj2 (lower_char_classes c))).
  destruct (rstrip_underscores s); simpl;
    [destruct (is_underscore c)|]; reflexivity.
Qed.

Lemma replace_column_chars (s : string) :
  forall_chars column_char (replace_space_paren s) = true.
Proof.
  induction s as [|c s IH]; [reflexivity|]. simpl. rewrite IH, andb_true_r.
  unfold column_char. destruct (is_space_or_paren c) eqn:E; [reflexivity|].
  rewrite E. reflexivity.
Qed.

Lemma replace_fixed (s : string) :
  forall_chars column_char s = true -> replace_space_paren s = s.
Proof.
  induction s as [|c s IH]; [reflexivity|]. simpl. intros H.
  apply andb_true_iff in H as [Hc Hs]. unfold column_char in Hc.
  apply negb_true_iff in Hc. rewrite Hc, (IH Hs). reflexivity.
Qed.

Lemma collapse_chars (p : ascii -> bool) (b : bool) (s : string) :
  forall_chars p s = true -> forall_chars p (collapse_underscores b s) = true.
Proof.
  revert b; induction s as [|c s IH]; intros b H; [reflexivity|].
  simpl in H. apply andb_true_iff in H as [Hc Hs]. simpl.
  destruct (is_underscore c); [destruct b|]; simpl; rewrite ?Hc;
    apply IH; exact Hs.
Qed.

Lemma collapse_no_repeat (b : bool) (s : string) :
  no_repeat is_underscore b (collapse_underscores b s) = true.
Proof.
  revert b; induction s as [|c s IH]; intros b; [reflexivity|]. simpl.
  destruct (is_underscore c) eqn:E.
  - destruct b; [apply IH|]. simpl. rewrite E. apply IH.
  - simpl. rewrite E. apply IH.
Qed.

Lemma collapse_fixed (b : bool) (s : string) :
  no_repeat is_underscore b s = true -> collapse_underscores b s = s.
Proof.
  revert b; induction s as [|c s IH]; intros b; [reflexivity|]. simpl.
  destruct (is_underscore c).
  - intros H. apply andb_true_iff in H as [Hb Hs].
    apply negb_true_iff in Hb. subst b. rewrite (IH true Hs). reflexivity.
  - intros H. rewrite (IH false H). reflexivity.
Qed.

Lemma lstrip_us_subsequence (s : string) : subsequence (lstrip_underscores s) s.
Proof.
  unfold subsequence. induction s as [|c s IH]; [reflexivity|]. simpl.
  destruct (is_underscore c); [apply sublist_cons; exact IH | reflexivity].
Qed.

Lemma rstrip_us_subsequence (s : string) : subsequence (rstrip_underscores s) s.
Proof.
  unfold subsequence. induction s as [|c s IH]; [reflexivity|]. simpl.
  destruct (rstrip_underscores s) as [|c' t].
  - destruct (is_underscore c); simpl.
    + apply sublist_nil_l.
    + apply sublist_skip. exact IH.
  - simpl. apply sublist_skip. exact IH.
Qed.

Lemma no_repeat_lstrip (b : bool) (s : string) :
  no_repeat is_underscore b s = true ->
  no_repeat is_underscore false (lstrip_underscores s) = true.
Proof.
  revert b; induction s as [|c s IH]; intros b; [reflexivity|]. simpl.
  destruct (is_underscore c) eqn:Ec.
  - intros H. apply andb_true_iff in H as [_ H]. exact (IH true H).
  - intros H. simpl. rewrite Ec. exact H.
Qed.

Lemma no_repeat_rstrip (b : bool) (s : string) :
  no_repeat is_underscore b s = true ->
  no_repeat is_underscore b (rstrip_underscores s) = true.
Proof.
  revert b; induction s as [|c s IH]; intros b; [reflexivity|].
  cbn [no_repeat rstrip_underscores]. intros H.
  destruct (is_underscore c) eqn:Ec.
  - apply andb_true_iff in H as [H1 H2]. specialize (IH true H2).
    destruct (rstrip_underscores s) as [|c' t]; [reflexivity|].
    cbn [no_repeat]. rewrite Ec, H1. exact IH.
  - specialize (IH false H).
    destruct (rstrip_underscores s) as [|c' t].
    + simpl. rewrite Ec. reflexivity.
    + cbn [no_repeat]. rewrite Ec. exact IH.
Qed.

Lemma rstrip_us_cons (c : ascii) (s : string) :
  is_underscore c = false ->
  exists t, rstrip_underscores (String c s) = String c t.
Proof.
  intros Hc. simpl. destruct (rstrip_underscores s); rewrite ?Hc; eexists; reflexivity.
Qed.

Lemma rstrip_us_idempotent (s : string) :
  rstrip_underscores (rstrip_underscores s) = rstrip_underscores s.
Proof.
  induction s as [|c s IH]; [reflexivity|]. simpl.
  destruct (rstrip_underscores s) as [|c' t] eqn:E.
  - destruct (is_underscore c) eqn:Ec; [reflexivity|]. simpl. rewrite Ec. reflexivity.
  - change (rstrip_underscores (String c (String c' t))) with
      (match rstrip_underscores (String c' t) with
       | EmptyString => if is_underscore c then EmptyString else String c EmptyString
       | u => String c u
       end).
    rewrite IH. reflexivity.
Qed.

Lemma lstrip_us_head (s : string) :
  lstrip_underscores s = EmptyString
  \/ exists c t, lstrip_underscores s = String c t /\ is_underscore c = false.
Proof.
  induction s as [|c s IH]; [left; reflexivity|]. simpl.
  destruct (is_underscore c) eqn:Ec; [exact IH|]. right. eauto.
Qed.

Lemma strip_us_fixed (s : string) :
  strip_underscores (strip_underscores s) = strip_underscores s.
Proof.
  unfold strip_underscores.
  destruct (lstrip_us_head s) as [->|(c & t & -> & Hc)]; [reflexivity|].
  destruct (rstrip_us_cons c t Hc) as (u & E). rewrite E.
  cbn [lstrip_underscores]. rewrite Hc, <- E. apply rstrip_us_idempotent.
Qed.

(** X19: a cleaned column name has no space and no parenthesis, no two
    underscores in a row and no underscore at either end, and is in
    lower case; cleaning it again changes nothing. *)
Theorem clean_column_normal_form (name : string) :
  forall_chars column_char (clean_column name) = true
  /\ no_repeat is_underscore false (clean_column name) = true
  /\ strip_underscores (clean_column name) = clean_column name
  /\ Py.lower (clean_column name) = clean_column name
  /\ clean_column (clean_column name) = clean_column name.
Proof.
  unfold clean_column.
  set (t := strip_underscores
              (collapse_underscores false (replace_space_paren name))).
  assert (Ht1 : forall_chars column_char t = true).
  { unfold t, strip_underscores.
    apply (forall_chars_subsequence _ _ _ (rstrip_us_subsequence _)).
    apply (forall_chars_subsequence _ _ _ (lstrip_us_subsequence _)).
    apply collapse_chars, replace_column_chars. }
  assert (Ht2 : no_repeat is_underscore false t = true).
  { unfold t, strip_underscores. apply no_repeat_rstrip.
    apply (no_repeat_lstrip false). apply collapse_no_repeat. }
  assert (Ht3 : strip_underscores t = t) by apply strip_us_fixed.
  assert (Hl1 : forall s, forall_chars column_char s = true ->
                  forall_chars column_char (Py.lower s) = true).
  { induction s as [|c s IH]; [reflexivity|]. simpl. intros H.
    apply andb_true_iff in H as [Hc Hs]. rewrite (IH Hs), andb_true_r.
    unfold column_char in *. rewrite (proj1 (lower_char_classes c)). exact Hc. }
  assert (Hl2 : forall b s, no_repeat is_underscore b (Py.lower s)
                            = no_repeat is_underscore b s).
  { intros b s. revert b. induction s as [|c s IH]; intros b; [reflexivity|].
    simpl. rewrite (proj1 (proj2 (lower_char_classes c))), !IH. reflexivity. }
  assert (Hl3 : strip_underscores (Py.lower t) = Py.lower t).
  { unfold strip_underscores. rewrite lower_lstrip, lower_rstrip.
    fold (strip_underscores t). rewrite Ht3. reflexivity. }
  split; [exact (Hl1 t Ht1)|]. split; [rewrite Hl2; exact Ht2|].
  split; [exact Hl3|]. split; [apply lower_idempotent|].
  rewrite lower_replace, (replace_fixed t Ht1).
  rewrite lower_collapse, (collapse_fixed false t Ht2).
  rewrite Hl3. apply lower_idempotent.
Qed.

End ColumnClaims.

(** ** Roster statistics *)

Section StatisticsClaims.

Import MetadataExtractor PlayerExtractor.

Lemma unique_from_spec (l seen : list string) :
  List.NoDup (unique_from seen l)
  /\ forall x, In x (unique_from seen l) <-> In x l /\ ~ In x seen.
Proof.
  revert seen; induction l as [|y l IH]; intros seen; simpl.
  - split; [constructor | tauto].
  - destruct (existsb (String.eqb y) seen) eqn:E.
    + apply existsb_exists in E as (z & Hz & Ez). apply String.eqb_eq in Ez.
      subst z. destruct (IH seen) as [Hnd Hin]. split; [exact Hnd|].
      intros x. rewrite Hin. split; [tauto|].
      intros [[<-|Hx] Hns]; [contradiction | tauto].
    + assert (Hy : ~ In y seen).
      { intros Hy. assert (Ht : existsb (String.eqb y) seen = true).
        { apply existsb_exists. exists y. split; [exact Hy | apply String.eqb_refl]. }
        rewrite Ht in E. discriminate. }
      destruct (IH (y :: seen)) as [Hnd Hin]. split.
      * constructor; [|exact Hnd]. rewrite Hin. simpl. tauto.
      * intros x. simpl. rewrite Hin. simpl.
        destruct (string_dec y x) as [<-|Hne]; tauto.
Qed.

(** X20: the statistics of [extract_and_store] are consistent with the
    roster: the status is [failed] exactly for the empty roster; the
    batted and did-not-bat counts, and the regular and impact counts,
    each add up to the total, which is the number of players; and the
    team list names each team of the roster once. *)
Theorem extract_and_store_consistent (players_df : list player) :
  (result_status (extract_and_store players_df) = failed <-> players_df = [])
  /\ total_players (extract_and_store players_df) = length players_df
  /\ batted_count (extract_and_store players_df)
     + did_not_bat (extract_and_store players_df)
     = total_players (extract_and_store players_df)
  /\ regular_players (extract_and_store players_df)
     + impact_players (extract_and_store players_df)
     = total_players (extract_and_store players_df)
  /\ List.NoDup (teams (extract_and_store players_df))
  /\ forall t, In t (teams (extract_and_store players_df))
               <-> exists p, In p players_df /\ team p = t.
Proof.
  destruct players_df as [|p0 l].
  - simpl. split; [tauto|]. do 3 (split; [reflexivity|]).
    split; [constructor|]. intros t. split; [intros [] | intros (p & [] & _)].
  - unfold extract_and_store.
    cbn [result_status total_players batted_count did_not_bat
           regular_players impact_players teams].
    set (df := p0 :: l).
    split; [split; discriminate|]. split; [reflexivity|]. split; [|split].
    + pose proof (filter_length_le batted df). lia.
    + rewrite <- (filter_partition_length (is_type regular) df). f_equal.
      f_equal. apply filter_ext. intros p. unfold is_type.
      destruct (ptype p); reflexivity.
    + destruct (unique_from_spec (map team df) []) as [Hnd Hin].
      split; [exact Hnd|]. intros t. rewrite Hin, in_map_iff. simpl.
      split; [intros [(p & <- & Hp) _]; eauto | intros (p & Hp & <-); eauto].
Qed.

End StatisticsClaims.

(** ** The roster extraction *)

Section RosterExtraction.

Import MetadataExtractor Spec.

Variable match_id : Z.
Variable innings_key : string.
Variable team_name : string.

Local Abbreviation table_entry :=
  (Spec.table_entry match_id innings_key team_name).
Local Abbreviation bowler_shape :=
  (Spec.bowler_shape match_id innings_key team_name).

Lemma batted_players_shape (cells : list Html.element) (position : nat) :
  exists k,
    map (fun p => (batted p, batting_position p))
      (batted_players match_id innings_key team_name cells position)
    = map (fun i => (true, Some i)) (seq position k)
    /\ Forall table_entry
         (batted_players match_id innings_key team_name cells position).
Proof.
  revert position; induction cells as [|cell cells IH]; intros position.
  - exists 0. split; [reflexivity | constructor].
  - cbn [batted_players].
    destruct (Html.get cell "colspan") as [[|c v]|];
      try (destruct (Html.find "a" Bs4.AnyClass cricketers_href cell) as [link|];
           [destruct (_clean_player_name _) as [name|] eqn:En|]);
      try apply IH.
    + destruct (IH (S position)) as (k & Hk & Hall). exists (S k). split.
      * simpl. f_equal. exact Hk.
      * constructor; [|exact Hall]. repeat split. eexists. exact En.
    + destruct (IH (S position)) as (k & Hk & Hall). exists (S k). split.
      * simpl. f_equal. exact Hk.
      * constructor; [|exact Hall]. repeat split. eexists. exact En.
Qed.

Lemma section_players_shape (dnb_cell : Html.element) :
  Forall (fun p => batted p = false /\ batting_position p = None
                   /\ table_entry p)
    (section_players match_id innings_key team_name dnb_cell).
Proof.
  unfold section_players. destruct (match Html.find _ _ _ dnb_cell with
                                    | Some _ => _ | None => _ end);
    [|constructor].
  apply List.Forall_forall. intros p Hp.
  apply in_flat_map in Hp as (link & _ & Hp).
  destruct (_clean_player_name _) as [name|] eqn:En; [|destruct Hp].
  destruct Hp as [<-|[]]. repeat split. eexists. exact En.
Qed.

Lemma dnb_players_shape (dnb_cells : list Html.element) :
  Forall (fun p => batted p = false /\ batting_position p = None
                   /\ table_entry p)
    (flat_map (section_players match_id innings_key team_name) dnb_cells).
Proof.
  apply List.Forall_forall. intros p Hp.
  apply in_flat_map in Hp as (cell & _ & Hp).
  pose proof (section_players_shape cell) as H.
  rewrite List.Forall_forall in H. exact (H p Hp).
Qed.


Lemma batting_entries (table : Html.element) :
  Forall table_entry
    (_extract_batting_players match_id innings_key team_name table).
Proof.
  unfold _extract_batting_players. apply List.Forall_app. split.
  - destruct (batted_players_shape
                (Html.find_all "td" batsman_cell_class Html.any_attrs table) 1)
      as (k & _ & H). exact H.
  - eapply List.Forall_impl; [|apply dnb_players_shape].
    simpl. intros p (_ & _ & H). exact H.
Qed.


Lemma not_in_spec (names : list string) (x : string) :
  not_in names x = true <-> ~ In x names.
Proof.
  unfold not_in. rewrite negb_true_iff. split.
  - intros H Hin. assert (Ht : existsb (String.eqb x) names = true).
    { apply existsb_exists. exists x. split; [exact Hin | apply String.eqb_refl]. }
    rewrite Ht in H. discriminate.
  - intros H. destruct (existsb (String.eqb x) names) eqn:E; [|reflexivity].
    apply existsb_exists in E as (y & Hy & Ey). apply String.eqb_eq in Ey.
    subst y. contradiction.
Qed.

Lemma bowlers_from_cells_shape (cells : list Html.element) (seen : list string) :
  Forall bowler_shape
    (bowlers_from_cells match_id innings_key team_name cells seen)
  /\ List.NoDup
       (map player_name
          (bowlers_from_cells match_id innings_key team_name cells seen))
  /\ forall p,
       In p (bowlers_from_cells match_id innings_key team_name cells seen) ->
       ~ In (player_name p) seen.
Proof.
  revert seen; induction cells as [|cell cells IH]; intros seen.
  - repeat split; [constructor | constructor | intros p []].
  - cbn [bowlers_from_cells].
    destruct (Html.find "a" Bs4.AnyClass cricketers_href cell) as [link|];
      [|apply IH].
    destruct (_clean_player_name _) as [name|] eqn:En; [|apply IH].
    destruct (not_in _ name && not_in seen name) eqn:E; [|apply IH].
    apply andb_true_iff in E as [_ E]. apply not_in_spec in E.
    destruct (IH (name :: seen)) as (H1 & H2 & H3). split; [|split].
    + constructor; [|exact H1]. repeat split. eexists. exact En.
    + simpl. constructor; [|exact H2]. intros Hin.
      apply in_map_iff in Hin as (p & Hp & Hin).
      apply (H3 p Hin). left. symmetry. exact Hp.
    + intros p [<-|Hp]; [exact E|].
      intros Hin. apply (H3 p Hp). right. exact Hin.
Qed.

Lemma bowlers_from_spans_shape (root : Html.element)
    (spans : list (Bs4.path * Html.element)) (seen : list string) :
  Forall bowler_shape
    (bowlers_from_spans match_id innings_key team_name root spans seen)
  /\ List.NoDup
       (map player_name
          (bowlers_from_spans match_id innings_key team_name root spans seen))
  /\ forall p,
       In p (bowlers_from_spans match_id innings_key team_name root spans seen) ->
       ~ In (player_name p) seen.
Proof.
  revert seen; induction spans as [|[place span] spans IH]; intros seen.
  - repeat split; [constructor | constructor | intros p []].
  - cbn [bowlers_from_spans].
    destruct (_clean_player_name _) as [name|] eqn:En; [|apply IH].
    destruct (not_in _ name && not_in seen name) eqn:E; [|apply IH].
    apply andb_true_iff in E as [_ E]. apply not_in_spec in E.
    destruct (IH (name :: seen)) as (H1 & H2 & H3). split; [|split].
    + constructor; [|exact H1]. repeat split. eexists. exact En.
    + simpl. constructor; [|exact H2]. intros Hin.
      apply in_map_iff in Hin as (p & Hp & Hin).
      apply (H3 p Hin). left. symmetry. exact Hp.
    + intros p [<-|Hp]; [exact E|].
      intros Hin. apply (H3 p Hp). right. exact Hin.
Qed.

Lemma extract_bowlers_entries (root : Html.element) (place : Bs4.path)
    (table : Html.element) :
  Forall bowler_shape
    (_extract_bowlers match_id innings_key team_name root place table).
Proof.
  unfold _extract_bowlers.
  destruct (Html.find_all "td" _ Html.any_attrs table) as [|c cs].
  - apply bowlers_from_spans_shape.
  - apply (bowlers_from_cells_shape (c :: cs) []).
Qed.

(** X22: the bowlers extracted from one table have pairwise different
    names; each entry is marked as not having batted, without batting
    position, as having bowled, and carries the given match, innings
    and team and an accepted name. *)
Theorem extract_bowlers_unique (root : Html.element) (place : Bs4.path)
    (table : Html.element) :
  List.NoDup
    (map player_name
       (_extract_bowlers match_id innings_key team_name root place table))
  /\ forall p,
       In p (_extract_bowlers match_id innings_key team_name root place table) ->
       batted p = false /\ batting_position p = None /\ bowled p = Some true
       /\ matchid p = match_id /\ innings p = innings_key
       /\ team p = team_name /\ cleaned_name (player_name p).
Proof.
  unfold _extract_bowlers.
  destruct (Html.find_all "td" _ Html.any_attrs table) as [|c cs].
  - destruct (bowlers_from_spans_shape root
                (Html.find_all_at place "span" bowler_span_class
                   Html.any_attrs table) []) as (H1 & H2 & _).
    split; [exact H2|]. intros p Hp. rewrite List.Forall_forall in H1.
    destruct (H1 p Hp) as (A & B & C & D & E & F & G). auto 10.
  - destruct (bowlers_from_cells_shape (c :: cs) []) as (H1 & H2 & _).
    split; [exact H2|]. intros p Hp. rewrite List.Forall_forall in H1.
    destruct (H1 p Hp) as (A & B & C & D & E & F & G). auto 10.
Qed.

End RosterExtraction.

Section PlayerNamesClaims.

Import MetadataExtractor Spec.

Lemma for_each_from_length {A B : Type} (f : nat -> A -> B) (idx : nat)
    (tables : list A) :
  length (for_each_from f idx tables) = length tables.
Proof.
  revert idx; induction tables as [|t tables IH]; intros idx; [reflexivity|].
  simpl. rewrite IH. reflexivity.
Qed.

Lemma for_each_from_in {A B : Type} (f : nat -> A -> list B) (idx : nat)
    (tables : list A) (x : B) :
  In x (concat (for_each_from f idx tables)) ->
  exists i table,
    (idx <= i < idx + length tables)%nat /\ In table tables /\ In x (f i table).
Proof.
  revert idx; induction tables as [|t tables IH]; intros idx; simpl; [tauto|].
  intros H. apply in_app_or in H as [H|H].
  - exists idx, t. split; [lia|]. auto.
  - destruct (IH (S idx) H) as (i & table & Hi & Hin & Hx).
    exists i, table. split; [lia|]. auto.
Qed.

Lemma get_opposite_team_cases (current_team : option string)
    (all_teams : list string) :
  _get_opposite_team current_team all_teams = "Unknown Team"
  \/ In (_get_opposite_team current_team all_teams) all_teams.
Proof.
  unfold _get_opposite_team.
  destruct current_team as [cur|]; [|left; reflexivity].
  destruct (negb (Py.truthy cur) || _ || _); [left; reflexivity|].
  destruct (List.find _ all_teams) as [team|] eqn:E; [|left; reflexivity].
  right. apply find_some in E as [Hin _]. exact Hin.
Qed.

(** Every collected entry belongs to the match, to an innings counted
    from 1, bears an accepted name, and its team is a batting team of
    the page or ["Unknown Team"]. *)
Lemma all_players_entries (soup : Html.element) (match_id : Z) (p : player) :
  In p (all_players soup match_id) ->
  roster_entry match_id p
  /\ (In (team p) (batting_teams soup) \/ team p = "Unknown Team").
Proof.
  unfold all_players. intros H. apply in_app_or in H as [H|H].
  - apply for_each_from_in in H as (i & table & Hi & _ & Hp).
    pose proof (batting_entries match_id (innings_label i)
                  (nth (i - 1) (batting_teams soup) EmptyString) (snd table)) as Hall.
    rewrite List.Forall_forall in Hall.
    destruct (Hall p Hp) as (H1 & H2 & H3 & H4). split.
    + split; [exact H1|]. split; [exists i; split; [lia | exact H2] | exact H4].
    + left. rewrite H3. apply nth_In.
      unfold batting_teams. rewrite for_each_from_length. lia.
  - apply for_each_from_in in H as (i & table & Hi & _ & Hp).
    pose proof (extract_bowlers_entries match_id (innings_label i)
                  (bowling_team (batting_teams soup) i) soup
                  (fst table) (snd table)) as Hall.
    rewrite List.Forall_forall in Hall.
    destruct (Hall p Hp) as (_ & _ & _ & H1 & H2 & H3 & H4). split.
    + split; [exact H1|]. split; [exists i; split; [lia | exact H2] | exact H4].
    + rewrite H3. unfold bowling_team.
      destruct (get_opposite_team_cases
                  (if Nat.leb i (length (batting_teams soup))
                   then nth_error (batting_teams soup) (i - 1) else None)
                  (batting_teams soup)); auto.
Qed.

Lemma NoDup_map_finer {A B C : Type} (f : A -> B) (g : A -> C) (l : list A) :
  (forall x y, In x l -> In y l -> g x = g y -> f x = f y) ->
  List.NoDup (map f l) -> List.NoDup (map g l).
Proof.
  induction l as [|x l IH]; intros Hfg Hnd; [constructor|].
  simpl in *. inversion Hnd as [|? ? Hx Hl]; subst. constructor.
  - intros Hin. apply in_map_iff in Hin as (y & Hy & Hin).
    apply Hx. apply in_map_iff. exists y. split; [|exact Hin].
    apply Hfg; auto.
  - apply IH; [|exact Hl]. intros a b Ha Hb. apply Hfg; auto.
Qed.

(** X23: whatever the page, every entry of the roster returned by
    [extract_player_names] carries the given match identifier, the
    label of an innings counted from 1 and a name accepted by
    [_clean_player_name]; its team is a batting team of the page or
    ["Unknown Team"]; and no two entries bear the same name. *)
Theorem extract_player_names_roster
    (BeautifulSoup : string -> option Html.element)
    (sort_values : list player -> list player)
    (html_content : string) (match_id : Z) :
  (forall df, is_sort_values df (sort_values df)) ->
  List.NoDup
    (map player_name
       (extract_player_names BeautifulSoup sort_values html_content match_id))
  /\ forall p,
       In p (extract_player_names BeautifulSoup sort_values html_content match_id) ->
       roster_entry match_id p
       /\ (team p = "Unknown Team"
           \/ exists soup, BeautifulSoup html_content = Some soup
                           /\ In (team p) (batting_teams soup)).
Proof.
  intros Hsort. unfold extract_player_names.
  destruct (BeautifulSoup html_content) as [soup|];
    [|split; [constructor | intros p []]].
  destruct (batting_tables soup) as [|t ts] eqn:Et;
    [split; [constructor | intros p []]|].
  rewrite (merge_players_unfold _ _ (Hsort (all_players soup match_id))).
  destruct (Hsort (all_players soup match_id)) as [Hperm _].
  assert (Hin : forall p,
             In p (drop_duplicates (sort_values (all_players soup match_id))) ->
             In p (all_players soup match_id)).
  { intros p Hp. apply drop_duplicates_from_in in Hp as [Hp _].
    eapply Permutation_in; [exact (Permutation_sym Hperm) | exact Hp]. }
  split.
  - apply (NoDup_map_finer dedup_key); [|apply drop_duplicates_from_NoDup].
    intros x y Hx Hy Hname. unfold dedup_key. f_equal; [|exact Hname].
    destruct (all_players_entries soup match_id x (Hin x Hx)) as [[-> _] _].
    destruct (all_players_entries soup match_id y (Hin y Hy)) as [[-> _] _].
    reflexivity.
  - intros p Hp.
    destruct (all_players_entries soup match_id p (Hin p Hp)) as [H1 [H2|H2]].
    + split; [exact H1|]. right. exists soup. auto.
    + split; [exact H1|]. left. exact H2.
Qed.

Lemma extract_player_names_roster_witness :
  (forall df, is_sort_values df (impact_first df))
  /\ map player_name
       (extract_player_names (fun _ => Some scorecard_page) impact_first
          "<html>" 7%Z)
     = ["Shivam Dube"; "Rohit Sharma"; "Jasprit Bumrah"; "Mitchell Starc"]
  /\ List.NoDup
       (map player_name
          (extract_player_names (fun _ => Some scorecard_page) impact_first
             "<html>" 7%Z)).
Proof.
  split; [exact impact_first_is_sort|]. split; [vm_compute; reflexivity|].
  apply (extract_player_names_roster (fun _ => Some scorecard_page)
           impact_first "<html>" 7%Z impact_first_is_sort).
Defined.

End PlayerNamesClaims.

(** ** The retry loop of [scrape_match_with_retry] *)

Section RetryFacts.

Import Main Spec.

Variable attempts : nat -> attempt.
Variable max_retries : nat.

Lemma retry_events_step (first k : nat) :
  first < k ->
  retry_events attempts first k
  = attempt_events (attempts first) ++ [Sleep (30 * Nat.pow 2 first)]
    ++ retry_events attempts (S first) k.
Proof.
  intros Hlt. unfold retry_events.
  replace (k - first) with (S (k - S first)) by lia.
  cbn [seq flat_map]. rewrite <- !app_assoc. reflexivity.
Qed.

Lemma retry_events_here (k : nat) :
  retry_events attempts k k = attempt_events (attempts k).
Proof.
  unfold retry_events. rewrite Nat.sub_diag. reflexivity.
Qed.

(** The loop entered with no scraper bound stops at a pass [k] within
    the allowed number: all passes before it raised a connection error,
    pass [k] did not or was the last one allowed. *)
Lemma retry_from_spec (fuel retry_count : nat) (trace : list event) :
  retry_count <= max_retries -> max_retries - retry_count < fuel ->
  exists k,
    retry_count <= k <= max_retries
    /\ (forall i, retry_count <= i < k -> retried (attempts i) = true)
    /\ (retried (attempts k) = true -> k = max_retries)
    /\ retry_from fuel attempts max_retries retry_count false trace
       = Some (final_result max_retries k (attempts k),
               trace ++ retry_events attempts retry_count k).
Proof.
  revert retry_count trace.
  induction fuel as [|fuel IH]; intros retry_count trace Hle Hlt; [lia|].
  cbn [retry_from]. rewrite (leb_correct _ _ Hle).
  assert (Hstop : forall e bound_events,
             raised (attempts retry_count) = Some e ->
             attempt_events (attempts retry_count) = bound_events ->
             exists k,
               retry_count <= k <= max_retries
               /\ (forall i, retry_count <= i < k -> retried (attempts i) = true)
               /\ (retried (attempts k) = true -> k = max_retries)
               /\ (if is_connection_error e && (retry_count <? max_retries)%nat
                   then retry_from fuel attempts max_retries (S retry_count) false
                          ((trace ++ bound_events)
                           ++ [Sleep (RETRY_DELAY_BASE
                                      * Nat.pow 2 (S retry_count - 1))])
                   else Some (false,
                              Some (if (max_retries <=? retry_count)%nat
                                    then (failed_after max_retries ++ ": "
                                          ++ Py.take 200 (message e))%string
                                    else message e),
                              trace ++ bound_events))
                 = Some (final_result max_retries k (attempts k),
                         trace ++ retry_events attempts retry_count k)).
  { intros e bound_events He Hev.
    destruct (is_connection_error e && (retry_count <? max_retries)%nat) eqn:Ec.
    - apply andb_true_iff in Ec as [Ec Hlt']. apply Nat.ltb_lt in Hlt'.
      destruct (IH (S retry_count)
                  ((trace ++ bound_events)
                   ++ [Sleep (RETRY_DELAY_BASE * Nat.pow 2 (S retry_count - 1))]))
        as (k & Hk & Hbefore & Hlast & Hrun); [lia | lia |].
      exists k. split; [lia|]. split; [|split; [exact Hlast|]].
      + intros i Hi. destruct (Nat.eq_dec i retry_count) as [->|Hne].
        * unfold retried. rewrite He. exact Ec.
        * apply Hbefore. lia.
      + rewrite Hrun. f_equal. f_equal.
        rewrite (retry_events_step retry_count k) by lia.
        rewrite Hev. cbn [Nat.sub]. rewrite Nat.sub_0_r.
        rewrite <- !app_assoc. reflexivity.
    - exists retry_count. split; [lia|]. split; [intros i Hi; lia|]. split.
      + unfold retried. rewrite He. intros Hc. rewrite Hc in Ec.
        cbn in Ec. apply Nat.ltb_ge in Ec. lia.
      + unfold final_result. rewrite He, retry_events_here, Hev. reflexivity. }
  destruct (attempts retry_count) as [|e|e] eqn:Ea.
  - exists retry_count. split; [lia|]. split; [intros i Hi; lia|]. split.
    + unfold retried. rewrite Ea. discriminate.
    + unfold final_result. rewrite Ea, retry_events_here, Ea. reflexivity.
  - specialize (Hstop e [] eq_refl eq_refl). rewrite app_nil_r in Hstop.
    exact Hstop.
  - specialize (Hstop e [Construct; Cleanup] eq_refl eq_refl).
    replace ((trace ++ [Construct]) ++ [Cleanup])
      with (trace ++ [Construct; Cleanup])
      by (rewrite <- app_assoc; reflexivity).
    exact Hstop.
Qed.

Lemma scrape_match_with_retry_spec :
  exists k,
    k <= max_retries
    /\ (forall i, i < k -> retried (attempts i) = true)
    /\ (retried (attempts k) = true -> k = max_retries)
    /\ scrape_match_with_retry attempts max_retries
       = Some (final_result max_retries k (attempts k),
               retry_events attempts 0 k).
Proof.
  unfold scrape_match_with_retry.
  destruct (retry_from_spec (S (S max_retries)) 0 [])
    as (k & Hk & Hbefore & Hlast & Hrun); [lia | lia |].
  exists k. split; [lia|]. split; [|split; [exact Hlast | exact Hrun]].
  intros i Hi. apply Hbefore. lia.
Qed.

End RetryFacts.

Section RetryClaims.

Import Main Spec.

Variable attempts : nat -> attempt.
Variable max_retries : nat.

Lemma sleeps_app (t1 t2 : list event) :
  sleeps (t1 ++ t2) = sleeps t1 ++ sleeps t2.
Proof.
  induction t1 as [|[| |n] t1 IH]; cbn [sleeps app]; [reflexivity | exact IH
    | exact IH | rewrite IH; reflexivity].
Qed.

Lemma sleeps_attempt_events (a : attempt) : sleeps (attempt_events a) = [].
Proof. destruct a; reflexivity. Qed.

Lemma sleeps_retry_events (n first : nat) :
  sleeps (retry_events attempts first (first + n))
  = map (fun i => 30 * Nat.pow 2 i) (seq first n).
Proof.
  revert first; induction n as [|n IH]; intros first.
  - rewrite Nat.add_0_r, retry_events_here. apply sleeps_attempt_events.
  - rewrite retry_events_step by lia. rewrite !sleeps_app, sleeps_attempt_events.
    cbn [app sleeps seq map]. f_equal.
    replace (first + S n) with (S first + n) by lia. apply IH.
Qed.

Lemma geometric_sum (n first : nat) :
  list_sum (map (fun i => 30 * Nat.pow 2 i) (seq first n))
  = 30 * Nat.pow 2 first * (Nat.pow 2 n - 1).
Proof.
  revert first; induction n as [|n IH]; intros first.
  - cbn. lia.
  - change (list_sum (map (fun i => 30 * Nat.pow 2 i) (seq first (S n))))
      with (30 * Nat.pow 2 first
            + list_sum (map (fun i => 30 * Nat.pow 2 i) (seq (S first) n))).
    rewrite IH. cbn [Nat.pow].
    assert (H1 : 1 <= Nat.pow 2 n).
    { pose proof (Nat.pow_nonzero 2 n). lia. }
    nia.
Qed.

Lemma cleaned_up_retry_events (n first : nat) :
  cleaned_up false (retry_events attempts first (first + n)) = true.
Proof.
  revert first; induction n as [|n IH]; intros first.
  - rewrite Nat.add_0_r, retry_events_here. destruct (attempts first); reflexivity.
  - rewrite retry_events_step by lia.
    replace (first + S n) with (S first + n) by lia.
    destruct (attempts first); cbn [attempt_events app cleaned_up negb andb];
      apply IH.
Qed.

(** X24: [scrape_match_with_retry] always returns, after at most
    [max_retries + 1] passes.  It stops at the first pass [k] that
    completes, raises something other than a connection error, or is
    the last one allowed.  It answers [(True, None)] exactly when pass
    [k] completes; otherwise the message is the text of the exception
    of pass [k], prefixed by the number of attempts and cut to 200
    characters when [k] was the last pass allowed.  The statement after
    the loop is never reached. *)
Theorem scrape_match_with_retry_outcome :
  exists k success error_msg trace,
    scrape_match_with_retry attempts max_retries
    = Some (success, error_msg, trace)
    /\ k <= max_retries
    /\ (forall i, i < k ->
          exists e, raised (attempts i) = Some e
                    /\ is_connection_error e = true)
    /\ match raised (attempts k) with
       | None => success = true /\ error_msg = None
       | Some e =>
           (k = max_retries \/ is_connection_error e = false)
           /\ success = false
           /\ error_msg
              = Some (if (max_retries <=? k)%nat
                      then (failed_after max_retries ++ ": "
                            ++ Py.take 200 (message e))%string
                      else message e)
       end.
Proof.
  destruct (scrape_match_with_retry_spec attempts max_retries)
    as (k & Hk & Hbefore & Hlast & Hrun).
  exists k, (fst (final_result max_retries k (attempts k))),
    (snd (final_result max_retries k (attempts k))),
    (retry_events attempts 0 k).
  split; [rewrite Hrun, <- surjective_pairing; reflexivity|].
  split; [exact Hk|]. split.
  - intros i Hi. specialize (Hbefore i Hi). unfold retried in Hbefore.
    destruct (raised (attempts i)) as [e|]; [|discriminate].
    exists e. split; [reflexivity | exact Hbefore].
  - unfold final_result. unfold retried in Hlast.
    destruct (raised (attempts k)) as [e|]; cbn [fst snd]; [|split; reflexivity].
    split; [|split; reflexivity].
    destruct (is_connection_error e); [left; apply Hlast; reflexivity|].
    right. reflexivity.
Qed.

(** X25: between two passes the loop sleeps 30, 60, 120, ... seconds,
    doubling each time: after [k] retries it has slept
    [30 * (2^k - 1)] seconds, never more than
    [30 * (2^max_retries - 1)]. *)
Theorem scrape_match_with_retry_backoff :
  exists k result trace,
    scrape_match_with_retry attempts max_retries = Some (result, trace)
    /\ k <= max_retries
    /\ (forall i, i < k -> retried (attempts i) = true)
    /\ sleeps trace = map (fun i => 30 * Nat.pow 2 i) (seq 0 k)
    /\ list_sum (sleeps trace) = 30 * (Nat.pow 2 k - 1)
    /\ list_sum (sleeps trace) <= 30 * (Nat.pow 2 max_retries - 1).
Proof.
  destruct (scrape_match_with_retry_spec attempts max_retries)
    as (k & Hk & Hbefore & _ & Hrun).
  exists k, (final_result max_retries k (attempts k)),
    (retry_events attempts 0 k).
  split; [exact Hrun|]. split; [exact Hk|]. split; [exact Hbefore|].
  pose proof (sleeps_retry_events k 0) as Hs. cbn [Nat.add] in Hs.
  rewrite Hs, geometric_sum. cbn [Nat.pow]. split; [reflexivity|].
  split; [lia|].
  pose proof (Nat.pow_le_mono_r 2 k max_retries). nia.
Qed.

(** X26: every scraper the loop constructs is handed to
    [cleanup_driver] exactly once, before the loop sleeps, before it
    constructs the next one and before it returns. *)
Theorem scrape_match_with_retry_cleans_up :
  exists result trace,
    scrape_match_with_retry attempts max_retries = Some (result, trace)
    /\ cleaned_up false trace = true.
Proof.
  destruct (scrape_match_with_retry_spec attempts max_retries)
    as (k & Hk & _ & _ & Hrun).
  exists (final_result max_retries k (attempts k)), (retry_events attempts 0 k).
  split; [exact Hrun|]. exact (cleaned_up_retry_events k 0).
Qed.

End RetryClaims.

(** ** The bookkeeping of [scrape_cricket_data] *)

Section ScrapingClaims.

Import Main Spec.

Variable tracker_init : bool.
Variable fetches : nat -> fetch.
Variable tracker_exists : nat -> string -> bool.
Variable attempts : nat -> nat -> attempt.

Lemma fetch_schedule_from_returns (fuel schedule_max_retries retry_count : nat) :
  retry_count <= schedule_max_retries ->
  schedule_max_retries - retry_count < fuel ->
  exists r,
    fetch_schedule_from fetches fuel schedule_max_retries retry_count = Some r.
Proof.
  revert retry_count.
  induction fuel as [|fuel IH]; intros retry_count Hle Hlt; [lia|].
  cbn [fetch_schedule_from]. rewrite (leb_correct _ _ Hle).
  destruct (fetches retry_count) as [match_links|e]; [eexists; reflexivity|].
  destruct (is_connection_error e && (retry_count <? schedule_max_retries)%nat)
    eqn:Ec; [|eexists; reflexivity].
  apply andb_true_iff in Ec as [_ Ec]. apply Nat.ltb_lt in Ec.
  apply IH; lia.
Qed.

(** The loop over the links returns, and counts each link once. *)
Lemma scrape_links_counts (links : list string) (idx : nat) (r : results) :
  exists r',
    scrape_links tracker_exists attempts idx links r = Some r'
    /\ total_found r' = total_found r
    /\ status r' = status r
    /\ downloaded r' + skipped r' + failed r'
       = downloaded r + skipped r + failed r + length links.
Proof.
  revert idx r; induction links as [|url links IH]; intros idx r.
  - exists r. cbn. repeat split; lia.
  - assert (Hnext : forall r1,
               total_found r1 = total_found r -> status r1 = status r ->
               downloaded r1 + skipped r1 + failed r1
               = downloaded r + skipped r + failed r + 1 ->
               exists r',
                 scrape_links tracker_exists attempts (S idx) links r1 = Some r'
                 /\ total_found r' = total_found r
                 /\ status r' = status r
                 /\ downloaded r' + skipped r' + failed r'
                    = downloaded r + skipped r + failed r + length (url :: links)).
    { intros r1 H1 H2 H3. destruct (IH (S idx) r1) as (r' & Hr & Ht & Hs & Hc).
      exists r'. split; [exact Hr|]. cbn [length]. repeat split; lia || congruence. }
    cbn [scrape_links].
    destruct (extract_match_id url) as [[|c match_id]|];
      try (apply Hnext; cbn; lia || reflexivity).
    destruct (tracker_exists idx (String c match_id));
      [apply Hnext; cbn; lia || reflexivity|].
    destruct (scrape_match_with_retry_spec (attempts idx) MAX_RETRIES)
      as (k & _ & _ & _ & ->).
    destruct (final_result MAX_RETRIES k (attempts idx k)) as [[|] error_msg];
      apply Hnext; cbn; lia || reflexivity.
Qed.

(** X27: [scrape_cricket_data] returns, and its counters add up: every
    scorecard link is counted exactly once as downloaded, skipped or
    failed, whatever the tracker answers and however the downloads
    end; with the status ['failed'] all counters are zero. *)
Theorem scrape_cricket_data_accounting :
  exists r,
    scrape_cricket_data tracker_init fetches tracker_exists attempts = Some r
    /\ downloaded r + skipped r + failed r = total_found r
    /\ (status r = "success"
        \/ status r = "failed" /\ total_found r = 0).
Proof.
  unfold scrape_cricket_data.
  destruct tracker_init; cbn [negb];
    [|eexists; split; [reflexivity|]; split; [reflexivity | right; split; reflexivity]].
  unfold fetch_schedule.
  destruct (fetch_schedule_from_returns 5 3 0) as ([match_links|] & ->);
    [lia | lia | |
     eexists; split; [reflexivity|]; split; [reflexivity | right; split; reflexivity]].
  destruct (scorecard_links match_links) as [|url links] eqn:El;
    [eexists; split; [reflexivity|]; split; [reflexivity | left; reflexivity]|].
  destruct (scrape_links_counts (url :: links) 1
              (mkResults (length (url :: links)) 0 0 0 "success"))
    as (r & Hr & Ht & Hs & Hc).
  exists r. split; [exact Hr|]. cbn in Ht, Hs, Hc. split; [cbn; lia|].
  left. exact Hs.
Qed.

End ScrapingClaims.

(** ** The page loading of [_navigate_with_retry] *)

Section NavigationClaims.

Import MatchScraper Spec.

Variable loads : nat -> load.
Variable max_retries : nat.
Variable description : string.

Lemma loads_made_app (t1 t2 : list step) :
  loads_made (t1 ++ t2) = loads_made t1 + loads_made t2.
Proof.
  induction t1 as [|[| |n] t1 IH]; cbn [loads_made app]; lia.
Qed.

Lemma waited_app (t1 t2 : list step) :
  waited (t1 ++ t2) = waited t1 + waited t2.
Proof.
  induction t1 as [|[| |n] t1 IH]; cbn [waited app]; lia.
Qed.

(** The loop over the attempts [first], ..., [max_retries]: it stops at
    the first attempt [k] that loads or raises an exception of another
    class, or it goes through all of them ([k] is [max_retries + 1]). *)
Lemma navigate_from_spec (n first : nat) (last_exception : option string)
    (trace : list step) :
  first + n = S max_retries ->
  exists k,
    first <= k <= S max_retries
    /\ (forall i, first <= i < k -> caught (loads i) <> None)
    /\ let (result, trace') :=
         navigate_from loads max_retries description (seq first n)
           last_exception trace in
       loads_made trace'
       = loads_made trace + (Nat.min k max_retries + 1 - first)
       /\ if (k <=? max_retries)%nat then
            (loads k = Loads /\ result = Returned
             \/ exists e, loads k = OtherRaises e /\ result = Propagated e)
            /\ waited trace' + 5 * first * first
               <= waited trace + 5 * k * k + 8
          else
            result
            = Raised
                ("Failed to load " ++ description ++ " after "
                 ++ Py.str_of_nat max_retries ++ " attempts: "
                 ++ str_of_exception
                      (if (n =? 0)%nat then last_exception
                       else caught (loads max_retries)))%string
            /\ (n = 0 -> trace' = trace)
            /\ (0 < n ->
                (exists t, trace' = t ++ [Get])
                /\ waited trace' + 5 * first * first
                   <= waited trace + 5 * max_retries * max_retries).
Proof.
  revert first last_exception trace.
  induction n as [|n IH]; intros first last_exception trace Hn.
  - exists (S max_retries). split; [lia|]. split; [intros i Hi; lia|].
    cbn [seq navigate_from]. split; [rewrite Nat.min_r by lia; lia|].
    rewrite (leb_correct_conv max_retries (S max_retries)) by lia.
    split; [reflexivity|]. split; [reflexivity | intros H; lia].
  - cbn [seq navigate_from].
    assert (Hfail : forall e trace1,
               caught (loads first) = Some e ->
               loads_made trace1 = loads_made trace + 1 ->
               waited trace1
               <= waited trace
                  + (if (first <? max_retries)%nat then 10 * first + 5 else 0) ->
               (first = max_retries -> trace1 = trace ++ [Get]) ->
               exists k,
                 first <= k <= S max_retries
                 /\ (forall i, first <= i < k -> caught (loads i) <> None)
                 /\ let (result, trace') :=
                      navigate_from loads max_retries description
                        (seq (S first) n) (Some e) trace1 in
                    loads_made trace'
                    = loads_made trace + (Nat.min k max_retries + 1 - first)
                    /\ if (k <=? max_retries)%nat then
                         (loads k = Loads /\ result = Returned
                          \/ exists e', loads k = OtherRaises e'
                                        /\ result = Propagated e')
                         /\ waited trace' + 5 * first * first
                            <= waited trace + 5 * k * k + 8
                       else
                         result
                         = Raised
                             ("Failed to load " ++ description ++ " after "
                              ++ Py.str_of_nat max_retries ++ " attempts: "
                              ++ str_of_exception
                                   (if (S n =? 0)%nat then last_exception
                                    else caught (loads max_retries)))%string
                         /\ (S n = 0 -> trace' = trace)
                         /\ (0 < S n ->
                             (exists t, trace' = t ++ [Get])
                             /\ waited trace' + 5 * first * first
                                <= waited trace
                                   + 5 * max_retries * max_retries)).
    { intros e trace1 He Hloads Hwait Hlast.
      destruct (IH (S first) (Some e) trace1) as (k & Hk & Hbefore & Hrun);
        [lia|].
      exists k. split; [lia|]. split.
      { intros i Hi. destruct (Nat.eq_dec i first) as [->|Hne].
        - rewrite He. discriminate.
        - apply Hbefore. lia. }
      destruct (navigate_from loads max_retries description (seq (S first) n)
                  (Some e) trace1) as [result trace'].
      destruct Hrun as [Hmade Hrun]. split; [lia|].
      destruct (k <=? max_retries)%nat eqn:Ek.
      - apply Nat.leb_le in Ek. destruct Hrun as [Hres Hw].
        split; [exact Hres|].
        rewrite (proj2 (Nat.ltb_lt first max_retries)) in Hwait by lia. nia.
      - destruct Hrun as (Hres & Hzero & Hpos). cbn [Nat.eqb].
        split; [|split; [intros H; lia|intros _]].
        + rewrite Hres. destruct n as [|n']; cbn [Nat.eqb]; [|reflexivity].
          replace max_retries with first by lia. rewrite He. reflexivity.
        + destruct n as [|n'].
          * rewrite (Hzero eq_refl). assert (first = max_retries) by lia.
            split; [exists trace; apply Hlast; assumption|].
            rewrite (proj2 (Nat.ltb_ge first max_retries)) in Hwait by lia.
            nia.
          * destruct Hpos as [Hend Hw]; [lia|]. split; [exact Hend|].
            rewrite (proj2 (Nat.ltb_lt first max_retries)) in Hwait by lia.
            nia. }
    destruct (loads first) as [|e refreshed|e|e] eqn:El.
    + exists first. split; [lia|]. split; [intros i Hi; lia|].
      rewrite loads_made_app, waited_app. cbn [loads_made waited].
      split; [rewrite Nat.min_l by lia; lia|].
      rewrite (leb_correct first max_retries) by lia.
      split; [left; split; [exact El | reflexivity] | lia].
    + apply Hfail; [reflexivity | | |].
      * destruct (first <? max_retries)%nat, refreshed;
          rewrite ?loads_made_app; cbn [loads_made]; lia.
      * destruct (first <? max_retries)%nat, refreshed;
          rewrite ?waited_app; cbn [waited]; lia.
      * intros ->. rewrite Nat.ltb_irrefl. reflexivity.
    + apply Hfail; [reflexivity | | |].
      * destruct (first <? max_retries)%nat;
          rewrite ?loads_made_app; cbn [loads_made]; lia.
      * destruct (first <? max_retries)%nat;
          rewrite ?waited_app; cbn [waited]; lia.
      * intros ->. rewrite Nat.ltb_irrefl. reflexivity.
    + exists first. split; [lia|]. split; [intros i Hi; lia|].
      rewrite loads_made_app, waited_app. cbn [loads_made waited].
      split; [rewrite Nat.min_l by lia; lia|].
      rewrite (leb_correct first max_retries) by lia.
      split; [right; exists e; split; [exact El | reflexivity] | lia].
Qed.

(** X28: [_navigate_with_retry] loads the page at most [max_retries]
    times.  It returns at the first attempt that loads, lets through
    the first exception that is neither a timeout nor a driver error,
    and makes the next attempt after a timeout or a driver error.  When
    all [max_retries] attempts fail this way it raises an error whose
    message ends with the text of the exception of the last attempt
    (with [None] when no attempt is allowed). *)
Theorem navigate_with_retry_outcome :
  let (result, trace) := _navigate_with_retry loads max_retries description in
  exists k,
    1 <= k <= S max_retries
    /\ (forall i, 1 <= i < k -> caught (loads i) <> None)
    /\ match result with
       | Returned =>
           k <= max_retries /\ loads k = Loads /\ loads_made trace = k
       | Propagated e =>
           k <= max_retries /\ loads k = OtherRaises e /\ loads_made trace = k
       | Raised error_msg =>
           k = S max_retries
           /\ loads_made trace = max_retries
           /\ error_msg
              = ("Failed to load " ++ description ++ " after "
                 ++ Py.str_of_nat max_retries ++ " attempts: "
                 ++ str_of_exception
                      (match max_retries with
                       | O => None
                       | _ => caught (loads max_retries)
                       end))%string
       end.
Proof.
  unfold _navigate_with_retry.
  destruct (navigate_from_spec max_retries 1 None []) as (k & Hk & Hbefore & Hrun);
    [lia|].
  destruct (navigate_from loads max_retries description (seq 1 max_retries)
              None []) as [result trace].
  exists k. split; [exact Hk|]. split; [exact Hbefore|].
  destruct Hrun as [Hmade Hrun]. cbn [loads_made] in Hmade.
  destruct (k <=? max_retries)%nat eqn:Ek.
  - apply Nat.leb_le in Ek. rewrite Nat.min_l in Hmade by lia.
    destruct Hrun as [[[Hl ->]|(e & Hl & ->)] _]; (split; [exact Ek|]);
      (split; [exact Hl | lia]).
  - apply Nat.leb_gt in Ek. rewrite Nat.min_r in Hmade by lia.
    destruct Hrun as (-> & _ & _). split; [lia|]. split; [lia|].
    destruct max_retries; reflexivity.
Qed.

(** X29: the waiting of [_navigate_with_retry] is bounded: it adds up
    to at most [5 * max_retries^2 + 3] seconds (48 seconds for three
    attempts), and when all attempts fail, nothing is waited for after
    the last one. *)
Theorem navigate_with_retry_waits :
  let (result, trace) := _navigate_with_retry loads max_retries description in
  waited trace <= 5 * max_retries * max_retries + 3
  /\ forall error_msg,
       result = Raised error_msg ->
       trace = [] \/ exists t, trace = t ++ [Get].
Proof.
  unfold _navigate_with_retry.
  destruct (navigate_from_spec max_retries 1 None []) as (k & Hk & _ & Hrun);
    [lia|].
  destruct (navigate_from loads max_retries description (seq 1 max_retries)
              None []) as [result trace].
  destruct Hrun as [_ Hrun]. cbn [waited] in Hrun.
  destruct (k <=? max_retries)%nat eqn:Ek.
  - apply Nat.leb_le in Ek. destruct Hrun as [Hres Hw]. split; [nia|].
    intros error_msg ->. destruct Hres as [[_ [=]]|(e & _ & [=])].
  - destruct Hrun as (_ & Hzero & Hpos). destruct max_retries as [|m].
    + rewrite (Hzero eq_refl). split; [cbn; lia | intros; left; reflexivity].
    + destruct Hpos as [Hend Hw]; [lia|]. split; [lia|].
      intros; right; exact Hend.
Qed.

End NavigationClaims.

(** ** The links of the schedule page *)

Section ScheduleClaims.

Import ScheduleScraper Spec.

Lemma NoDup_snoc {A : Type} (l : list A) (x : A) :
  List.NoDup l -> ~ In x l -> List.NoDup (l ++ [x]).
Proof.
  intros Hl Hx. apply (Permutation_NoDup (l := x :: l)).
  - apply Permutation_cons_append.
  - constructor; assumption.
Qed.

(** What [collect_hrefs] adds to [hrefs]: links not yet there, each
    made from the [href] of one of the tags. *)
Lemma collect_hrefs_spec (links : list Html.element) (hrefs : list string) :
  List.NoDup hrefs ->
  List.NoDup (collect_hrefs links hrefs)
  /\ forall url,
       In url (collect_hrefs links hrefs) ->
       In url hrefs
       \/ exists link href,
            In link links
            /\ Html.get link "href" = Some href
            /\ Py.truthy href = true
            /\ Py.contains "Match yet to begin" href = false
            /\ url = if String.prefix "/" href
                     then ("https://www.espncricinfo.com" ++ href)%string
                     else href.
Proof.
  revert hrefs; induction links as [|link links IH]; intros hrefs Hnd.
  - split; [exact Hnd | intros url Hin; left; exact Hin].
  - assert (Hskip : List.NoDup (collect_hrefs links hrefs)
                    /\ forall url,
                         In url (collect_hrefs links hrefs) ->
                         In url hrefs
                         \/ exists link' href,
                              In link' (link :: links)
                              /\ Html.get link' "href" = Some href
                              /\ Py.truthy href = true
                              /\ Py.contains "Match yet to begin" href = false
                              /\ url = if String.prefix "/" href
                                       then ("https://www.espncricinfo.com"
                                             ++ href)%string
                                       else href).
    { destruct (IH hrefs Hnd) as [H1 H2]. split; [exact H1|].
      intros url Hin. destruct (H2 url Hin) as [H|(l & h & Hl & H)];
        [left; exact H|].
      right. exists l, h. split; [right; exact Hl | exact H]. }
    cbn [collect_hrefs].
    destruct (Html.get link "href") as [href|] eqn:Eg; [|exact Hskip].
    destruct (Py.truthy href && negb (Py.contains "Match yet to begin" href))
      eqn:Ec; [|exact Hskip].
    apply andb_true_iff in Ec as [Et Ec]. apply negb_true_iff in Ec.
    set (full_link := if String.prefix "/" href
                      then ("https://www.espncricinfo.com" ++ href)%string
                      else href).
    destruct (negb (existsb (String.eqb full_link) hrefs)) eqn:Ee;
      [|exact Hskip].
    assert (Hnew : ~ In full_link hrefs).
    { intros Hin. apply negb_true_iff in Ee.
      assert (Hex : existsb (String.eqb full_link) hrefs = true).
      { apply existsb_exists. exists full_link.
        split; [exact Hin | apply String.eqb_refl]. }
      rewrite Hex in Ee. discriminate. }
    destruct (IH (hrefs ++ [full_link]) (NoDup_snoc hrefs full_link Hnd Hnew))
      as [H1 H2].
    split; [exact H1|]. intros url Hin.
    destruct (H2 url Hin) as [H|(l & h & Hl & H)].
    + apply in_app_or in H as [H|[<-|[]]]; [left; exact H|].
      right. exists link, href. split; [left; reflexivity|]. auto.
    + right. exists l, h. split; [right; exact Hl | exact H].
Qed.

Lemma find_all_has_href (flt : Bs4.class_filter) (soup link : Html.element)
    (href : string) :
  In link (Html.find_all "a" flt Html.any_attrs soup) ->
  Html.get link "href" = Some href ->
  In link (Html.find_all "a" Bs4.AnyClass has_href soup).
Proof.
  unfold Html.find_all, Html.find_all_at. intros Hin Hg.
  apply in_map_iff in Hin as ([place e] & He & Hin). cbn in He. subst e.
  apply filter_In in Hin as [Hin Hm]. apply in_map_iff.
  exists (place, link). split; [reflexivity|]. apply filter_In.
  split; [exact Hin|]. cbn [snd] in *. unfold Html.matches in *.
  destruct link as [name attrs class_ contents|]; [|discriminate].
  apply andb_true_iff in Hm as [Hm _]. apply andb_true_iff in Hm as [Hm _].
  rewrite Hm. cbn [Bs4.matches_class andb]. unfold has_href. rewrite Hg.
  reflexivity.
Qed.

Variable BeautifulSoup : string -> option Html.element.

(** X30: the links returned by [fetch_hrefs] are pairwise different, so
    that no scorecard link is processed twice in a run; none is empty
    or starts with a slash; each one is the [href] of an [a] tag of the
    page, with the site put before it when it starts with a slash, and
    that [href] does not contain ["Match yet to begin"]. *)
Theorem fetch_hrefs_links (page_source : option string) :
  List.NoDup (fetch_hrefs BeautifulSoup page_source)
  /\ List.NoDup (Main.scorecard_links (fetch_hrefs BeautifulSoup page_source))
  /\ forall url,
       In url (fetch_hrefs BeautifulSoup page_source) ->
       url <> EmptyString
       /\ String.prefix "/" url = false
       /\ exists html soup link href,
            page_source = Some html
            /\ BeautifulSoup html = Some soup
            /\ In link (Html.find_all "a" Bs4.AnyClass has_href soup)
            /\ Html.get link "href" = Some href
            /\ Py.contains "Match yet to begin" href = false
            /\ url = if String.prefix "/" href
                     then ("https://www.espncricinfo.com" ++ href)%string
                     else href.
Proof.
  assert (Hmain : List.NoDup (fetch_hrefs BeautifulSoup page_source)
                  /\ forall url,
                       In url (fetch_hrefs BeautifulSoup page_source) ->
                       exists html soup link href,
                         page_source = Some html
                         /\ BeautifulSoup html = Some soup
                         /\ In link (Html.find_all "a" Bs4.AnyClass has_href soup)
                         /\ Html.get link "href" = Some href
                         /\ Py.truthy href = true
                         /\ Py.contains "Match yet to begin" href = false
                         /\ url = if String.prefix "/" href
                                  then ("https://www.espncricinfo.com"
                                        ++ href)%string
                                  else href).
  { unfold fetch_hrefs.
    destruct page_source as [html|]; [|split; [constructor | intros url []]].
    destruct (BeautifulSoup html) as [soup|] eqn:Es;
      [|split; [constructor | intros url []]].
    unfold match_hrefs.
    set (links := match Html.find_all "a" (Bs4.ClassIs "ds-no-tap-higlight")
                          Html.any_attrs soup with
                  | [] => Html.find_all "a" Bs4.AnyClass has_href soup
                  | l => l
                  end).
    assert (Hlinks : forall link href,
               In link links -> Html.get link "href" = Some href ->
               In link (Html.find_all "a" Bs4.AnyClass has_href soup)).
    { intros link href Hin Hg. subst links.
      destruct (Html.find_all "a" (Bs4.ClassIs "ds-no-tap-higlight")
                  Html.any_attrs soup) as [|l0 ls] eqn:Ef; [exact Hin|].
      apply (find_all_has_href (Bs4.ClassIs "ds-no-tap-higlight") soup link href);
        [rewrite Ef; exact Hin | exact Hg]. }
    destruct (collect_hrefs_spec links [] (List.NoDup_nil _)) as [H1 H2].
    split; [exact H1|]. intros url Hin.
    destruct (H2 url Hin) as [[]|(link & href & Hl & Hg & Ht & Hc & Hu)].
    exists html, soup, link, href. split; [reflexivity|]. split; [exact Es|].
    split; [exact (Hlinks link href Hl Hg)|]. auto. }
  destruct Hmain as [H1 H2]. split; [exact H1|].
  split; [apply List.NoDup_filter; exact H1|].
  intros url Hin.
  destruct (H2 url Hin) as (html & soup & link & href & Hp & Hs & Hl & Hg & Ht & Hc & Hu).
  assert (Hshape : url <> EmptyString /\ String.prefix "/" url = false).
  { subst url. destruct (String.prefix "/" href) eqn:Ep.
    - split; [discriminate | reflexivity].
    - split; [|exact Ep]. destruct href; [discriminate Ht | discriminate]. }
  destruct Hshape as [Hne Hslash]. split; [exact Hne|]. split; [exact Hslash|].
  exists html, soup, link, href. auto 10.
Qed.

End ScheduleClaims.
